(** * Request context and audit logging of the starter backend

    A shallow embedding of
      - [app/core/context.py]      (the request context and its ContextVar),
      - [app/core/middleware.py]   (RequestContextMiddleware.dispatch),
      - [app/abstractions/audit_logger.py] (AuditEntry, DatabaseAuditLogger,
        LoggingAuditLogger) and
      - [app/models/audit_log.py]  (the audit_logs table),
    followed by the properties of the specification that these files decide.

    Conventions.  A Python [str] is a [string], one [ascii] per character
    (the Latin-1 range).  A [datetime] is the instant it denotes, in
    microseconds, as a [Z].  [Optional[T]] is [option T].  Code that raises
    returns [Raise]; code that reads or writes the database session or the
    [logging] stream runs in the monad [M].  Values that Python draws at
    random ([uuid4()]) or reads from the clock are explicit arguments. *)

From Stdlib Require Import ZArith NArith List String Ascii Bool Lia.
From Stdlib Require Import Sorting.Sorted Sorting.Permutation.
From stdpp Require Import gmap strings.

Import ListNotations.
Local Open Scope string_scope.
Local Open Scope list_scope.

(** ** Exceptions and results *)

Inductive exn : Type :=
| ValueError (msg : string)
| RuntimeError (msg : string)
| TypeError (msg : string)
    (* a keyword argument given twice *)
| ValidationError (missing invalid : list string)
    (* pydantic: required fields not given, fields of the wrong type *)
| DBAPIError (msg : string)
    (* the statement was refused by the database *)
| PendingRollbackError.
    (* the session's transaction was rolled back when a flush failed *)

Inductive result (A : Type) : Type :=
| Ok (a : A)
| Raise (e : exn).
Arguments Ok {A} a.
Arguments Raise {A} e.

Definition rbind {A B} (r : result A) (k : A -> result B) : result B :=
  match r with
  | Ok a => k a
  | Raise e => Raise e
  end.

(** ** Python strings *)

Module PyStr.

Definition chr (n : nat) : ascii := ascii_of_nat n.

(** [str.isspace] on one character of the Latin-1 range. *)
Definition isspace (c : ascii) : bool :=
  let n := nat_of_ascii c in
  ((9 <=? n) && (n <=? 13) || (28 <=? n) && (n <=? 32)
   || (n =? 133) || (n =? 160))%nat.

Fixpoint lstrip (p : ascii -> bool) (s : string) : string :=
  match s with
  | EmptyString => EmptyString
  | String c s' => if p c then lstrip p s' else s
  end.

(** Drops the trailing characters that satisfy [p]. *)
Fixpoint rstrip (p : ascii -> bool) (s : string) : string :=
  match s with
  | EmptyString => EmptyString
  | String c s' =>
      match rstrip p s' with
      | EmptyString => if p c then EmptyString else String c EmptyString
      | r => String c r
      end
  end.

(** [s.strip()] *)
Definition strip (s : string) : string := rstrip isspace (lstrip isspace s).

Fixpoint mem (c : ascii) (chars : string) : bool :=
  match chars with
  | EmptyString => false
  | String d chars' => Ascii.eqb c d || mem c chars'
  end.

(** [s.strip(chars)] *)
Definition strip_chars (chars s : string) : string :=
  rstrip (fun c => mem c chars) (lstrip (fun c => mem c chars) s).

(** [s.split(sep)[0]] for a one-character separator. *)
Fixpoint split_head (sep : ascii) (s : string) : string :=
  match s with
  | EmptyString => EmptyString
  | String c s' =>
      if Ascii.eqb c sep then EmptyString else String c (split_head sep s')
  end.

(** [s.replace(old, '')] for a non-empty [old]: the occurrences of [old]
    are removed from left to right, without overlap.  [skip] counts the
    characters of an occurrence still to be dropped. *)
Fixpoint remove_from (skip : nat) (old s : string) : string :=
  match s with
  | EmptyString => EmptyString
  | String c s' =>
      match skip with
      | S k => remove_from k old s'
      | O =>
          if String.prefix old s
          then remove_from (String.length old - 1) old s'
          else String c (remove_from 0 old s')
      end
  end.

Definition remove (old s : string) : string :=
  match old with
  | EmptyString => s
  | _ => remove_from 0 old s
  end.

Definition lower_char (c : ascii) : ascii :=
  let n := nat_of_ascii c in
  if ((65 <=? n) && (n <=? 90))%nat then chr (n + 32) else c.

Fixpoint lower (s : string) : string :=
  match s with
  | EmptyString => EmptyString
  | String c s' => String (lower_char c) (lower s')
  end.

(** Truth value of a string: only the empty string is false. *)
Definition truthy (s : string) : bool :=
  match s with
  | EmptyString => false
  | _ => true
  end.

End PyStr.

(** ** [uuid.UUID] of the Python standard library

    [UUID hex] is the constructor called on a string, [uuid_str] is [str()]
    of a UUID.  A UUID is its 128-bit integer. *)

Module PyUUID.

Definition uuid : Type := N.

Definition digit_value (c : ascii) : option N :=
  let n := N_of_ascii c in
  if ((48 <=? n) && (n <=? 57))%N then Some (n - 48)%N
  else if ((97 <=? n) && (n <=? 102))%N then Some (n - 87)%N
  else if ((65 <=? n) && (n <=? 70))%N then Some (n - 55)%N
  else None.

(** The characters that [int()] skips around the digits. *)
Definition int_space (c : ascii) : bool :=
  let n := nat_of_ascii c in
  ((9 <=? n) && (n <=? 13) || (n =? 32) || (n =? 133) || (n =? 160))%nat.

Definition underscore : ascii := "_"%char.

(** The digits of [int(s, 16)]: hexadecimal digits, single underscores
    between them.  [prev] is true when an underscore may not come next (at
    the start and after an underscore), [seen] when a digit has been
    read. *)
Fixpoint hex_digits (prev seen : bool) (acc : N) (s : string) : option N :=
  match s with
  | EmptyString => if prev || negb seen then None else Some acc
  | String c s' =>
      if Ascii.eqb c underscore
      then if prev then None else hex_digits true seen acc s'
      else match digit_value c with
           | Some d => hex_digits false true (16 * acc + d)%N s'
           | None => None
           end
  end.

(** [int(s, 16)], as a natural number with its sign. *)
Definition int16 (s : string) : option (bool * N) :=
  let s := PyStr.rstrip int_space (PyStr.lstrip int_space s) in
  let '(neg, s) :=
    match s with
    | String "+"%char s' => (false, s')
    | String "-"%char s' => (true, s')
    | _ => (false, s)
    end in
  let s :=
    (* the base prefix, and the one underscore allowed after it *)
    match s with
    | String "0"%char (String "x"%char s')
    | String "0"%char (String "X"%char s') =>
        match s' with
        | String "_"%char s'' => s''
        | _ => s'
        end
    | _ => s
    end in
  match hex_digits true false 0%N s with
  | Some n => Some (neg, n)
  | None => None
  end.

(** [UUID(hex)]: [ValueError] is [None]. *)
Definition UUID (hex : string) : option uuid :=
  let hex := PyStr.remove "uuid:" (PyStr.remove "urn:" hex) in
  let hex := PyStr.remove "-" (PyStr.strip_chars "{}" hex) in
  if negb (String.length hex =? 32)%nat then None
  else match int16 hex with
       | Some (false, n) => if (n <? 2 ^ 128)%N then Some n else None
       | Some (true, n) => if (n =? 0)%N then Some 0%N else None
       | None => None
       end.

Definition hex_char (d : N) : ascii :=
  if (d <? 10)%N then ascii_of_N (48 + d) else ascii_of_N (87 + d).

(** The [k] low hexadecimal digits of [n], most significant first. *)
Fixpoint hex_of (k : nat) (n : N) (tail : string) : string :=
  match k with
  | O => tail
  | S k' => hex_of k' (n / 16)%N (String (hex_char (n mod 16)%N) tail)
  end.

(** [str(u)]: ['%032x' % int] cut 8-4-4-4-12. *)
Definition uuid_str (u : uuid) : string :=
  let hex := hex_of 32 u EmptyString in
  String.substring 0 8 hex ++ "-" ++ String.substring 8 4 hex ++ "-"
  ++ String.substring 12 4 hex ++ "-" ++ String.substring 16 4 hex ++ "-"
  ++ String.substring 20 12 hex.

(** A string is canonical when [str(UUID(s)) == s]: 32 lower-case
    hexadecimal digits, hyphenated 8-4-4-4-12. *)
Definition canonical (s : string) : Prop :=
  exists u, UUID s = Some u /\ uuid_str u = s.

End PyUUID.

Example UUID_examples :
  PyUUID.UUID "123E4567-e89b-12d3-a456-426614174000"
    = Some 24249434048109030647017182301789831168%N
  /\ PyUUID.uuid_str 24249434048109030647017182301789831168%N
    = "123e4567-e89b-12d3-a456-426614174000"
  /\ PyUUID.UUID "{urn:uuid:123e4567e89b12d3a456426614174000}"
    = Some 24249434048109030647017182301789831168%N
  /\ PyUUID.UUID "0x3e4567e89b12d3a456426614174000"
    = Some 323330123980544934748655216743628800%N
  /\ PyUUID.UUID "1_3e4567e89b12d3a456426614174000"
    = Some 1652558119765460807652462277023973376%N
  /\ PyUUID.UUID " 23e4567e89b12d3a456426614174000"
    = Some 2981786115550376680556269337304317952%N
  /\ PyUUID.UUID "+23e4567e89b12d3a456426614174000"
    = Some 2981786115550376680556269337304317952%N
  /\ PyUUID.UUID "0x_e4567e89b12d3a456426614174000"
    = Some 74099874770873208579191392941064192%N
  /\ PyUUID.UUID "_23e4567e89b12d3a456426614174000" = None
  /\ PyUUID.UUID "1__e4567e89b12d3a456426614174000" = None
  /\ PyUUID.UUID "123e4567-e89b-12d3-a456-42661417400g" = None
  /\ PyUUID.UUID "default" = None
  /\ PyUUID.UUID "" = None.
Proof. vm_compute. repeat split; reflexivity. Qed.

(** ** app/core/context.py *)

Module Context.

Record RequestContext : Type := {
  request_id : string;
  tenant_id : string;
  user_id : option string;
  user_email : option string;
  user_roles : list string;
  session_id : option string;
  client_ip : option string;
  user_agent : option string
}.

Definition has_role (self : RequestContext) (role : string) : bool :=
  existsb (String.eqb role) (user_roles self).

Definition is_admin (self : RequestContext) : bool := has_role self "admin".

(** The value of the ContextVar [_request_context] in the context of the
    running task; its default is [None]. *)
Definition ContextVar : Type := option RequestContext.

Definition _request_context_default : ContextVar := None.

Definition set_request_context (ctx : RequestContext) (var : ContextVar)
  : ContextVar :=
  Some ctx.

Definition get_request_context (var : ContextVar) : result RequestContext :=
  match var with
  | None =>
      Raise (RuntimeError "No request context available - are you in a request?")
  | Some ctx => Ok ctx
  end.

Definition get_optional_request_context (var : ContextVar)
  : option RequestContext :=
  var.

Definition get_tenant_id (var : ContextVar) : result string :=
  rbind (get_request_context var) (fun ctx => Ok (tenant_id ctx)).

Definition get_user_id (var : ContextVar) : option string :=
  match get_optional_request_context var with
  | Some ctx => user_id ctx
  | None => None
  end.

Definition get_request_id (var : ContextVar) : result string :=
  rbind (get_request_context var) (fun ctx => Ok (request_id ctx)).

End Context.

(** ** app/core/middleware.py *)

Module Middleware.

(** The part of a Starlette request that [dispatch] reads: the raw header
    list (ASGI gives the names in lower case) and the peer address. *)
Record Request : Type := {
  headers : list (string * string);
  client : option (string * Z)
}.

Record Response : Type := {
  response_headers : list (string * string)
}.

(** [headers.get(key)]: the value of the first header whose raw name is
    the lower-cased key. *)
Fixpoint headers_get (hs : list (string * string)) (key : string)
  : option string :=
  match hs with
  | [] => None
  | (name, value) :: hs' =>
      if String.eqb name (PyStr.lower key) then Some value
      else headers_get hs' key
  end.

(** [headers.get(key, default)] *)
Definition headers_get_default (hs : list (string * string))
    (key default : string) : string :=
  match headers_get hs key with
  | Some value => value
  | None => default
  end.

(** [response.headers[key] = value]: the first header of that name is
    overwritten and later ones are dropped; a new name is appended. *)
Fixpoint headers_set (hs : list (string * string)) (key value : string)
  : list (string * string) :=
  match hs with
  | [] => [(PyStr.lower key, value)]
  | (name, old) :: hs' =>
      if String.eqb name (PyStr.lower key)
      then (name, value)
             :: List.filter (fun h => negb (String.eqb (fst h) (PyStr.lower key))) hs'
      else (name, old) :: headers_set hs' key value
  end.

(** The body of [RequestContextMiddleware.dispatch] up to the construction
    of the context; [uuid4] is the value drawn by [uuid.uuid4()]. *)
Definition dispatch_context (request : Request) (uuid4 : PyUUID.uuid)
  : Context.RequestContext :=
  let request_id :=
    headers_get_default (headers request) "X-Request-ID"
      (PyUUID.uuid_str uuid4) in
  let tenant_id :=
    headers_get_default (headers request) "X-Tenant-ID" "default" in
  let client_ip : option string := None in
  let client_ip :=
    match client request with
    | Some (host, _) => Some host
    | None => client_ip
    end in
  let forwarded_for := headers_get (headers request) "X-Forwarded-For" in
  let client_ip :=
    match forwarded_for with
    | Some ff =>
        if PyStr.truthy ff
        then Some (PyStr.strip (PyStr.split_head ","%char ff))
        else client_ip
    | None => client_ip
    end in
  {| Context.request_id := request_id;
     Context.tenant_id := tenant_id;
     Context.user_id := None;
     Context.user_email := None;
     Context.user_roles := [];
     Context.session_id := None;
     Context.client_ip := client_ip;
     Context.user_agent := headers_get (headers request) "User-Agent" |}.

(** [RequestContextMiddleware.dispatch]: the context is installed, the
    rest of the application runs with it, and the request id is written
    on the response. *)
Definition dispatch (request : Request)
    (call_next : Request -> Context.ContextVar -> Response * Context.ContextVar)
    (uuid4 : PyUUID.uuid) (var : Context.ContextVar)
  : Response * Context.ContextVar :=
  let ctx := dispatch_context request uuid4 in
  let var := Context.set_request_context ctx var in
  let '(response, var) := call_next request var in
  ({| response_headers :=
        headers_set (response_headers response) "X-Request-ID"
          (Context.request_id ctx) |}, var).

End Middleware.

(** ** app/models/audit_log.py *)

(** JSON values, the content of the JSONB columns. *)
#[local] Unset Elimination Schemes.
Inductive json : Type :=
| JNull
| JBool (b : bool)
| JInt (n : Z)
| JStr (s : string)
| JList (l : list json)
| JDict (d : list (string * json)).
#[local] Set Elimination Schemes.

Definition pydict : Type := list (string * json).

Module AuditLogModel.

(** One row of the table [audit_logs]. *)
Record AuditLog : Type := {
  id : PyUUID.uuid;
  actor_id : PyUUID.uuid;
  actor_type : string;
  actor_ip : option string;
  action : string;
  action_detail : option string;
  resource_type : string;
  resource_id : string;
  tenant_id : PyUUID.uuid;
  request_id : PyUUID.uuid;
  session_id : option PyUUID.uuid;
  timestamp : Z;
  old_values : option pydict;
  new_values : option pydict;
  success : bool;
  error_message : option string;
  data_classification : string
}.

Definition NUL : ascii := Ascii.zero.

Fixpoint all_spaces (s : string) : bool :=
  match s with
  | EmptyString => true
  | String c s' => Ascii.eqb c " "%char && all_spaces s'
  end.

(** What a column [Text] stores of a text: PostgreSQL refuses a NUL. *)
Definition text (s : string) : option string :=
  if PyStr.mem NUL s then None else Some s.

(** What a column [String(n)] stores of a text: PostgreSQL refuses a NUL,
    and a text longer than [n] unless what exceeds is spaces, which it
    cuts. *)
Definition varchar (n : nat) (s : string) : option string :=
  if PyStr.mem NUL s then None
  else if (String.length s <=? n)%nat then Some s
  else if all_spaces (String.substring n (String.length s - n) s)
  then Some (String.substring 0 n s)
  else None.

(** A column that is nullable. *)
Definition nullable {A} (column : A -> option A) (v : option A)
  : option (option A) :=
  match v with
  | Some x => option_map Some (column x)
  | None => Some None
  end.

(** A column [JSONB] takes no text and no key that holds a NUL. *)
Fixpoint json_ok (j : json) : bool :=
  match j with
  | JStr s => negb (PyStr.mem NUL s)
  | JList l => forallb json_ok l
  | JDict d =>
      forallb (fun kv => match kv with
                         | (k, v) => negb (PyStr.mem NUL k) && json_ok v
                         end) d
  | _ => true
  end.

Definition jsonb (d : pydict) : option pydict :=
  if json_ok (JDict d) then Some d else None.

(** The row as the columns of the table store it, or none where the
    INSERT is refused. *)
Definition stored (r : AuditLog) : option AuditLog :=
  actor_type' ← varchar 50 (actor_type r);
  actor_ip' ← nullable (varchar 45) (actor_ip r);
  action' ← varchar 50 (action r);
  action_detail' ← nullable text (action_detail r);
  resource_type' ← varchar 100 (resource_type r);
  resource_id' ← varchar 255 (resource_id r);
  old_values' ← nullable jsonb (old_values r);
  new_values' ← nullable jsonb (new_values r);
  error_message' ← nullable text (error_message r);
  data_classification' ← varchar 20 (data_classification r);
  Some {| id := id r; actor_id := actor_id r; actor_type := actor_type';
          actor_ip := actor_ip'; action := action';
          action_detail := action_detail';
          resource_type := resource_type'; resource_id := resource_id';
          tenant_id := tenant_id r; request_id := request_id r;
          session_id := session_id r; timestamp := timestamp r;
          old_values := old_values'; new_values := new_values';
          success := success r; error_message := error_message';
          data_classification := data_classification' |}.

(** [primary_key=True] on [id]. *)
Definition id_is_new (table : list AuditLog) (r : AuditLog) : bool :=
  forallb (fun r' => negb (id r' =? id r)%N) table.

End AuditLogModel.

(** ** The database session and the logging stream *)

Record LogRecord : Type := {
  levelname : string;
  msg : string;
  extra : list (string * string)
}.

(** The transaction that the session has open.  [log] and [query] run
    their statements in it and neither commits nor rolls back: that is
    left to the caller of the loggers. *)
Inductive transaction_state : Type :=
| TxActive
    (* statements are run *)
| TxAborted
    (* PostgreSQL has refused a statement and runs no other one until the
       transaction is rolled back *)
| TxInactive.
    (* a flush has failed and the session has rolled the transaction back;
       it raises [PendingRollbackError] until [rollback()] is called *)

(** What the audit loggers act on: the rows of [audit_logs] that were
    committed before, the rows inserted in the open transaction, both in
    insertion order, the state of that transaction, and the records given
    to [logging]. *)
Record World : Type := {
  committed : list AuditLogModel.AuditLog;
  pending : list AuditLogModel.AuditLog;
  transaction : transaction_state;
  records : list LogRecord
}.

(** The rows that a statement of the session sees. *)
Definition table (w : World) : list AuditLogModel.AuditLog :=
  committed w ++ pending w.

(** The open transaction has come to its end in the database: the rows
    inserted in it are gone. *)
Definition end_transaction (t : transaction_state) (w : World) : World :=
  {| committed := committed w; pending := []; transaction := t;
     records := records w |}.

Definition M (A : Type) : Type := World -> result A * World.

Definition ret {A} (a : A) : M A := fun w => (Ok a, w).

Definition bind {A B} (m : M A) (k : A -> M B) : M B :=
  fun w =>
    match m w with
    | (Ok a, w') => k a w'
    | (Raise e, w') => (Raise e, w')
    end.

Definition raise {A} (e : exn) : M A := fun w => (Raise e, w).

Definition lift {A} (r : result A) : M A := fun w => (r, w).

Declare Scope py_scope.
Delimit Scope py_scope with py.
Notation "x <- m ;; k" := (bind m (fun x => k))
  (at level 100, m at next level, right associativity) : py_scope.
Notation "m ;;; k" := (bind m (fun _ => k))
  (at level 100, right associativity) : py_scope.

(** [logger.info] and [logger.warning] *)
Definition logger_emit (level message : string) (ex : list (string * string))
  : M unit :=
  fun w =>
    (Ok tt,
     {| committed := committed w; pending := pending w;
        transaction := transaction w;
        records := records w
                   ++ [{| levelname := level; msg := message; extra := ex |}] |}).

Definition logger_info := logger_emit "INFO".
Definition logger_warning (message : string) := logger_emit "WARNING" message [].

(** [session.add(row)] followed by [session.flush()]: the INSERT, in the
    open transaction.  The database refuses a row whose id is taken or
    that a column does not take, and every statement of a transaction that
    is aborted.  A flush that fails makes the session roll the transaction
    back, so that the rows inserted in it are gone with the refused one,
    and leaves the session inactive; there, the flush raises. *)
Definition session_add_flush (row : AuditLogModel.AuditLog) : M unit :=
  fun w =>
    match transaction w with
    | TxInactive => (Raise PendingRollbackError, w)
    | TxAborted =>
        (Raise (DBAPIError "current transaction is aborted"),
         end_transaction TxInactive w)
    | TxActive =>
        if negb (AuditLogModel.id_is_new (table w) row)
        then (Raise (DBAPIError "duplicate key value violates unique constraint"),
              end_transaction TxInactive w)
        else match AuditLogModel.stored row with
             | None =>
                 (Raise (DBAPIError "value refused by its column"),
                  end_transaction TxInactive w)
             | Some row' =>
                 (Ok tt,
                  {| committed := committed w; pending := pending w ++ [row'];
                     transaction := TxActive; records := records w |})
             end
    end.

(** [UUID(s)] as the code calls it. *)
Definition UUID (s : string) : result PyUUID.uuid :=
  match PyUUID.UUID s with
  | Some u => Ok u
  | None => Raise (ValueError "badly formed hexadecimal UUID string")
  end.

(** ** app/abstractions/audit_logger.py *)

Module AuditLogger.

Inductive AuditAction : Type :=
| CREATE | READ | UPDATE | DELETE | LOGIN | LOGOUT | LOGIN_FAILED
| EXPORT | IMPORT | GRANT_ACCESS | REVOKE_ACCESS.

(** [action.value] *)
Definition AuditAction_value (a : AuditAction) : string :=
  match a with
  | CREATE => "create"
  | READ => "read"
  | UPDATE => "update"
  | DELETE => "delete"
  | LOGIN => "login"
  | LOGOUT => "logout"
  | LOGIN_FAILED => "login_failed"
  | EXPORT => "export"
  | IMPORT => "import"
  | GRANT_ACCESS => "grant_access"
  | REVOKE_ACCESS => "revoke_access"
  end.

Definition AuditAction_members : list AuditAction :=
  [CREATE; READ; UPDATE; DELETE; LOGIN; LOGOUT; LOGIN_FAILED;
   EXPORT; IMPORT; GRANT_ACCESS; REVOKE_ACCESS].

(** [AuditAction(value)]: the member with that value, or [ValueError]. *)
Definition AuditAction_of_value (v : string) : result AuditAction :=
  match find (fun a => String.eqb (AuditAction_value a) v) AuditAction_members with
  | Some a => Ok a
  | None => Raise (ValueError "not a valid AuditAction")
  end.

Inductive DataClassification : Type :=
| PUBLIC | INTERNAL | CONFIDENTIAL | RESTRICTED.

Definition DataClassification_value (c : DataClassification) : string :=
  match c with
  | PUBLIC => "public"
  | INTERNAL => "internal"
  | CONFIDENTIAL => "confidential"
  | RESTRICTED => "restricted"
  end.

Definition DataClassification_members : list DataClassification :=
  [PUBLIC; INTERNAL; CONFIDENTIAL; RESTRICTED].

Definition DataClassification_of_value (v : string)
  : result DataClassification :=
  match find (fun c => String.eqb (DataClassification_value c) v)
             DataClassification_members with
  | Some c => Ok c
  | None => Raise (ValueError "not a valid DataClassification")
  end.

Record AuditEntry : Type := {
  (* WHO *)
  actor_id : string;
  actor_type : string;
  actor_ip : option string;
  (* DID WHAT *)
  action : AuditAction;
  action_detail : option string;
  (* TO WHAT *)
  resource_type : string;
  resource_id : string;
  (* CONTEXT *)
  tenant_id : string;
  request_id : string;
  session_id : option string;
  (* WHEN *)
  timestamp : Z;
  (* CHANGE DETAILS *)
  old_values : option pydict;
  new_values : option pydict;
  (* RESULT *)
  success : bool;
  error_message : option string;
  (* CLASSIFICATION *)
  data_classification : DataClassification
}.

(** *** Keyword arguments and the model constructor *)

(** The values of keyword arguments that the model covers: [None], a
    string, a boolean, a [datetime], a dictionary of JSON values, a member
    of one of the two enumerations. *)
Inductive pyval : Type :=
| PNone
| PStr (s : string)
| PBool (b : bool)
| PDatetime (t : Z)
| PDict (d : pydict)
| PAction (a : AuditAction)
| PClassification (c : DataClassification).

Definition PStr_opt (s : option string) : pyval :=
  match s with
  | Some s => PStr s
  | None => PNone
  end.

Definition PDict_opt (d : option pydict) : pyval :=
  match d with
  | Some d => PDict d
  | None => PNone
  end.

(** The declared type of a field. *)
Inductive ftype : Type :=
| TStr | TOptStr | TAction | TDatetime | TOptDict | TBool | TClassification.

Definition has_type (t : ftype) (v : pyval) : bool :=
  match t, v with
  | TStr, PStr _ => true
  | TOptStr, (PStr _ | PNone) => true
  | TAction, PAction _ => true
  | TDatetime, PDatetime _ => true
  | TOptDict, (PDict _ | PNone) => true
  | TBool, PBool _ => true
  | TClassification, PClassification _ => true
  | _, _ => false
  end.

(** pydantic's validation of a keyword value against the declared type of
    its field: the value that the field gets, or none where the value is
    refused.  In its default mode pydantic hands on a value of the declared
    type as it is and converts a value of another type where it can: for a
    [bool] the string ["yes"] becomes [True], for an enumeration the value
    of a member becomes the member, for a [datetime] a text in ISO 8601
    becomes that time.  The conversions are the library's; of them the
    model takes the first fact only. *)
Class Pydantic : Type := {
  validate : ftype -> pyval -> option pyval;
  validate_declared :
    forall t v, has_type t v = true -> validate t v = Some v
}.

(** The fields of [AuditEntry]: name, type, and whether a value must be
    given (the field has no default). *)
Definition model_fields : list (string * ftype * bool) :=
  [("actor_id", TStr, true); ("actor_type", TStr, false);
   ("actor_ip", TOptStr, false); ("action", TAction, true);
   ("action_detail", TOptStr, false); ("resource_type", TStr, true);
   ("resource_id", TStr, true); ("tenant_id", TStr, true);
   ("request_id", TStr, false); ("session_id", TOptStr, false);
   ("timestamp", TDatetime, false); ("old_values", TOptDict, false);
   ("new_values", TOptDict, false); ("success", TBool, false);
   ("error_message", TOptStr, false);
   ("data_classification", TClassification, false)].

(** What the default factories of [request_id] and [timestamp] give:
    [str(uuid4())] and [datetime.now(timezone.utc)]. *)
Record Defaults : Type := {
  default_request_id : string;
  default_timestamp : Z
}.

(** The declared type of the field of that name. *)
Definition field_type (name : string) : option ftype :=
  match find (fun f => String.eqb (fst (fst f)) name) model_fields with
  | Some f => Some (snd (fst f))
  | None => None
  end.

Section WithPydantic.

Context `{Py : Pydantic}.

Definition missing_fields (data : gmap string pyval) : list string :=
  map (fun f => fst (fst f))
    (List.filter (fun f => snd f && bool_decide (data !! fst (fst f) = None))
            model_fields).

Definition invalid_fields (data : gmap string pyval) : list string :=
  map (fun f => fst (fst f))
    (List.filter (fun f => match data !! fst (fst f) with
                      | Some v =>
                          match validate (snd (fst f)) v with
                          | Some v' => negb (has_type (snd (fst f)) v')
                          | None => true
                          end
                      | None => false
                      end)
            model_fields).

Definition get_str (data : gmap string pyval) (name : string)
    (default : option string) : option string :=
  match data !! name with
  | Some v =>
      match validate TStr v with
      | Some (PStr s) => Some s
      | _ => None
      end
  | None => default
  end.

Definition get_opt_str (data : gmap string pyval) (name : string)
  : option (option string) :=
  match data !! name with
  | Some v =>
      match validate TOptStr v with
      | Some (PStr s) => Some (Some s)
      | Some PNone => Some None
      | _ => None
      end
  | None => Some None
  end.

Definition get_opt_dict (data : gmap string pyval) (name : string)
  : option (option pydict) :=
  match data !! name with
  | Some v =>
      match validate TOptDict v with
      | Some (PDict d) => Some (Some d)
      | Some PNone => Some None
      | _ => None
      end
  | None => Some None
  end.

Definition get_action (data : gmap string pyval) (name : string)
  : option AuditAction :=
  match data !! name with
  | Some v =>
      match validate TAction v with
      | Some (PAction a) => Some a
      | _ => None
      end
  | None => None
  end.

Definition get_datetime (data : gmap string pyval) (name : string)
    (default : Z) : option Z :=
  match data !! name with
  | Some v =>
      match validate TDatetime v with
      | Some (PDatetime t) => Some t
      | _ => None
      end
  | None => Some default
  end.

Definition get_bool (data : gmap string pyval) (name : string)
    (default : bool) : option bool :=
  match data !! name with
  | Some v =>
      match validate TBool v with
      | Some (PBool b) => Some b
      | _ => None
      end
  | None => Some default
  end.

Definition get_classification (data : gmap string pyval) (name : string)
    (default : DataClassification) : option DataClassification :=
  match data !! name with
  | Some v =>
      match validate TClassification v with
      | Some (PClassification c) => Some c
      | _ => None
      end
  | None => Some default
  end.

(** The entry built from keyword arguments that are all there and that
    pydantic validates, each field with the value validation gives.  Keys
    that name no field are ignored. *)
Definition build (env : Defaults) (data : gmap string pyval)
  : option AuditEntry :=
  a1 ← get_str data "actor_id" None;
  a2 ← get_str data "actor_type" (Some "user");
  a3 ← get_opt_str data "actor_ip";
  a4 ← get_action data "action";
  a5 ← get_opt_str data "action_detail";
  a6 ← get_str data "resource_type" None;
  a7 ← get_str data "resource_id" None;
  a8 ← get_str data "tenant_id" None;
  a9 ← get_str data "request_id" (Some (default_request_id env));
  a10 ← get_opt_str data "session_id";
  a11 ← get_datetime data "timestamp" (default_timestamp env);
  a12 ← get_opt_dict data "old_values";
  a13 ← get_opt_dict data "new_values";
  a14 ← get_bool data "success" true;
  a15 ← get_opt_str data "error_message";
  a16 ← get_classification data "data_classification" INTERNAL;
  Some {| actor_id := a1; actor_type := a2; actor_ip := a3; action := a4;
          action_detail := a5; resource_type := a6; resource_id := a7;
          tenant_id := a8; request_id := a9; session_id := a10;
          timestamp := a11; old_values := a12; new_values := a13;
          success := a14; error_message := a15;
          data_classification := a16 |}.

(** The constructor [AuditEntry] called on the keyword arguments [data],
    which pydantic validates. *)
Definition cls (env : Defaults) (data : gmap string pyval)
  : result AuditEntry :=
  match build env data with
  | Some entry => Ok entry
  | None => Raise (ValidationError (missing_fields data) (invalid_fields data))
  end.

(** A call [f(k1=v1, ..., **kwargs)]: a key of [kwargs] that repeats an
    explicit keyword is a [TypeError]. *)
Definition call_kwargs (explicit : list (string * pyval))
    (kwargs : gmap string pyval) : result (gmap string pyval) :=
  if existsb (fun kv => bool_decide (is_Some (kwargs !! fst kv))) explicit
  then Raise (TypeError "got multiple values for keyword argument")
  else Ok (list_to_map explicit ∪ kwargs).

(** [x or "anonymous"] *)
Definition or_anonymous (x : option string) : string :=
  match x with
  | Some s => if PyStr.truthy s then s else "anonymous"
  | None => "anonymous"
  end.

(** The parameters of the class method [from_context]. *)
Definition parameters : list string :=
  ["cls"; "action"; "resource_type"; "resource_id"].

(** [AuditEntry.from_context(action, resource_type, resource_id, **kwargs)],
    called where the ContextVar holds [var].  A keyword argument that has
    the name of a parameter is the [TypeError] of that call. *)
Definition from_context (var : Context.ContextVar) (env : Defaults)
    (action : AuditAction) (resource_type resource_id : string)
    (kwargs : gmap string pyval) : result AuditEntry :=
  if existsb (fun k => bool_decide (is_Some (kwargs !! k))) parameters
  then Raise (TypeError "got multiple values for argument")
  else
  let ctx := Context.get_optional_request_context var in
  match ctx with
  | Some ctx =>
      rbind
        (call_kwargs
           [("actor_id", PStr (or_anonymous (Context.user_id ctx)));
            ("actor_ip", PStr_opt (Context.client_ip ctx));
            ("action", PAction action);
            ("resource_type", PStr resource_type);
            ("resource_id", PStr resource_id);
            ("tenant_id", PStr (Context.tenant_id ctx));
            ("request_id", PStr (Context.request_id ctx));
            ("session_id", PStr_opt (Context.session_id ctx))]
           kwargs)
        (cls env)
  | None =>
      (* No context - require explicit values *)
      rbind
        (call_kwargs
           [("action", PAction action);
            ("resource_type", PStr resource_type);
            ("resource_id", PStr resource_id)]
           kwargs)
        (cls env)
  end.

End WithPydantic.

(** The attribute of an entry named by a keyword, as a keyword value. *)
Definition getattr (e : AuditEntry) (name : string) : option pyval :=
  if String.eqb name "actor_id" then Some (PStr (actor_id e))
  else if String.eqb name "actor_type" then Some (PStr (actor_type e))
  else if String.eqb name "actor_ip" then Some (PStr_opt (actor_ip e))
  else if String.eqb name "action" then Some (PAction (action e))
  else if String.eqb name "action_detail" then Some (PStr_opt (action_detail e))
  else if String.eqb name "resource_type" then Some (PStr (resource_type e))
  else if String.eqb name "resource_id" then Some (PStr (resource_id e))
  else if String.eqb name "tenant_id" then Some (PStr (tenant_id e))
  else if String.eqb name "request_id" then Some (PStr (request_id e))
  else if String.eqb name "session_id" then Some (PStr_opt (session_id e))
  else if String.eqb name "timestamp" then Some (PDatetime (timestamp e))
  else if String.eqb name "old_values" then Some (PDict_opt (old_values e))
  else if String.eqb name "new_values" then Some (PDict_opt (new_values e))
  else if String.eqb name "success" then Some (PBool (success e))
  else if String.eqb name "error_message" then Some (PStr_opt (error_message e))
  else if String.eqb name "data_classification"
  then Some (PClassification (data_classification e))
  else None.

(** *** The statement run by [session.execute] *)

(** [ORDER BY timestamp DESC].  PostgreSQL leaves the order of rows with
    equal timestamps open and need not choose the same at each execution:
    [ties r r'] tells whether this execution puts [r] before [r'] where
    the two have the same timestamp. *)
Definition tie_order : Type :=
  AuditLogModel.AuditLog -> AuditLogModel.AuditLog -> bool.

Fixpoint insert_desc (ties : tie_order) (r : AuditLogModel.AuditLog)
    (l : list AuditLogModel.AuditLog) : list AuditLogModel.AuditLog :=
  match l with
  | [] => [r]
  | r' :: l' =>
      if (AuditLogModel.timestamp r' <? AuditLogModel.timestamp r)%Z
         || (AuditLogModel.timestamp r' =? AuditLogModel.timestamp r)%Z
            && ties r r'
      then r :: l
      else r' :: insert_desc ties r l'
  end.

Definition order_by_timestamp_desc (ties : tie_order)
    (l : list AuditLogModel.AuditLog) : list AuditLogModel.AuditLog :=
  fold_right (insert_desc ties) [] l.

(** The rows that satisfy every WHERE clause of the statement. *)
Definition select_where (where_ : list (AuditLogModel.AuditLog -> bool))
    (rows : list AuditLogModel.AuditLog) : list AuditLogModel.AuditLog :=
  List.filter (fun r => forallb (fun clause => clause r) where_) rows.

(** PostgreSQL takes OFFSET and LIMIT as [bigint] and refuses negative
    ones. *)
Definition bigint_ok (n : Z) : bool := ((0 <=? n) && (n <? 2 ^ 63))%Z.

(** The integers that the driver can send as a [bigint]. *)
Definition bigint (n : Z) : bool := ((- 2 ^ 63 <=? n) && (n <? 2 ^ 63))%Z.

(** [session.execute(stmt)] followed by [scalars().all()], for
    [stmt = select(AuditLog).where(...)...order_by(timestamp.desc())
    .offset(offset).limit(limit)], in the open transaction.  An OFFSET or
    LIMIT that is no [bigint] is refused by the driver, before the
    statement is run; a negative one is refused by PostgreSQL, which
    aborts the transaction: the rows inserted in it are gone, and no
    further statement is run in it. *)
Definition session_execute (ties : tie_order)
    (where_ : list (AuditLogModel.AuditLog -> bool))
    (offset limit : Z) : M (list AuditLogModel.AuditLog) :=
  fun w =>
    match transaction w with
    | TxInactive => (Raise PendingRollbackError, w)
    | TxAborted => (Raise (DBAPIError "current transaction is aborted"), w)
    | TxActive =>
        if bigint_ok offset && bigint_ok limit
        then (Ok (firstn (Z.to_nat limit)
                    (skipn (Z.to_nat offset)
                       (order_by_timestamp_desc ties
                          (select_where where_ (table w))))),
              w)
        else if bigint offset && bigint limit
        then (Raise (DBAPIError "OFFSET and LIMIT must not be negative"),
              end_transaction TxAborted w)
        else (Raise (DBAPIError "value out of range for bigint"), w)
    end.

Fixpoint map_result {A B} (f : A -> result B) (l : list A) : result (list B) :=
  match l with
  | [] => Ok []
  | a :: l' =>
      rbind (f a) (fun b => rbind (map_result f l') (fun bs => Ok (b :: bs)))
  end.

(** What [uuid4()] gives in one call of [DatabaseAuditLogger.log]: the
    actor id of an anonymous entry, and the [default] of the column [id]. *)
Record Draws : Type := {
  actor_uuid4 : PyUUID.uuid;
  id_uuid4 : PyUUID.uuid
}.

Definition str_of_bool (b : bool) : string := if b then "True" else "False".

Module DatabaseAuditLogger.

(** The row that [log] builds from an entry. *)
Definition to_row (entry : AuditEntry) (draws : Draws)
  : result AuditLogModel.AuditLog :=
  rbind (if negb (String.eqb (actor_id entry) "anonymous")
         then UUID (actor_id entry)
         else Ok (actor_uuid4 draws)) (fun actor =>
  rbind (UUID (tenant_id entry)) (fun tenant =>
  rbind (UUID (request_id entry)) (fun request =>
  rbind (match session_id entry with
         | Some s =>
             if PyStr.truthy s then rbind (UUID s) (fun u => Ok (Some u))
             else Ok None
         | None => Ok None
         end) (fun session =>
  Ok {| AuditLogModel.id := id_uuid4 draws;
        AuditLogModel.actor_id := actor;
        AuditLogModel.actor_type := actor_type entry;
        AuditLogModel.actor_ip := actor_ip entry;
        AuditLogModel.action := AuditAction_value (action entry);
        AuditLogModel.action_detail := action_detail entry;
        AuditLogModel.resource_type := resource_type entry;
        AuditLogModel.resource_id := resource_id entry;
        AuditLogModel.tenant_id := tenant;
        AuditLogModel.request_id := request;
        AuditLogModel.session_id := session;
        AuditLogModel.timestamp := timestamp entry;
        AuditLogModel.old_values := old_values entry;
        AuditLogModel.new_values := new_values entry;
        AuditLogModel.success := success entry;
        AuditLogModel.error_message := error_message entry;
        AuditLogModel.data_classification :=
          DataClassification_value (data_classification entry) |})))).

Definition log (entry : AuditEntry) (draws : Draws) : M string :=
  (audit_log <- lift (to_row entry draws);;
   session_add_flush audit_log;;;
   logger_info "Audit logged"
     [("audit_id", PyUUID.uuid_str (AuditLogModel.id audit_log));
      ("action", AuditAction_value (action entry));
      ("resource_type", resource_type entry);
      ("resource_id", resource_id entry)];;;
   ret (PyUUID.uuid_str (AuditLogModel.id audit_log)))%py.

(** The entry that [query] builds from a row. *)
Definition to_entry (log : AuditLogModel.AuditLog) : result AuditEntry :=
  rbind (AuditAction_of_value (AuditLogModel.action log)) (fun act =>
  rbind (DataClassification_of_value (AuditLogModel.data_classification log))
    (fun classification =>
  Ok {| actor_id := PyUUID.uuid_str (AuditLogModel.actor_id log);
        actor_type := AuditLogModel.actor_type log;
        actor_ip := AuditLogModel.actor_ip log;
        action := act;
        action_detail := AuditLogModel.action_detail log;
        resource_type := AuditLogModel.resource_type log;
        resource_id := AuditLogModel.resource_id log;
        tenant_id := PyUUID.uuid_str (AuditLogModel.tenant_id log);
        request_id := PyUUID.uuid_str (AuditLogModel.request_id log);
        session_id :=
          match AuditLogModel.session_id log with
          | Some u => Some (PyUUID.uuid_str u)
          | None => None
          end;
        timestamp := AuditLogModel.timestamp log;
        old_values := AuditLogModel.old_values log;
        new_values := AuditLogModel.new_values log;
        success := AuditLogModel.success log;
        error_message := AuditLogModel.error_message log;
        data_classification := classification |})).

(** The WHERE clauses that [query] puts on the statement, in order.  A
    filter is used when its argument is true as a Python value: a string
    that is not empty, any action, any datetime. *)
Definition where_clauses (tenant : PyUUID.uuid)
    (actor_id resource_type resource_id : option string)
    (action : option AuditAction) (start_time end_time : option Z)
  : result (list (AuditLogModel.AuditLog -> bool)) :=
  let stmt := [fun r => (AuditLogModel.tenant_id r =? tenant)%N] in
  rbind (match actor_id with
         | Some a =>
             if PyStr.truthy a
             then rbind (UUID a) (fun actor =>
                    Ok (stmt ++ [fun r => (AuditLogModel.actor_id r =? actor)%N]))
             else Ok stmt
         | None => Ok stmt
         end) (fun stmt =>
  let stmt :=
    match resource_type with
    | Some t =>
        if PyStr.truthy t
        then stmt ++ [fun r => String.eqb (AuditLogModel.resource_type r) t]
        else stmt
    | None => stmt
    end in
  let stmt :=
    match resource_id with
    | Some i =>
        if PyStr.truthy i
        then stmt ++ [fun r => String.eqb (AuditLogModel.resource_id r) i]
        else stmt
    | None => stmt
    end in
  let stmt :=
    match action with
    | Some a =>
        stmt ++ [fun r => String.eqb (AuditLogModel.action r)
                            (AuditAction_value a)]
    | None => stmt
    end in
  let stmt :=
    match start_time with
    | Some t => stmt ++ [fun r => (t <=? AuditLogModel.timestamp r)%Z]
    | None => stmt
    end in
  let stmt :=
    match end_time with
    | Some t => stmt ++ [fun r => (AuditLogModel.timestamp r <=? t)%Z]
    | None => stmt
    end in
  Ok stmt).

(** [ties] is the order in which the database returns, at this execution,
    the rows of equal timestamps. *)
Definition query (ties : tie_order) (tenant_id : string)
    (actor_id resource_type resource_id : option string)
    (action : option AuditAction) (start_time end_time : option Z)
    (limit offset : Z) : M (list AuditEntry) :=
  (tenant <- lift (UUID tenant_id);;
   stmt <- lift (where_clauses tenant actor_id resource_type resource_id
                   action start_time end_time);;
   logs <- session_execute ties stmt offset limit;;
   lift (map_result to_entry logs))%py.

End DatabaseAuditLogger.

Module LoggingAuditLogger.

(** [uuid4] is the value drawn for the log id. *)
Definition log (entry : AuditEntry) (uuid4 : PyUUID.uuid) : M string :=
  (let log_id := PyUUID.uuid_str uuid4 in
   logger_info "AUDIT"
     [("audit_id", log_id);
      ("actor_id", actor_id entry);
      ("actor_type", actor_type entry);
      ("action", AuditAction_value (action entry));
      ("resource_type", resource_type entry);
      ("resource_id", resource_id entry);
      ("tenant_id", tenant_id entry);
      ("request_id", request_id entry);
      ("success", str_of_bool (success entry));
      ("data_classification",
       DataClassification_value (data_classification entry))];;;
   ret log_id)%py.

Definition query (tenant_id : string) (kwargs : gmap string pyval)
  : M (list AuditEntry) :=
  (logger_warning "Audit query not supported for LoggingAuditLogger";;;
   ret [])%py.

End LoggingAuditLogger.

End AuditLogger.

(** ** The calls of the audit logger interface *)

(** One call on an audit logger: [log] or [query] of the database logger,
    [log] or [query] of the logging-only one. *)
Inductive api_call : Type :=
| CallLog (entry : AuditLogger.AuditEntry) (draws : AuditLogger.Draws)
| CallQuery (ties : AuditLogger.tie_order) (tenant_id : string)
    (actor_id resource_type resource_id : option string)
    (action : option AuditLogger.AuditAction) (start_time end_time : option Z)
    (limit offset : Z)
| CallFallbackLog (entry : AuditLogger.AuditEntry) (uuid4 : PyUUID.uuid)
| CallFallbackQuery (tenant_id : string)
    (kwargs : gmap string AuditLogger.pyval).

(** The world after a call, whether it returned or raised. *)
Definition run_call (w : World) (c : api_call) : World :=
  match c with
  | CallLog entry draws =>
      snd (AuditLogger.DatabaseAuditLogger.log entry draws w)
  | CallQuery ties tenant_id actor_id resource_type resource_id action
      start_time end_time limit offset =>
      snd (AuditLogger.DatabaseAuditLogger.query ties tenant_id actor_id
             resource_type resource_id action start_time end_time limit
             offset w)
  | CallFallbackLog entry uuid4 =>
      snd (AuditLogger.LoggingAuditLogger.log entry uuid4 w)
  | CallFallbackQuery tenant_id kwargs =>
      snd (AuditLogger.LoggingAuditLogger.query tenant_id kwargs w)
  end.

Definition run_calls (calls : list api_call) (w : World) : World :=
  fold_left run_call calls w.

(** ** Sample data *)

Module Samples.

Import AuditLogger.

Definition alpha : string := "aaaaaaaa-0000-4000-8000-000000000001".
Definition ALPHA : string := "AAAAAAAA-0000-4000-8000-000000000001".
Definition beta : string := "bbbbbbbb-0000-4000-8000-000000000002".
Definition alice : string := "11111111-2222-4333-8444-555555555555".
Definition req1 : string := "99999999-0000-4000-8000-000000000009".

(** No row, no record, and a transaction in which statements run. *)
Definition empty_world : World :=
  {| committed := []; pending := []; transaction := TxActive; records := [] |}.

(** An execution that returns rows of equal timestamps in the order of
    their insertion. *)
Definition ties : tie_order := fun _ _ => true.

Definition draws (n : N) : Draws :=
  {| actor_uuid4 := (1000 + n)%N; id_uuid4 := n |}.

(** An entry of tenant [tenant] by [actor] at time [t]. *)
Definition entry (tenant actor : string) (t : Z) : AuditEntry :=
  {| actor_id := actor; actor_type := "user"; actor_ip := Some "10.0.0.7";
     action := UPDATE; action_detail := None;
     resource_type := "user"; resource_id := "42";
     tenant_id := tenant; request_id := req1; session_id := None;
     timestamp := t;
     old_values := Some [("name", JStr "a")];
     new_values := Some [("name", JStr "b")];
     success := true; error_message := None;
     data_classification := CONFIDENTIAL |}.

Definition hour : Z := 3600000000.

(** Three entries of tenant alpha, two hours ago, one hour ago, and now
    (at [10 * hour]), logged in that order. *)
Definition three_entries : World :=
  run_calls
    [CallLog (entry alpha alice (8 * hour)) (draws 1);
     CallLog (entry alpha alice (9 * hour)) (draws 2);
     CallLog (entry alpha alice (10 * hour)) (draws 3)]
    empty_world.

Definition request_plain : Middleware.Request :=
  {| Middleware.headers := [("user-agent", "curl/8")];
     Middleware.client := Some ("192.0.2.10", 51034%Z) |}.

Definition request_empty_forwarded : Middleware.Request :=
  {| Middleware.headers := [("x-tenant-id", alpha); ("x-forwarded-for", "")];
     Middleware.client := Some ("192.0.2.10", 51034%Z) |}.

Definition request_proxied : Middleware.Request :=
  {| Middleware.headers :=
       [("x-request-id", req1); ("x-tenant-id", alpha);
        ("x-forwarded-for", " 203.0.113.5 , 198.51.100.1")];
     Middleware.client := Some ("192.0.2.10", 51034%Z) |}.

Definition env : Defaults :=
  {| default_request_id := req1; default_timestamp := 10 * hour |}.

(** The strings that pydantic reads as a [bool], whatever the case of
    their letters. *)
Definition bool_of_str (s : string) : option bool :=
  if existsb (String.eqb (PyStr.lower s)) ["1"; "on"; "t"; "true"; "y"; "yes"]
  then Some true
  else if existsb (String.eqb (PyStr.lower s))
            ["0"; "off"; "f"; "false"; "n"; "no"]
  then Some false
  else None.

(** pydantic's validation on the values of the examples: a value of the
    declared type is handed on, a string is read as a [bool] or as the
    member of an enumeration that has it as value.  What else pydantic
    converts (a text to a [datetime], for one) no example uses. *)
Definition pydantic_validate (t : ftype) (v : pyval) : option pyval :=
  if has_type t v then Some v
  else match t, v with
       | TBool, PStr s => option_map PBool (bool_of_str s)
       | TAction, PStr s =>
           match AuditAction_of_value s with
           | Ok a => Some (PAction a)
           | Raise _ => None
           end
       | TClassification, PStr s =>
           match DataClassification_of_value s with
           | Ok c => Some (PClassification c)
           | Raise _ => None
           end
       | _, _ => None
       end.

Lemma pydantic_validate_declared t v :
  has_type t v = true -> pydantic_validate t v = Some v.
Proof. unfold pydantic_validate. now intros ->. Qed.

Definition pydantic : Pydantic :=
  {| validate := pydantic_validate;
     validate_declared := pydantic_validate_declared |}.

Definition ctx_anonymous : Context.RequestContext :=
  Middleware.dispatch_context request_proxied 7%N.

Definition kwargs_denied : gmap string pyval :=
  <["success" := PBool false]> {[ "error_message" := PStr "denied" ]}.

(** What [from_context] makes of [kwargs_denied] under [ctx_anonymous]. *)
Definition entry_denied : AuditEntry :=
  {| actor_id := "anonymous"; actor_type := "user";
     actor_ip := Some "203.0.113.5";
     action := DELETE; action_detail := None;
     resource_type := "user"; resource_id := "42";
     tenant_id := alpha; request_id := req1; session_id := None;
     timestamp := 10 * hour;
     old_values := None; new_values := None;
     success := false; error_message := Some "denied";
     data_classification := INTERNAL |}.



(** One entry of tenant alpha, written with the tenant in upper case. *)
Definition upper_case_tenant : World :=
  run_calls [CallLog (entry ALPHA alice (8 * hour)) (draws 1)] empty_world.



(** Two entries of tenant alpha with the same timestamp, by two actors. *)
Definition same_instant : World :=
  run_calls
    [CallLog (entry alpha alice (8 * hour)) (draws 1);
     CallLog (entry alpha req1 (8 * hour)) (draws 2)]
    empty_world.

(** One entry of tenant alpha by the anonymous actor. *)
Definition anonymous_logged : World :=
  run_calls [CallLog (entry alpha "anonymous" (8 * hour)) (draws 1)] empty_world.

End Samples.

(** ** The query, in the words of the specification *)

Module QuerySpec.

Import AuditLogger.

(** The names of the fields of an entry. *)
Definition field_names : list string := map (fun f => fst (fst f)) model_fields.

(** The keyword arguments that [from_context] gives to the constructor
    where a context is installed. *)
Definition context_keywords (ctx : Context.RequestContext) (act : AuditAction)
    (rtype rid : string) : list (string * pyval) :=
  [("actor_id", PStr (or_anonymous (Context.user_id ctx)));
   ("actor_ip", PStr_opt (Context.client_ip ctx));
   ("action", PAction act); ("resource_type", PStr rtype);
   ("resource_id", PStr rid);
   ("tenant_id", PStr (Context.tenant_id ctx));
   ("request_id", PStr (Context.request_id ctx));
   ("session_id", PStr_opt (Context.session_id ctx))].

(** A string filter that is given: [None] and the empty string give no
    filter. *)
Definition given (f : option string) : option string :=
  match f with
  | Some s => if PyStr.truthy s then Some s else None
  | None => None
  end.

(** The actor filter [actor_id] denotes the UUID [actor]. *)
Definition actor_filter (actor_id : option string) (actor : option PyUUID.uuid)
  : Prop :=
  match given actor_id with
  | Some a => exists u, PyUUID.UUID a = Some u /\ actor = Some u
  | None => actor = None
  end.

Definition holds {A} (f : option A) (p : A -> bool) : bool :=
  match f with
  | Some x => p x
  | None => true
  end.

(** The row belongs to the tenant and passes every filter that is given:
    the conjunction of the specification. *)
Definition row_matches (tenant : PyUUID.uuid) (actor : option PyUUID.uuid)
    (resource_type resource_id : option string) (action : option AuditAction)
    (start_time end_time : option Z) (r : AuditLogModel.AuditLog) : bool :=
  (AuditLogModel.tenant_id r =? tenant)%N
  && holds actor (fun a => (AuditLogModel.actor_id r =? a)%N)
  && holds (given resource_type) (String.eqb (AuditLogModel.resource_type r))
  && holds (given resource_id) (String.eqb (AuditLogModel.resource_id r))
  && holds action (fun a => String.eqb (AuditLogModel.action r) (AuditAction_value a))
  && holds start_time (fun t => (t <=? AuditLogModel.timestamp r)%Z)
  && holds end_time (fun t => (AuditLogModel.timestamp r <=? t)%Z).

(** Newest first. *)
Definition rows_descending : list AuditLogModel.AuditLog -> Prop :=
  StronglySorted
    (fun a b => (AuditLogModel.timestamp b <= AuditLogModel.timestamp a)%Z).

Definition entries_descending : list AuditEntry -> Prop :=
  StronglySorted (fun a b => (timestamp b <= timestamp a)%Z).

(** The page of [limit] rows after the first [offset]. *)
Definition page {A} (limit offset : Z) (l : list A) : list A :=
  firstn (Z.to_nat limit) (skipn (Z.to_nat offset) l).


(** The identifiers of the entry are UUIDs in the form [str()] prints, and
    the actor is not the anonymous one. *)
Definition canonical_entry (e : AuditEntry) : Prop :=
  actor_id e <> "anonymous"
  /\ PyUUID.canonical (actor_id e)
  /\ PyUUID.canonical (tenant_id e)
  /\ PyUUID.canonical (request_id e)
  /\ (forall s, session_id e = Some s -> PyUUID.canonical s).


(** No two rows have the same timestamp. *)
Definition distinct_timestamps (rows : list AuditLogModel.AuditLog) : Prop :=
  NoDup (map AuditLogModel.timestamp rows).



End QuerySpec.

(** * Further parts of the code *)

(** ** [int()] and [str()] of Python on decimal numerals *)

Module PyInt.

Definition digit10 (c : ascii) : option N :=
  let n := N_of_ascii c in
  if ((48 <=? n) && (n <=? 57))%N then Some (n - 48)%N else None.

Definition is_digit (c : ascii) : bool :=
  match digit10 c with
  | Some _ => true
  | None => false
  end.

(** The digits of [int(s)]: decimal digits, single underscores between
    them.  [prev] is true when an underscore may not come next, [seen] when
    a digit has been read. *)
Fixpoint dec_digits (prev seen : bool) (acc : N) (s : string) : option N :=
  match s with
  | EmptyString => if prev || negb seen then None else Some acc
  | String c s' =>
      if Ascii.eqb c "_"%char
      then if prev then None else dec_digits true seen acc s'
      else match digit10 c with
           | Some d => dec_digits false true (10 * acc + d)%N s'
           | None => None
           end
  end.

Fixpoint count_digits (s : string) : nat :=
  match s with
  | EmptyString => O
  | String c s' => if is_digit c then S (count_digits s') else count_digits s'
  end.

(** [sys.int_info.default_max_str_digits]: a numeral with more digits is
    refused. *)
Definition int_max_str_digits : nat := 4300.

(** [int(s)]: [ValueError] is [None]. *)
Definition int10 (s : string) : option Z :=
  let s := PyStr.rstrip PyUUID.int_space (PyStr.lstrip PyUUID.int_space s) in
  let '(neg, s) :=
    match s with
    | String "+"%char s' => (false, s')
    | String "-"%char s' => (true, s')
    | _ => (false, s)
    end in
  if (int_max_str_digits <? count_digits s)%nat then None
  else match dec_digits true false 0%N s with
       | Some n => Some (if neg then (- Z.of_N n)%Z else Z.of_N n)
       | None => None
       end.

Definition digit_char (d : N) : ascii := ascii_of_N (48 + d).

(** The decimal digits of [n] in front of [tail]; [fuel] bounds their
    number. *)
Fixpoint decimal_from (fuel : nat) (n : N) (tail : string) : string :=
  match fuel with
  | O => tail
  | S fuel' =>
      let tail' := String (digit_char (n mod 10)%N) tail in
      if (n <? 10)%N then tail' else decimal_from fuel' (n / 10)%N tail'
  end.

(** [str(n)] for a natural number. *)
Definition decimal (n : N) : string :=
  decimal_from (S (N.to_nat (N.size n))) n EmptyString.

Fixpoint all_digits (s : string) : bool :=
  match s with
  | EmptyString => true
  | String c s' => is_digit c && all_digits s'
  end.

End PyInt.

(** ** app/core/middleware.py: the request size limit *)

Module RequestSizeLimitMiddleware.

Definition MAX_BODY_SIZE : Z := 10 * 1024 * 1024.

(** The response that refuses the request. *)
Record PlainResponse : Type := {
  content : string;
  status_code : Z;
  media_type : string
}.

Definition too_large : PlainResponse :=
  {| content := "Request body too large";
     status_code := 413;
     media_type := "text/plain" |}.

(** [dispatch]: the refusal, or what the rest of the application answers;
    [int()] raises on a Content-Length that is no numeral. *)
Definition dispatch {R : Type} (request : Middleware.Request)
    (call_next : Middleware.Request -> R) : result (PlainResponse + R) :=
  let content_length :=
    Middleware.headers_get (Middleware.headers request) "Content-Length" in
  match content_length with
  | Some cl =>
      if PyStr.truthy cl
      then match PyInt.int10 cl with
           | Some n =>
               if (MAX_BODY_SIZE <? n)%Z then Ok (inl too_large)
               else Ok (inr (call_next request))
           | None => Raise (ValueError "invalid literal for int() with base 10")
           end
      else Ok (inr (call_next request))
  | None => Ok (inr (call_next request))
  end.

End RequestSizeLimitMiddleware.

Example int10_examples :
  PyInt.int10 "10485761" = Some 10485761%Z
  /\ PyInt.int10 "  12 " = Some 12%Z
  /\ PyInt.int10 "+5" = Some 5%Z
  /\ PyInt.int10 "-5" = Some (-5)%Z
  /\ PyInt.int10 "1_000" = Some 1000%Z
  /\ PyInt.int10 "00012" = Some 12%Z
  /\ PyInt.int10 "" = None
  /\ PyInt.int10 "abc" = None
  /\ PyInt.int10 "1.5" = None
  /\ PyInt.int10 "0x10" = None
  /\ PyInt.int10 "1__0" = None
  /\ PyInt.int10 "_1" = None
  /\ PyInt.int10 "1_" = None
  /\ PyInt.int10 "- 5" = None
  /\ PyInt.int10 "+-5" = None
  /\ PyInt.decimal 0 = "0"
  /\ PyInt.decimal 10485760 = "10485760"
  /\ PyInt.decimal 907 = "907".
Proof. vm_compute. repeat split; reflexivity. Qed.

(** ** Python's strings beyond the characters below 256

    A [string] holds characters below 256.  [str.upper] does not stay
    there (['\xff'.upper()] is U+0178, ['\xdf'.upper()] is ["SS"]): its
    result is a [text], the list of its code points. *)

Module PyText.

Definition text : Type := list N.

Fixpoint of_string (s : string) : text :=
  match s with
  | EmptyString => []
  | String c s' => N_of_ascii c :: of_string s'
  end.

Fixpoint map_chars (f : ascii -> ascii) (s : string) : string :=
  match s with
  | EmptyString => EmptyString
  | String c s' => String (f c) (map_chars f s')
  end.

(** [s.replace(old, new)] for one-character [old] and [new]. *)
Definition replace_char (old new : ascii) (s : string) : string :=
  map_chars (fun c => if Ascii.eqb c old then new else c) s.

(** [c.upper()] for a character below 256: the letters of ASCII and of
    Latin-1, of which the micro sign and the y with diaeresis have their
    capital beyond 255 and the sharp s has two. *)
Definition upper_char (c : ascii) : text :=
  let n := N_of_ascii c in
  if ((97 <=? n) && (n <=? 122))%N then [(n - 32)%N]
  else if (n =? 181)%N then [924%N]
  else if (n =? 223)%N then [83%N; 83%N]
  else if ((224 <=? n) && (n <=? 254) && negb (n =? 247))%N then [(n - 32)%N]
  else if (n =? 255)%N then [376%N]
  else [n].

(** [s.upper()] *)
Fixpoint upper (s : string) : text :=
  match s with
  | EmptyString => []
  | String c s' => upper_char c ++ upper s'
  end.

(** [c.lower()] for a character below 256, which stays below 256. *)
Definition lower_char (c : ascii) : ascii :=
  let n := N_of_ascii c in
  if ((65 <=? n) && (n <=? 90)
      || (192 <=? n) && (n <=? 222) && negb (n =? 215))%N
  then ascii_of_N (n + 32)
  else c.

End PyText.

(** ** Exceptions of the further parts *)

(** The exceptions raised beyond those of [exn]. *)
Inductive pyexc : Type :=
| Builtin (e : exn)
| KeyError (msg : PyText.text)
| OSError (errno : Z)
| AttributeError (msg : string)
| InvalidTokenError (msg : string)
| MultipleResultsFound
| HTTPException (status_code : Z) (detail : string)
| DatabaseError (msg : string).

Inductive outcome (A : Type) : Type :=
| Return (a : A)
| Throw (e : pyexc).
Arguments Return {A} a.
Arguments Throw {A} e.

Definition obind {A B} (r : outcome A) (k : A -> outcome B) : outcome B :=
  match r with
  | Return a => k a
  | Throw e => Throw e
  end.

(** ** [os.environ] on POSIX *)

Module OsEnviron.

Definition NUL : ascii := Ascii.zero.

Abbreviation environ := (gmap PyText.text string).

(** [os.environ[key] = value]: a NUL in the key or the value and a [=] in the
    key are [ValueError]; [setenv] refuses the empty key with [EINVAL]. *)
Definition setitem (env : environ) (key : PyText.text) (value : string)
  : outcome environ :=
  if existsb (N.eqb 0) key || PyStr.mem NUL value
  then Throw (Builtin (ValueError "embedded null byte"))
  else if existsb (N.eqb 61) key
  then Throw (Builtin (ValueError "illegal environment variable name"))
  else match key with
       | [] => Throw (OSError 22)
       | _ => Return (<[key := value]> env)
       end.

(** [os.environ.get(key)] *)
Definition get (env : environ) (key : PyText.text) : option string :=
  env !! key.

(** [os.environ.pop(key, None)]: the variable is unset if it is there. *)
Definition pop (env : environ) (key : PyText.text) : environ :=
  delete key env.

End OsEnviron.

(** ** app/abstractions/secret_vault.py: the environment vault *)

Module EnvSecretVault.

Definition _name_to_env (name : string) : PyText.text :=
  PyText.upper
    (PyText.replace_char "-"%char "_"%char
       (PyText.replace_char "/"%char "_"%char name)).

Definition get_secret (env : OsEnviron.environ) (name : string)
  : outcome string :=
  let env_name := _name_to_env name in
  match OsEnviron.get env env_name with
  | None =>
      Throw (KeyError (PyText.of_string ("Secret not found: " ++ name ++ " (env: ")
                       ++ env_name ++ PyText.of_string ")"))
  | Some value => Return value
  end.

(** [put_secret]: the environment afterwards, or the exception. *)
Definition put_secret (env : OsEnviron.environ) (name value : string)
    (description : option string) : outcome OsEnviron.environ :=
  let env_name := _name_to_env name in
  OsEnviron.setitem env env_name value.

Definition delete_secret (env : OsEnviron.environ) (name : string)
  : OsEnviron.environ :=
  let env_name := _name_to_env name in
  OsEnviron.pop env env_name.

End EnvSecretVault.

Example name_to_env_example :
  EnvSecretVault._name_to_env "jarvis/dev/jwt"
  = PyText.of_string "JARVIS_DEV_JWT"
  /\ EnvSecretVault._name_to_env "a/b-c_d" = PyText.of_string "A_B_C_D"
  /\ EnvSecretVault._name_to_env (String (ascii_of_N 223) "")
     = PyText.of_string "SS"
  /\ EnvSecretVault._name_to_env (String (ascii_of_N 233) "")
     = PyText.of_string (String (ascii_of_N 201) "")
  /\ EnvSecretVault._name_to_env (String (ascii_of_N 255) "") = [376%N].
Proof. repeat split; reflexivity. Qed.

(** ** The collaborators: password hashing, JWT, settings, pydantic

    [passlib], [jwt] and pydantic's [EmailStr] are libraries; the code is
    stated over any implementation of them.  [pwd_hash] takes the salt that
    [hash] draws, [jwt_decode] the time at which the token is checked;
    [validate_email] gives the normalised address or raises. *)

Record Settings : Type := {
  jwt_access_token_expire_minutes : Z;
  jwt_refresh_token_expire_days : Z
}.

Class Collaborators : Type := {
  get_settings : Settings;
  pwd_hash : string -> N -> outcome string;
  pwd_verify : string -> string -> outcome bool;
  jwt_encode : gmap string json -> string;
  jwt_decode : string -> Z -> outcome (gmap string json);
  validate_email : string -> outcome string
}.

(** ** app/core/security.py *)

Module Security.

Section WithCollaborators.

Context `{Collaborators}.

Definition verify_password (plain_password hashed_password : string)
  : outcome bool :=
  pwd_verify plain_password hashed_password.

Definition hash_password (password : string) (salt : N) : outcome string :=
  pwd_hash password salt.

(** [timedelta(minutes=n)] and [timedelta(days=n)], in microseconds. *)
Definition timedelta_minutes (n : Z) : Z := n * 60000000.
Definition timedelta_days (n : Z) : Z := n * 86400000000.

(** The payload that [create_access_token] encodes: [to_encode] after
    [update].  A [timedelta] is false when it is zero. *)
Definition access_claims (data : gmap string json) (expires_delta : option Z)
    (now : Z) : gmap string json :=
  let to_encode := data in
  let expire :=
    match expires_delta with
    | Some delta =>
        if negb (delta =? 0)%Z then (now + delta)%Z
        else (now + timedelta_minutes
                      (jwt_access_token_expire_minutes get_settings))%Z
    | None =>
        (now + timedelta_minutes
                 (jwt_access_token_expire_minutes get_settings))%Z
    end in
  <["type" := JStr "access"]> (<["exp" := JInt expire]> to_encode).

Definition create_access_token (data : gmap string json)
    (expires_delta : option Z) (now : Z) : string :=
  jwt_encode (access_claims data expires_delta now).

Definition refresh_claims (data : gmap string json) (expires_delta : option Z)
    (now : Z) : gmap string json :=
  let to_encode := data in
  let expire :=
    match expires_delta with
    | Some delta =>
        if negb (delta =? 0)%Z then (now + delta)%Z
        else (now + timedelta_days
                      (jwt_refresh_token_expire_days get_settings))%Z
    | None =>
        (now + timedelta_days (jwt_refresh_token_expire_days get_settings))%Z
    end in
  <["type" := JStr "refresh"]> (<["exp" := JInt expire]> to_encode).

Definition create_refresh_token (data : gmap string json)
    (expires_delta : option Z) (now : Z) : string :=
  jwt_encode (refresh_claims data expires_delta now).

Definition decode_token (token : string) (now : Z)
  : outcome (gmap string json) :=
  jwt_decode token now.

(** [payload.get(key) != value] for a string [value]. *)
Definition get_is_not (payload : gmap string json) (key value : string) : bool :=
  match payload !! key with
  | Some (JStr s) => negb (String.eqb s value)
  | _ => true
  end.

Definition verify_access_token (token : string) (now : Z)
  : outcome (gmap string json) :=
  obind (decode_token token now) (fun payload =>
  if get_is_not payload "type" "access"
  then Throw (InvalidTokenError "Token is not an access token")
  else Return payload).

Definition verify_refresh_token (token : string) (now : Z)
  : outcome (gmap string json) :=
  obind (decode_token token now) (fun payload =>
  if get_is_not payload "type" "refresh"
  then Throw (InvalidTokenError "Token is not a refresh token")
  else Return payload).

End WithCollaborators.

End Security.

(** ** app/models/user.py *)

Module UserModel.

(** One row of the table [users]. *)
Record User : Type := {
  id : PyUUID.uuid;
  tenant_id : PyUUID.uuid;
  email : string;
  hashed_password : string;
  full_name : option string;
  roles : list string;
  is_active : bool;
  is_verified : bool;
  last_login_at : option Z;
  created_at : Z;
  updated_at : Z
}.

(** [role in (self.roles or [])] *)
Definition has_role (self : User) (role : string) : bool :=
  existsb (String.eqb role) (roles self).

Definition is_admin (self : User) : bool := has_role self "admin".

End UserModel.

(** ** The session on the table [users] *)

Module UsersTable.

Import UserModel.

(** [result.scalar_one_or_none()] *)
Definition scalar_one_or_none {A} (rows : list A) : outcome (option A) :=
  match rows with
  | [] => Return None
  | [row] => Return (Some row)
  | _ => Throw MultipleResultsFound
  end.

Fixpoint all_spaces (s : string) : bool :=
  match s with
  | EmptyString => true
  | String c s' => Ascii.eqb c " "%char && all_spaces s'
  end.

(** What a column [String(n)] stores of a text: PostgreSQL refuses a NUL,
    and a text longer than [n] unless what exceeds is spaces, which it
    cuts. *)
Definition varchar (n : nat) (s : string) : outcome string :=
  if PyStr.mem OsEnviron.NUL s
  then Throw (DatabaseError "invalid byte sequence for encoding")
  else if (String.length s <=? n)%nat then Return s
  else if all_spaces (String.substring n (String.length s - n) s)
  then Return (String.substring 0 n s)
  else Throw (DatabaseError "value too long for type character varying").

Definition varchar_opt (n : nat) (s : option string) : outcome (option string) :=
  match s with
  | Some s => obind (varchar n s) (fun s' => Return (Some s'))
  | None => Return None
  end.

(** The row as its columns store it. *)
Definition stored (u : User) : outcome User :=
  obind (varchar 255 (email u)) (fun email' =>
  obind (varchar 255 (hashed_password u)) (fun hashed' =>
  obind (varchar_opt 255 (full_name u)) (fun name' =>
  Return {| id := id u; tenant_id := tenant_id u; email := email';
            hashed_password := hashed'; full_name := name';
            roles := roles u; is_active := is_active u;
            is_verified := is_verified u; last_login_at := last_login_at u;
            created_at := created_at u; updated_at := updated_at u |}))).

Definition same_key (a b : User) : bool :=
  (tenant_id a =? tenant_id b)%N && String.eqb (email a) (email b).

(** [db.add(user)] and [db.commit()]: the INSERT, under the primary key and
    the unique index on (tenant_id, email). *)
Definition insert (users : list User) (u : User) : outcome (list User) :=
  obind (stored u) (fun u' =>
  if existsb (fun r => (id r =? id u')%N) users
  then Throw (DatabaseError "duplicate key value violates unique constraint users_pkey")
  else if existsb (same_key u') users
  then Throw (DatabaseError "duplicate key value violates unique constraint ix_users_tenant_email")
  else Return (users ++ [u'])).

(** The columns that the handlers assign. *)
Definition changed (old new : User) : bool :=
  negb (String.eqb (email old) (email new)
        && String.eqb (hashed_password old) (hashed_password new)
        && bool_decide (full_name old = full_name new)
        && Bool.eqb (is_active old) (is_active new)
        && bool_decide (last_login_at old = last_login_at new)).

(** What an UPDATE stores in a column [String(255)]: the column is set, and
    checked, only when its value has changed. *)
Definition set_varchar (old new : string) : outcome string :=
  if String.eqb old new then Return old else varchar 255 new.

Definition set_varchar_opt (old new : option string) : outcome (option string) :=
  if bool_decide (old = new) then Return old else varchar_opt 255 new.

(** [db.commit()] after assignments to the row [old], which make it [new]:
    no UPDATE when no column has changed; otherwise the UPDATE of the
    changed columns of the row of this id, which also sets [updated_at]
    ([onupdate=func.now()]) and which the unique index on
    (tenant_id, email) can refuse when the email has changed. *)
Definition update (users : list User) (old new : User) (db_now : Z)
  : outcome (list User) :=
  if negb (changed old new) then Return users
  else
    obind (set_varchar (email old) (email new)) (fun email' =>
    obind (set_varchar (hashed_password old) (hashed_password new)) (fun hashed' =>
    obind (set_varchar_opt (full_name old) (full_name new)) (fun name' =>
    let row := {| id := id old; tenant_id := tenant_id old;
                  email := email'; hashed_password := hashed';
                  full_name := name'; roles := roles old;
                  is_active := is_active new; is_verified := is_verified old;
                  last_login_at := last_login_at new;
                  created_at := created_at old; updated_at := db_now |} in
    if negb (String.eqb (email old) email')
       && existsb (fun r => negb (id r =? id row)%N && same_key row r) users
    then Throw (DatabaseError "duplicate key value violates unique constraint ix_users_tenant_email")
    else if negb (existsb (fun r => (id r =? id row)%N) users)
    then Throw (DatabaseError "UPDATE statement on table 'users' expected to update 1 row(s); 0 were matched")
    else Return (map (fun r => if (id r =? id row)%N then row else r) users)))).

(** [db.delete(user)] and [db.commit()] *)
Definition delete (users : list User) (u : User) : list User :=
  List.filter (fun r => negb (id r =? id u)%N) users.

(** [db.refresh(user)]: the row of that id as the table has it. *)
Definition refresh (users : list User) (u : User) : outcome User :=
  match find (fun r => (id r =? id u)%N) users with
  | Some r => Return r
  | None => Throw (DatabaseError "Could not refresh instance")
  end.

End UsersTable.

(** ** app/api/deps.py *)

Module Deps.

Import UserModel.

(** The Authorization header as [HTTPBearer] gives it. *)
Record HTTPAuthorizationCredentials : Type := {
  scheme : string;
  credentials : string
}.

Section WithCollaborators.

Context `{Collaborators}.

(** [UUID(payload["sub"])]: [KeyError] without the key, [ValueError] for a
    string that is no UUID; a value that is no string has no [replace]. *)
Definition sub_uuid (payload : gmap string json) : outcome PyUUID.uuid :=
  match payload !! "sub" with
  | None => Throw (KeyError (PyText.of_string "sub"))
  | Some (JStr s) =>
      match PyUUID.UUID s with
      | Some u => Return u
      | None => Throw (Builtin (ValueError "badly formed hexadecimal UUID string"))
      end
  | Some JNull =>
      Throw (Builtin (TypeError "one of the hex, bytes, bytes_le, fields, or int arguments must be given"))
  | Some _ => Throw (AttributeError "object has no attribute 'replace'")
  end.

(** The assignments to the context of the request. *)
Definition with_user (ctx : Context.RequestContext) (user : User)
  : Context.RequestContext :=
  {| Context.request_id := Context.request_id ctx;
     Context.tenant_id := PyUUID.uuid_str (tenant_id user);
     Context.user_id := Some (PyUUID.uuid_str (id user));
     Context.user_email := Some (email user);
     Context.user_roles := roles user;
     Context.session_id := Context.session_id ctx;
     Context.client_ip := Context.client_ip ctx;
     Context.user_agent := Context.user_agent ctx |}.

(** The body of the [try] of [get_current_user_optional]. *)
Definition authenticate (token : string) (now : Z) (users : list User)
    (var : Context.ContextVar) : outcome (option User) * Context.ContextVar :=
  match Security.verify_access_token token now with
  | Throw e => (Throw e, var)
  | Return payload =>
      match sub_uuid payload with
      | Throw e => (Throw e, var)
      | Return user_id =>
          match UsersTable.scalar_one_or_none
                  (List.filter
                     (fun u => (id u =? user_id)%N && Bool.eqb (is_active u) true)
                     users) with
          | Throw e => (Throw e, var)
          | Return None => (Return None, var)
          | Return (Some user) =>
              match Context.get_request_context var with
              | Raise e => (Throw (Builtin e), var)
              | Ok ctx =>
                  (Return (Some user),
                   Context.set_request_context (with_user ctx user) var)
              end
          end
      end
  end.

(** [except (jwt.InvalidTokenError, ValueError, KeyError): return None] *)
Definition caught (e : pyexc) : bool :=
  match e with
  | InvalidTokenError _ | KeyError _ | Builtin (ValueError _) => true
  | _ => false
  end.

Definition get_current_user_optional
    (creds : option HTTPAuthorizationCredentials) (now : Z)
    (users : list User) (var : Context.ContextVar)
  : outcome (option User) * Context.ContextVar :=
  match creds with
  | None => (Return None, var)
  | Some c =>
      match authenticate (credentials c) now users var with
      | (Throw e, var') => if caught e then (Return None, var') else (Throw e, var')
      | r => r
      end
  end.

Definition get_current_user (user : option User) : outcome User :=
  match user with
  | None => Throw (HTTPException 401 "Not authenticated")
  | Some user => Return user
  end.

Definition get_current_active_user (user : User) : outcome User :=
  if negb (is_active user)
  then Throw (HTTPException 403 "User account is inactive")
  else Return user.

Definition require_admin (user : User) : outcome User :=
  if negb (is_admin user)
  then Throw (HTTPException 403 "Admin access required")
  else Return user.

(** The dependency [CurrentActiveUser], resolved from the credentials. *)
Definition CurrentActiveUser (creds : option HTTPAuthorizationCredentials)
    (now : Z) (users : list User) (var : Context.ContextVar)
  : outcome User * Context.ContextVar :=
  let '(user, var') := get_current_user_optional creds now users var in
  (obind user (fun user =>
   obind (get_current_user user) get_current_active_user), var').

(** The dependency [AdminUser]. *)
Definition AdminUser (creds : option HTTPAuthorizationCredentials)
    (now : Z) (users : list User) (var : Context.ContextVar)
  : outcome User * Context.ContextVar :=
  let '(user, var') := CurrentActiveUser creds now users var in
  (obind user require_admin, var').

End WithCollaborators.

End Deps.

(** ** app/schemas/user.py and app/schemas/auth.py

    The request models are given as FastAPI hands them to a handler, after
    validation. *)

Module Schemas.

Module UserCreate.
Record t : Type := {
  email : string;
  full_name : option string;
  password : string
}.
End UserCreate.

Module UserUpdate.
Record t : Type := {
  email : option string;
  full_name : option string;
  password : option string;
  is_active : option bool
}.
End UserUpdate.

Module UserResponse.
Record t : Type := {
  email : string;
  full_name : option string;
  id : PyUUID.uuid;
  tenant_id : PyUUID.uuid;
  roles : list string;
  is_active : bool;
  is_verified : bool;
  last_login_at : option Z;
  created_at : Z;
  updated_at : Z
}.
End UserResponse.

Module LoginRequest.
Record t : Type := {
  email : string;
  password : string
}.
End LoginRequest.

Module LoginResponse.
Record t : Type := {
  access_token : string;
  refresh_token : string;
  token_type : string;
  expires_in : Z
}.
End LoginResponse.

Module TokenRefreshRequest.
Record t : Type := {
  refresh_token : string
}.
End TokenRefreshRequest.

Section WithCollaborators.

Context `{Collaborators}.

(** [UserResponse.model_validate(user)], from the attributes of a row. *)
Definition model_validate (user : UserModel.User) : outcome UserResponse.t :=
  obind (validate_email (UserModel.email user)) (fun email' =>
  Return {| UserResponse.email := email';
            UserResponse.full_name := UserModel.full_name user;
            UserResponse.id := UserModel.id user;
            UserResponse.tenant_id := UserModel.tenant_id user;
            UserResponse.roles := UserModel.roles user;
            UserResponse.is_active := UserModel.is_active user;
            UserResponse.is_verified := UserModel.is_verified user;
            UserResponse.last_login_at := UserModel.last_login_at user;
            UserResponse.created_at := UserModel.created_at user;
            UserResponse.updated_at := UserModel.updated_at user |}).

End WithCollaborators.

End Schemas.

(** [[f(x) for x in l]], which stops at the first exception. *)
Fixpoint omap {A B} (f : A -> outcome B) (l : list A) : outcome (list B) :=
  match l with
  | [] => Return []
  | a :: l' =>
      obind (f a) (fun b => obind (omap f l') (fun bs => Return (b :: bs)))
  end.

(** ** app/api/users.py

    A handler takes the table [users] as its session reads it and gives its
    result with the table as it is afterwards.  The user that a dependency
    gives ([admin], [user]) is a row loaded by the same session. *)

Module UsersApi.

Import UserModel.
Import Schemas.

Section WithCollaborators.

Context `{Collaborators}.

Definition get_current_user_profile (user : User) : outcome UserResponse.t :=
  model_validate user.

(** The assignments of [update_current_user_profile] after the check of
    the email. *)
Definition assign_profile (update_data : UserUpdate.t) (user : User) (salt : N)
  : outcome User :=
  let user1 :=
    match UserUpdate.email update_data with
    | Some e =>
        {| id := id user; tenant_id := tenant_id user; email := e;
           hashed_password := hashed_password user;
           full_name := full_name user; roles := roles user;
           is_active := is_active user; is_verified := is_verified user;
           last_login_at := last_login_at user;
           created_at := created_at user; updated_at := updated_at user |}
    | None => user
    end in
  let user2 :=
    match UserUpdate.full_name update_data with
    | Some n =>
        {| id := id user1; tenant_id := tenant_id user1; email := email user1;
           hashed_password := hashed_password user1;
           full_name := Some n; roles := roles user1;
           is_active := is_active user1; is_verified := is_verified user1;
           last_login_at := last_login_at user1;
           created_at := created_at user1; updated_at := updated_at user1 |}
    | None => user1
    end in
  match UserUpdate.password update_data with
  | Some p =>
      obind (Security.hash_password p salt) (fun hashed =>
      Return {| id := id user2; tenant_id := tenant_id user2;
                email := email user2; hashed_password := hashed;
                full_name := full_name user2; roles := roles user2;
                is_active := is_active user2; is_verified := is_verified user2;
                last_login_at := last_login_at user2;
                created_at := created_at user2;
                updated_at := updated_at user2 |})
  | None => Return user2
  end.

(** [db.commit()], [db.refresh(user)] and the response, after assignments
    that make the row [old] into [new]. *)
Definition commit_refresh (users : list User) (old new : User) (db_now : Z)
  : outcome UserResponse.t * list User :=
  match UsersTable.update users old new db_now with
  | Throw e => (Throw e, users)
  | Return users' =>
      (obind (UsersTable.refresh users' new) model_validate, users')
  end.

Definition update_current_user_profile (update_data : UserUpdate.t)
    (user : User) (salt : N) (db_now : Z) (users : list User)
  : outcome UserResponse.t * list User :=
  let taken :=
    match UserUpdate.email update_data with
    | Some e =>
        obind (UsersTable.scalar_one_or_none
                 (List.filter
                    (fun u => String.eqb (email u) e
                              && negb (id u =? id user)%N) users))
              (fun found =>
        match found with
        | Some _ => Throw (HTTPException 409 "Email already in use")
        | None => Return tt
        end)
    | None => Return tt
    end in
  match taken with
  | Throw e => (Throw e, users)
  | Return _ =>
      match assign_profile update_data user salt with
      | Throw e => (Throw e, users)
      | Return new => commit_refresh users user new db_now
      end
  end.

(** [scanned] is the table in the order in which the database reads it:
    the statement has no ORDER BY. *)
Definition list_users (admin : User) (skip limit : Z) (scanned : list User)
  : outcome (list UserResponse.t) :=
  if negb (AuditLogger.bigint_ok skip && AuditLogger.bigint_ok limit)
  then Throw (Builtin (DBAPIError "OFFSET or LIMIT out of range"))
  else
    let users :=
      firstn (Z.to_nat limit)
        (skipn (Z.to_nat skip)
           (List.filter (fun u => (tenant_id u =? tenant_id admin)%N) scanned)) in
    omap model_validate users.

(** [select(User).where(User.id == user_id,
    User.tenant_id == admin.tenant_id)] and [scalar_one_or_none()] *)
Definition select_in_tenant (user_id : PyUUID.uuid) (admin : User)
    (users : list User) : outcome (option User) :=
  UsersTable.scalar_one_or_none
    (List.filter
       (fun u => (id u =? user_id)%N && (tenant_id u =? tenant_id admin)%N)
       users).

Definition get_user (user_id : PyUUID.uuid) (admin : User) (users : list User)
  : outcome UserResponse.t :=
  obind (select_in_tenant user_id admin users) (fun user =>
  match user with
  | None => Throw (HTTPException 404 "User not found")
  | Some user => model_validate user
  end).

Definition create_user (user_data : UserCreate.t) (admin : User)
    (salt : N) (id_uuid4 : PyUUID.uuid) (db_now : Z) (users : list User)
  : outcome UserResponse.t * list User :=
  match UsersTable.scalar_one_or_none
          (List.filter
             (fun u => String.eqb (email u) (UserCreate.email user_data)
                       && (tenant_id u =? tenant_id admin)%N) users) with
  | Throw e => (Throw e, users)
  | Return (Some _) =>
      (Throw (HTTPException 409 "Email already registered"), users)
  | Return None =>
      match Security.hash_password (UserCreate.password user_data) salt with
      | Throw e => (Throw e, users)
      | Return hashed =>
          let user :=
            {| id := id_uuid4; tenant_id := tenant_id admin;
               email := UserCreate.email user_data;
               hashed_password := hashed;
               full_name := UserCreate.full_name user_data;
               roles := ["user"];
               is_active := true; is_verified := false;
               last_login_at := None;
               created_at := db_now; updated_at := db_now |} in
          match UsersTable.insert users user with
          | Throw e => (Throw e, users)
          | Return users' =>
              (obind (UsersTable.refresh users' user) model_validate, users')
          end
      end
  end.

(** The assignments of [update_user] after the check of the email. *)
Definition assign_user (update_data : UserUpdate.t) (user : User) (salt : N)
  : outcome User :=
  obind (assign_profile update_data user salt) (fun user3 =>
  match UserUpdate.is_active update_data with
  | Some b =>
      Return {| id := id user3; tenant_id := tenant_id user3;
                email := email user3;
                hashed_password := hashed_password user3;
                full_name := full_name user3; roles := roles user3;
                is_active := b; is_verified := is_verified user3;
                last_login_at := last_login_at user3;
                created_at := created_at user3;
                updated_at := updated_at user3 |}
  | None => Return user3
  end).

Definition update_user (user_id : PyUUID.uuid) (update_data : UserUpdate.t)
    (admin : User) (salt : N) (db_now : Z) (users : list User)
  : outcome UserResponse.t * list User :=
  match select_in_tenant user_id admin users with
  | Throw e => (Throw e, users)
  | Return None => (Throw (HTTPException 404 "User not found"), users)
  | Return (Some user) =>
      let taken :=
        match UserUpdate.email update_data with
        | Some e =>
            obind (UsersTable.scalar_one_or_none
                     (List.filter
                        (fun u => String.eqb (email u) e
                                  && negb (id u =? user_id)%N
                                  && (tenant_id u =? tenant_id admin)%N) users))
                  (fun found =>
            match found with
            | Some _ => Throw (HTTPException 409 "Email already in use")
            | None => Return tt
            end)
        | None => Return tt
        end in
      match taken with
      | Throw e => (Throw e, users)
      | Return _ =>
          match assign_user update_data user salt with
          | Throw e => (Throw e, users)
          | Return new => commit_refresh users user new db_now
          end
      end
  end.

Definition delete_user (user_id : PyUUID.uuid) (admin : User)
    (users : list User) : outcome unit * list User :=
  match select_in_tenant user_id admin users with
  | Throw e => (Throw e, users)
  | Return None => (Throw (HTTPException 404 "User not found"), users)
  | Return (Some user) =>
      if (id user =? id admin)%N
      then (Throw (HTTPException 400 "Cannot delete your own account"), users)
      else (Return tt, UsersTable.delete users user)
  end.

End WithCollaborators.

End UsersApi.

(** ** app/api/auth.py

    A row keeps the attributes it was loaded with after [db.commit()]: the
    session does not expire them ([expire_on_commit=False], as the session
    of tests/conftest.py is made), so that [login] can read [user.id] and
    the like after its commit. *)

Module AuthApi.

Import UserModel.
Import Schemas.

Section WithCollaborators.

Context `{Collaborators}.

Definition token_data (user : User) : gmap string json :=
  <["sub" := JStr (PyUUID.uuid_str (id user))]>
    (<["email" := JStr (email user)]>
       (<["tenant_id" := JStr (PyUUID.uuid_str (tenant_id user))]>
          (<["roles" := JList (map JStr (roles user))]> ∅))).

(** The tokens of [user]; [now_access] and [now_refresh] are the times at
    which the two tokens are made. *)
Definition tokens (user : User) (now_access now_refresh : Z) : LoginResponse.t :=
  {| LoginResponse.access_token :=
       Security.create_access_token (token_data user) None now_access;
     LoginResponse.refresh_token :=
       Security.create_refresh_token (token_data user) None now_refresh;
     LoginResponse.token_type := "bearer";
     LoginResponse.expires_in :=
       jwt_access_token_expire_minutes get_settings * 60 |}.

Definition login (request : LoginRequest.t) (now db_now : Z)
    (now_access now_refresh : Z) (users : list User)
  : outcome LoginResponse.t * list User :=
  let invalid := HTTPException 401 "Invalid email or password" in
  match UsersTable.scalar_one_or_none
          (List.filter
             (fun u => String.eqb (email u) (LoginRequest.email request)) users)
  with
  | Throw e => (Throw e, users)
  | Return None => (Throw invalid, users)
  | Return (Some user) =>
      match Security.verify_password (LoginRequest.password request)
              (hashed_password user) with
      | Throw e => (Throw e, users)
      | Return false => (Throw invalid, users)
      | Return true =>
          if negb (is_active user)
          then (Throw (HTTPException 403 "User account is inactive"), users)
          else
            let user' :=
              {| id := id user; tenant_id := tenant_id user;
                 email := email user;
                 hashed_password := hashed_password user;
                 full_name := full_name user; roles := roles user;
                 is_active := is_active user;
                 is_verified := is_verified user;
                 last_login_at := Some now;
                 created_at := created_at user;
                 updated_at := updated_at user |} in
            match UsersTable.update users user user' db_now with
            | Throw e => (Throw e, users)
            | Return users' =>
                (Return (tokens user' now_access now_refresh), users')
            end
      end
  end.

Definition refresh_token (request : TokenRefreshRequest.t) (now : Z)
    (now_access now_refresh : Z) (users : list User)
  : outcome LoginResponse.t :=
  match Security.verify_refresh_token
          (TokenRefreshRequest.refresh_token request) now with
  | Throw _ => Throw (HTTPException 401 "Invalid refresh token")
  | Return payload =>
      obind (Deps.sub_uuid payload) (fun user_id =>
      obind (UsersTable.scalar_one_or_none
               (List.filter (fun u => (id u =? user_id)%N) users)) (fun user =>
      match user with
      | None => Throw (HTTPException 401 "User not found or inactive")
      | Some user =>
          if negb (is_active user)
          then Throw (HTTPException 401 "User not found or inactive")
          else Return (tokens user now_access now_refresh)
      end))
  end.

Definition register (request : LoginRequest.t) (salt : N)
    (id_uuid4 tenant_uuid4 : PyUUID.uuid) (db_now : Z)
    (now_access now_refresh : Z) (users : list User)
  : outcome LoginResponse.t * list User :=
  match UsersTable.scalar_one_or_none
          (List.filter
             (fun u => String.eqb (email u) (LoginRequest.email request)) users)
  with
  | Throw e => (Throw e, users)
  | Return (Some _) =>
      (Throw (HTTPException 409 "Email already registered"), users)
  | Return None =>
      match Security.hash_password (LoginRequest.password request) salt with
      | Throw e => (Throw e, users)
      | Return hashed =>
          let user :=
            {| id := id_uuid4; tenant_id := tenant_uuid4;
               email := LoginRequest.email request;
               hashed_password := hashed;
               full_name := None;
               roles := ["user"];
               is_active := true; is_verified := false;
               last_login_at := None;
               created_at := db_now; updated_at := db_now |} in
          match UsersTable.insert users user with
          | Throw e => (Throw e, users)
          | Return users' =>
              (obind (UsersTable.refresh users' user) (fun row =>
               Return (tokens row now_access now_refresh)), users')
          end
      end
  end.

End WithCollaborators.

End AuthApi.

(** ** The constraints of the table [users] *)

Module UsersSpec.

Import UserModel.

(** The key of the unique index [ix_users_tenant_email]. *)
Definition tenant_email (u : User) : PyUUID.uuid * string :=
  (tenant_id u, email u).

Definition primary_key (users : list User) : Prop :=
  List.NoDup (map id users).

Definition unique_index (users : list User) : Prop :=
  List.NoDup (map tenant_email users).

(** The columns that no handler assigns. *)
Definition same_identity (old new : User) : Prop :=
  id new = id old /\ tenant_id new = tenant_id old /\ roles new = roles old
  /\ is_verified new = is_verified old /\ created_at new = created_at old.

End UsersSpec.

(** ** Sample collaborators *)

Module Toy.

Definition settings : Settings :=
  {| jwt_access_token_expire_minutes := 30;
     jwt_refresh_token_expire_days := 7 |}.

Definition token_data : gmap string json :=
  <["sub" := JStr "11111111-2222-4333-8444-555555555555"]>
    (<["type" := JStr "refresh"]> ∅).

(** The payload of an access token made from [token_data] at time 0 with
    the default expiry. *)
Definition access_payload : gmap string json :=
  <["type" := JStr "access"]> (<["exp" := JInt 1800000000]> token_data).

(** Collaborators whose every token is the access token of
    [access_payload]. *)
Definition one_access_token : Collaborators :=
  {| get_settings := settings;
     pwd_hash := fun password _ => Return ("hash:" ++ password)%string;
     pwd_verify := fun plain hashed =>
                     Return (String.eqb hashed ("hash:" ++ plain)%string);
     jwt_encode := fun _ => "token";
     jwt_decode := fun _ _ => Return access_payload;
     validate_email := fun email => Return email |}.

Definition alice : UserModel.User :=
  {| UserModel.id := 22685491133344597890602450946295682389%N;
     UserModel.tenant_id := 226854911227807169540085122252964626433%N;
     UserModel.email := "alice@example.org";
     UserModel.hashed_password := "hash:wonderland";
     UserModel.full_name := Some "Alice";
     UserModel.roles := ["user"; "admin"];
     UserModel.is_active := true;
     UserModel.is_verified := true;
     UserModel.last_login_at := None;
     UserModel.created_at := 0;
     UserModel.updated_at := 0 |}.

(** A user of another tenant. *)
Definition bob : UserModel.User :=
  {| UserModel.id := 77%N;
     UserModel.tenant_id := 88%N;
     UserModel.email := "bob@example.org";
     UserModel.hashed_password := "hash:builder";
     UserModel.full_name := None;
     UserModel.roles := ["user"];
     UserModel.is_active := true;
     UserModel.is_verified := false;
     UserModel.last_login_at := None;
     UserModel.created_at := 0;
     UserModel.updated_at := 0 |}.

Definition users : list UserModel.User := [alice; bob].

Definition bearer : Deps.HTTPAuthorizationCredentials :=
  {| Deps.scheme := "Bearer"; Deps.credentials := "token" |}.

End Toy.

(** ** Auxiliary notions of the properties *)

Definition head_kept (p : ascii -> bool) (s : string) : Prop :=
  match s with
  | EmptyString => True
  | String c _ => p c = false
  end.

(** ** Secret names that are one secret *)

Module VaultSpec.

(** The code points that a character of the secret name gives to the name
    of the variable. *)
Definition env_code (c : ascii) : PyText.text :=
  PyText.upper_char
    (if Ascii.eqb (if Ascii.eqb c "/" then "_"%char else c) "-"
     then "_"%char
     else if Ascii.eqb c "/" then "_"%char else c).

Definition is_separator (c : ascii) : bool := PyStr.mem c "/-_".

(** Two characters that differ at most in case, or that both separate. *)
Definition alias_char (c d : ascii) : bool :=
  Ascii.eqb (PyText.lower_char c) (PyText.lower_char d)
  || is_separator c && is_separator d.

(** Two names that differ, place by place, at most in the case of a letter
    or in which of [/], [-] and [_] separates. *)
Fixpoint alias (a b : string) : bool :=
  match a, b with
  | EmptyString, EmptyString => true
  | String c a', String d b' => alias_char c d && alias a' b'
  | _, _ => false
  end.

End VaultSpec.

(** ** Identifiers of 128 bits *)

Module UuidSpec.

Definition lowhex (c : ascii) : bool := PyStr.mem c "0123456789abcdef".

Definition uuid_char (c : ascii) : bool := lowhex c || Ascii.eqb c "-".

Fixpoint str_forall (p : ascii -> bool) (s : string) : bool :=
  match s with
  | EmptyString => true
  | String c s' => p c && str_forall p s'
  end.

(** The number that a text of hexadecimal digits writes, after [acc]. *)
Fixpoint hex_val (acc : N) (s : string) : N :=
  match s with
  | EmptyString => acc
  | String c s' =>
      match PyUUID.digit_value c with
      | Some d => hex_val (16 * acc + d) s'
      | None => acc
      end
  end.

Definition hexdigit (c : ascii) : bool :=
  match PyUUID.digit_value c with
  | Some _ => true
  | None => false
  end.

Fixpoint uuid_syntax_from (i : nat) (s : string) : bool :=
  match s with
  | EmptyString => (i =? 36)%nat
  | String c s' =>
      (if (i =? 8)%nat || (i =? 13)%nat || (i =? 18)%nat || (i =? 23)%nat
       then Ascii.eqb c "-"
       else hexdigit c)
      && uuid_syntax_from (S i) s'
  end.

(** A syntactically valid UUID string, in the words of the specification:
    the text of a UUID as RFC 4122 writes it, 32 hexadecimal digits in
    groups of 8, 4, 4, 4 and 12 with hyphens between them. *)
Definition valid_uuid_syntax (s : string) : bool := uuid_syntax_from 0 s.

(** A value of [uuid.UUID], and of a column [UUID(as_uuid=True)]. *)
Definition uuid128 (u : PyUUID.uuid) : Prop := (u < 2 ^ 128)%N.

Definition row_uuid128 (row : AuditLogModel.AuditLog) : Prop :=
  uuid128 (AuditLogModel.actor_id row)
  /\ uuid128 (AuditLogModel.tenant_id row)
  /\ uuid128 (AuditLogModel.request_id row)
  /\ (forall s, AuditLogModel.session_id row = Some s -> uuid128 s).

Definition user_uuid128 (user : UserModel.User) : Prop :=
  uuid128 (UserModel.id user) /\ uuid128 (UserModel.tenant_id user).

(** The row with another [id]. *)
Definition with_id (id : PyUUID.uuid) (row : AuditLogModel.AuditLog)
  : AuditLogModel.AuditLog :=
  {| AuditLogModel.id := id;
     AuditLogModel.actor_id := AuditLogModel.actor_id row;
     AuditLogModel.actor_type := AuditLogModel.actor_type row;
     AuditLogModel.actor_ip := AuditLogModel.actor_ip row;
     AuditLogModel.action := AuditLogModel.action row;
     AuditLogModel.action_detail := AuditLogModel.action_detail row;
     AuditLogModel.resource_type := AuditLogModel.resource_type row;
     AuditLogModel.resource_id := AuditLogModel.resource_id row;
     AuditLogModel.tenant_id := AuditLogModel.tenant_id row;
     AuditLogModel.request_id := AuditLogModel.request_id row;
     AuditLogModel.session_id := AuditLogModel.session_id row;
     AuditLogModel.timestamp := AuditLogModel.timestamp row;
     AuditLogModel.old_values := AuditLogModel.old_values row;
     AuditLogModel.new_values := AuditLogModel.new_values row;
     AuditLogModel.success := AuditLogModel.success row;
     AuditLogModel.error_message := AuditLogModel.error_message row;
     AuditLogModel.data_classification :=
       AuditLogModel.data_classification row |}.

(** A stored row, of [Samples.alice] in the tenant [Samples.alpha]. *)
Definition sample_row : AuditLogModel.AuditLog :=
  {| AuditLogModel.id := 5%N;
     AuditLogModel.actor_id := 22685491133344597890602450946295682389%N;
     AuditLogModel.actor_type := "user";
     AuditLogModel.actor_ip := Some "10.0.0.7";
     AuditLogModel.action := "update";
     AuditLogModel.action_detail := None;
     AuditLogModel.resource_type := "user";
     AuditLogModel.resource_id := "42";
     AuditLogModel.tenant_id := 226854911227807169540085122252964626433%N;
     AuditLogModel.request_id := 204169420105026482810144437597083009033%N;
     AuditLogModel.session_id := Some 7%N;
     AuditLogModel.timestamp := 0;
     AuditLogModel.old_values := None;
     AuditLogModel.new_values := None;
     AuditLogModel.success := true;
     AuditLogModel.error_message := None;
     AuditLogModel.data_classification := "confidential" |}.

End UuidSpec.

(** ** Sample users *)

Module ToyUsers.

(** A user of the tenant of [Toy.alice]. *)
Definition carol : UserModel.User :=
  {| UserModel.id := 99%N;
     UserModel.tenant_id := 226854911227807169540085122252964626433%N;
     UserModel.email := "carol@example.org";
     UserModel.hashed_password := "hash:carolina";
     UserModel.full_name := None;
     UserModel.roles := ["user"];
     UserModel.is_active := true;
     UserModel.is_verified := false;
     UserModel.last_login_at := None;
     UserModel.created_at := 0;
     UserModel.updated_at := 0 |}.

Definition users : list UserModel.User := [Toy.alice; Toy.bob; carol].

Definition response (u : UserModel.User) : Schemas.UserResponse.t :=
  {| Schemas.UserResponse.email := UserModel.email u;
     Schemas.UserResponse.full_name := UserModel.full_name u;
     Schemas.UserResponse.id := UserModel.id u;
     Schemas.UserResponse.tenant_id := UserModel.tenant_id u;
     Schemas.UserResponse.roles := UserModel.roles u;
     Schemas.UserResponse.is_active := UserModel.is_active u;
     Schemas.UserResponse.is_verified := UserModel.is_verified u;
     Schemas.UserResponse.last_login_at := UserModel.last_login_at u;
     Schemas.UserResponse.created_at := UserModel.created_at u;
     Schemas.UserResponse.updated_at := UserModel.updated_at u |}.

(** A request to create, in the tenant of the caller, a user with the email
    of [Toy.bob]. *)
Definition create_bob : Schemas.UserCreate.t :=
  {| Schemas.UserCreate.email := "bob@example.org";
     Schemas.UserCreate.full_name := Some "Bob";
     Schemas.UserCreate.password := "the-builder" |}.

Definition new_bob : UserModel.User :=
  {| UserModel.id := 100%N;
     UserModel.tenant_id := 226854911227807169540085122252964626433%N;
     UserModel.email := "bob@example.org";
     UserModel.hashed_password := "hash:the-builder";
     UserModel.full_name := Some "Bob";
     UserModel.roles := ["user"];
     UserModel.is_active := true;
     UserModel.is_verified := false;
     UserModel.last_login_at := None;
     UserModel.created_at := 50;
     UserModel.updated_at := 50 |}.

Definition rename_carol : Schemas.UserUpdate.t :=
  {| Schemas.UserUpdate.email := None;
     Schemas.UserUpdate.full_name := Some "Carol";
     Schemas.UserUpdate.password := None;
     Schemas.UserUpdate.is_active := None |}.

Definition renamed_carol : UserModel.User :=
  {| UserModel.id := 99%N;
     UserModel.tenant_id := 226854911227807169540085122252964626433%N;
     UserModel.email := "carol@example.org";
     UserModel.hashed_password := "hash:carolina";
     UserModel.full_name := Some "Carol";
     UserModel.roles := ["user"];
     UserModel.is_active := true;
     UserModel.is_verified := false;
     UserModel.last_login_at := None;
     UserModel.created_at := 0;
     UserModel.updated_at := 50 |}.

Definition login_carol : Schemas.LoginRequest.t :=
  {| Schemas.LoginRequest.email := "carol@example.org";
     Schemas.LoginRequest.password := "carolina" |}.

Definition logged_in_carol : UserModel.User :=
  {| UserModel.id := 99%N;
     UserModel.tenant_id := 226854911227807169540085122252964626433%N;
     UserModel.email := "carol@example.org";
     UserModel.hashed_password := "hash:carolina";
     UserModel.full_name := None;
     UserModel.roles := ["user"];
     UserModel.is_active := true;
     UserModel.is_verified := false;
     UserModel.last_login_at := Some 40%Z;
     UserModel.created_at := 0;
     UserModel.updated_at := 50 |}.

Definition register_dave : Schemas.LoginRequest.t :=
  {| Schemas.LoginRequest.email := "dave@example.org";
     Schemas.LoginRequest.password := "davidson" |}.

Definition dave : UserModel.User :=
  {| UserModel.id := 101%N;
     UserModel.tenant_id := 102%N;
     UserModel.email := "dave@example.org";
     UserModel.hashed_password := "hash:davidson";
     UserModel.full_name := None;
     UserModel.roles := ["user"];
     UserModel.is_active := true;
     UserModel.is_verified := false;
     UserModel.last_login_at := None;
     UserModel.created_at := 50;
     UserModel.updated_at := 50 |}.

End ToyUsers.

(** * Properties *)

Import AuditLogger.
Import QuerySpec.

(** ** Worked examples *)

(** Scenario 3 of the specification: the window from 90 minutes ago to now
    selects the entries of one hour ago and of now, the newest first. *)
Example scenario_time_window :
  fst (DatabaseAuditLogger.query Samples.ties Samples.alpha None None None None
         (Some (10 * Samples.hour - 5400000000)%Z) (Some (10 * Samples.hour)%Z)
         100 0 Samples.three_entries)
  = Ok [Samples.entry Samples.alpha Samples.alice (10 * Samples.hour);
        Samples.entry Samples.alpha Samples.alice (9 * Samples.hour)].
Proof. vm_compute. reflexivity. Qed.

Example dispatch_context_proxied :
  Samples.ctx_anonymous
  = {| Context.request_id := Samples.req1;
       Context.tenant_id := Samples.alpha;
       Context.user_id := None; Context.user_email := None;
       Context.user_roles := []; Context.session_id := None;
       Context.client_ip := Some "203.0.113.5";
       Context.user_agent := None |}.
Proof. vm_compute. reflexivity. Qed.

(** ** The request context *)

(** C7.  Outside a request scope, where the ContextVar holds its default,
    [get_request_context] raises a [RuntimeError] and returns no context,
    while [get_optional_request_context] returns [None]; once a context has
    been installed both return that context. *)
Theorem get_request_context_outside_scope :
  (exists msg,
     Context.get_request_context Context._request_context_default
     = Raise (RuntimeError msg))
  /\ Context.get_optional_request_context Context._request_context_default = None
  /\ (forall ctx var,
        Context.get_request_context (Context.set_request_context ctx var) = Ok ctx
        /\ Context.get_optional_request_context (Context.set_request_context ctx var)
           = Some ctx)
  /\ (forall var ctx,
        Context.get_request_context var = Ok ctx <-> var = Some ctx).
Proof.
  split; [eexists; reflexivity|].
  split; [reflexivity|].
  split; [intros ctx var; split; reflexivity|].
  intros [c|] ctx; simpl; split; intros H; try discriminate; congruence.
Qed.

(** ** The context establisher *)

Lemma headers_get_In hs key value :
  Middleware.headers_get hs key = Some value ->
  In (PyStr.lower key, value) hs.
Proof.
  induction hs as [|[name v] hs IH]; simpl; [discriminate|].
  destruct (String.eqb name (PyStr.lower key)) eqn:E.
  - intros [= ->]. apply String.eqb_eq in E. subst. now left.
  - intros H. right. now apply IH.
Qed.

Lemma headers_get_None hs key :
  Middleware.headers_get hs key = None <->
  (forall value, ~ In (PyStr.lower key, value) hs).
Proof.
  induction hs as [|[name v] hs IH]; simpl.
  - split; [intros _ value []|reflexivity].
  - destruct (String.eqb name (PyStr.lower key)) eqn:E.
    + apply String.eqb_eq in E. subst. split; [discriminate|].
      intros H. exfalso. apply (H v). now left.
    + apply String.eqb_neq in E. rewrite IH. split.
      * intros H value [[= Hn Hv]|Hin]; [now apply E|now apply (H value)].
      * intros H value Hin. apply (H value). now right.
Qed.

(** The first entry of a comma-separated value is the text before the first
    comma. *)
Lemma split_head_spec s :
  exists rest,
    s = (PyStr.split_head ","%char s ++ rest)%string
    /\ (rest = "" \/ exists rest', rest = String ","%char rest')
    /\ PyStr.mem ","%char (PyStr.split_head ","%char s) = false.
Proof.
  induction s as [|c s IH]; simpl.
  - exists "". repeat split. now left.
  - destruct (Ascii.eqb c ",") eqn:E.
    + apply Ascii.eqb_eq in E. subst. exists (String "," s). simpl.
      repeat split. right. now exists s.
    + destruct IH as (rest & Hs & Hrest & Hmem). exists rest.
      split; [|split; [exact Hrest|]].
      * change (String c s
                = String c (PyStr.split_head ","%char s ++ rest)%string).
        now f_equal.
      * cbn [PyStr.mem]. rewrite Ascii.eqb_sym, E. exact Hmem.
Qed.

(** C8, as the code has it.  The request id is the X-Request-ID header when
    the request has one and the freshly drawn UUID otherwise; the tenant is
    the X-Tenant-ID header when the request has one and the sentinel
    ["default"] otherwise; the client address is the first entry of
    X-Forwarded-For, stripped of white space, when the request has that
    header with a value that is not empty, and otherwise the host of the
    peer address (none when the transport gives no peer).  [dispatch] runs
    the rest of the application with that context installed. *)
Theorem dispatch_context_fields request uuid4 :
  let hs := Middleware.headers request in
  let ctx := Middleware.dispatch_context request uuid4 in
  let peer :=
    match Middleware.client request with
    | Some (host, _) => Some host
    | None => None
    end in
  (forall v, Middleware.headers_get hs "X-Request-ID" = Some v ->
             Context.request_id ctx = v)
  /\ (Middleware.headers_get hs "X-Request-ID" = None ->
      Context.request_id ctx = PyUUID.uuid_str uuid4)
  /\ (forall v, Middleware.headers_get hs "X-Tenant-ID" = Some v ->
                Context.tenant_id ctx = v)
  /\ (Middleware.headers_get hs "X-Tenant-ID" = None ->
      Context.tenant_id ctx = "default")
  /\ (forall ff, Middleware.headers_get hs "X-Forwarded-For" = Some ff ->
                 ff <> "" ->
                 Context.client_ip ctx
                 = Some (PyStr.strip (PyStr.split_head ","%char ff)))
  /\ (Middleware.headers_get hs "X-Forwarded-For" = None
      \/ Middleware.headers_get hs "X-Forwarded-For" = Some "" ->
      Context.client_ip ctx = peer)
  /\ (forall call_next var,
        Middleware.dispatch request call_next uuid4 var
        = (let (response, var') := call_next request (Some ctx) in
           ({| Middleware.response_headers :=
                 Middleware.headers_set (Middleware.response_headers response)
                   "X-Request-ID" (Context.request_id ctx) |}, var'))).
Proof.
  cbv zeta. unfold Middleware.dispatch_context, Middleware.headers_get_default.
  cbn [Context.request_id Context.tenant_id Context.client_ip].
  repeat split.
  - intros v ->. reflexivity.
  - intros ->. reflexivity.
  - intros v ->. reflexivity.
  - intros ->. reflexivity.
  - intros ff -> Hne. destruct ff; [congruence|reflexivity].
  - intros [-> | ->]; destruct (Middleware.client request) as [[host port]|];
      reflexivity.
Qed.

(** The claim of C8 fails as stated on a request whose X-Forwarded-For
    header is there with an empty value: the first entry of that header is
    the empty string, and the context takes the peer address. *)
Lemma dispatch_context_empty_forwarded_for :
  let request := Samples.request_empty_forwarded in
  Middleware.headers_get (Middleware.headers request) "X-Forwarded-For" = Some ""
  /\ PyStr.strip (PyStr.split_head ","%char "") = ""
  /\ Context.client_ip (Middleware.dispatch_context request 7%N)
     = Some "192.0.2.10"
  /\ Context.client_ip (Middleware.dispatch_context request 7%N)
     <> Some (PyStr.strip (PyStr.split_head ","%char "")).
Proof. vm_compute. repeat split; try reflexivity. discriminate. Qed.

Lemma dispatch_context_fields_witness :
  Context.client_ip (Middleware.dispatch_context Samples.request_proxied 7%N)
  = Some (PyStr.strip (PyStr.split_head ","%char " 203.0.113.5 , 198.51.100.1")).
Proof.
  apply (dispatch_context_fields Samples.request_proxied 7%N).
  - reflexivity.
  - discriminate.
Defined.

(** ** What [log] and [query] do to the world *)

Ltac unfold_M :=
  unfold DatabaseAuditLogger.log, DatabaseAuditLogger.query,
    LoggingAuditLogger.log, LoggingAuditLogger.query, session_add_flush,
    session_execute, logger_info, logger_warning, logger_emit, bind, lift, ret.


(** [query] leaves the world as it was, or - where PostgreSQL refuses its
    statement - has aborted the transaction. *)
Lemma query_world ties tenant_id actor_id resource_type resource_id action
    start_time end_time limit offset w :
  snd (DatabaseAuditLogger.query ties tenant_id actor_id resource_type
         resource_id action start_time end_time limit offset w) = w
  \/ snd (DatabaseAuditLogger.query ties tenant_id actor_id resource_type
            resource_id action start_time end_time limit offset w)
     = end_transaction TxAborted w.
Proof.
  unfold_M.
  destruct (UUID tenant_id) as [tenant|e]; [|now left].
  destruct (DatabaseAuditLogger.where_clauses _ _ _ _ _ _ _) as [stmt|e];
    [|now left].
  destruct (transaction w); [|now left|now left].
  destruct (bigint_ok offset && bigint_ok limit).
  - destruct (map_result _ _); now left.
  - destruct (bigint offset && bigint limit); [now right|now left].
Qed.

Lemma query_records ties tenant_id actor_id resource_type resource_id action
    start_time end_time limit offset w :
  records (snd (DatabaseAuditLogger.query ties tenant_id actor_id
                  resource_type resource_id action start_time end_time limit
                  offset w))
  = records w.
Proof.
  destruct (query_world ties tenant_id actor_id resource_type resource_id
              action start_time end_time limit offset w) as [-> | ->];
    reflexivity.
Qed.














(** The UUID columns of the row are the parsed strings of the entry. *)
Lemma to_row_uuids entry draws row :
  DatabaseAuditLogger.to_row entry draws = Ok row ->
  PyUUID.UUID (tenant_id entry) = Some (AuditLogModel.tenant_id row)
  /\ PyUUID.UUID (request_id entry) = Some (AuditLogModel.request_id row)
  /\ (actor_id entry <> "anonymous" ->
      PyUUID.UUID (actor_id entry) = Some (AuditLogModel.actor_id row))
  /\ (actor_id entry = "anonymous" ->
      AuditLogModel.actor_id row = actor_uuid4 draws)
  /\ (forall s, session_id entry = Some s -> s <> "" ->
      exists u, PyUUID.UUID s = Some u /\ AuditLogModel.session_id row = Some u)
  /\ (session_id entry = None \/ session_id entry = Some "" ->
      AuditLogModel.session_id row = None).
Proof.
  unfold DatabaseAuditLogger.to_row, rbind, UUID.
  destruct (String.eqb (actor_id entry) "anonymous") eqn:Ha; simpl;
    [apply String.eqb_eq in Ha|apply String.eqb_neq in Ha].
  all: destruct (PyUUID.UUID (tenant_id entry)) as [t|]; try discriminate.
  all: destruct (PyUUID.UUID (request_id entry)) as [q|]; try discriminate.
  all: try (destruct (PyUUID.UUID (actor_id entry)) as [a|]; try discriminate).
  all: destruct (session_id entry) as [[|c s]|]; simpl.
  all: try (destruct (PyUUID.UUID (String c s)) as [u|] eqn:Hu; try discriminate).
  all: intros [= <-]; simpl; repeat split; try congruence.
  all: try (intros s0 [= <-] _; eauto).
  all: try (intros [|]; congruence).
  all: try (intros s0 [= <-]; congruence).
Qed.

(** ** The store is append-only for what is committed *)




(** ** The fallback logger *)

(** C6.  Whatever the arguments, [query] of the logging-only implementation
    returns the empty list and gives [logging] one WARNING record that says
    so, the table untouched; [query] of the database implementation gives
    [logging] nothing, so that an empty answer of the one is told from an
    empty answer of the other by the warning. *)
Theorem fallback_query_empty_and_warns tenant_id kwargs w :
  LoggingAuditLogger.query tenant_id kwargs w
  = (Ok [],
     {| committed := committed w; pending := pending w;
        transaction := transaction w;
        records := records w
                   ++ [{| levelname := "WARNING";
                          msg := "Audit query not supported for LoggingAuditLogger";
                          extra := [] |}] |})
  /\ records (snd (LoggingAuditLogger.query tenant_id kwargs w)) <> records w
  /\ forall ties tenant_id' actor_id resource_type resource_id action
       start_time end_time limit offset,
       records (snd (DatabaseAuditLogger.query ties tenant_id' actor_id
                       resource_type resource_id action start_time end_time
                       limit offset w))
       = records w.
Proof.
  split; [reflexivity|]. split.
  - simpl. intros H. apply (f_equal (@List.length _)) in H.
    rewrite length_app in H. simpl in H. lia.
  - intros. apply query_records.
Qed.

(** ** Identifiers that are not UUIDs *)

(** C10, as the code has it.  For an entry whose [tenant_id] or
    [request_id] the constructor [UUID] refuses - the sentinel ["default"]
    of the middleware among them - [log] raises [ValueError] and the world
    is as it was: no row is added. *)
Theorem log_rejects_non_uuid entry draws w :
  PyUUID.UUID (tenant_id entry) = None
  \/ PyUUID.UUID (request_id entry) = None
  \/ tenant_id entry = "default" ->
  exists msg,
    DatabaseAuditLogger.log entry draws w = (Raise (ValueError msg), w).
Proof.
  intros H.
  assert (H' : PyUUID.UUID (tenant_id entry) = None
               \/ PyUUID.UUID (request_id entry) = None).
  { destruct H as [H|[H|H]]; auto. left. rewrite H. reflexivity. }
  clear H. unfold_M. unfold DatabaseAuditLogger.to_row, rbind, UUID.
  destruct (negb (String.eqb (actor_id entry) "anonymous")).
  - destruct (PyUUID.UUID (actor_id entry)); [|eexists; reflexivity].
    destruct (PyUUID.UUID (tenant_id entry)); [|eexists; reflexivity].
    destruct (PyUUID.UUID (request_id entry)); [|eexists; reflexivity].
    destruct H' as [H|H]; discriminate.
  - destruct (PyUUID.UUID (tenant_id entry)); [|eexists; reflexivity].
    destruct (PyUUID.UUID (request_id entry)); [|eexists; reflexivity].
    destruct H' as [H|H]; discriminate.
Qed.

(** The claim of C10 fails as stated on a [tenant_id] that is no UUID in
    the syntax of RFC 4122 and that [UUID] reads all the same, as it reads
    every text that [int(_, 16)] reads once the hyphens, braces and the
    prefix [urn:uuid:] are taken away and 32 characters are left: here a
    number with the prefix [0x].  [log] stores a row for it. *)
Lemma log_stores_non_uuid_syntax :
  UuidSpec.valid_uuid_syntax "0x3e4567e89b12d3a456426614174000" = false
  /\ UuidSpec.valid_uuid_syntax Samples.alpha = true
  /\ exists row w',
       DatabaseAuditLogger.log
         (Samples.entry "0x3e4567e89b12d3a456426614174000" Samples.alice 5)
         (Samples.draws 1) Samples.empty_world
       = (Ok "00000000-0000-0000-0000-000000000001", w')
       /\ table w' = [row]
       /\ AuditLogModel.tenant_id row = 323330123980544934748655216743628800%N.
Proof.
  split; [reflexivity|]. split; [reflexivity|].
  eexists. eexists. split; [vm_compute; reflexivity|].
  split; reflexivity.
Qed.

(** A request without X-Tenant-ID gets the tenant ["default"], and an entry
    made from that context cannot be logged to the database. *)
Lemma log_rejects_non_uuid_witness :
  Context.tenant_id (Middleware.dispatch_context Samples.request_plain 7%N)
  = "default"
  /\ exists msg,
       DatabaseAuditLogger.log (Samples.entry "default" Samples.alice 5)
         (Samples.draws 1) Samples.three_entries
       = (Raise (ValueError msg), Samples.three_entries).
Proof.
  split; [reflexivity|].
  apply (log_rejects_non_uuid (Samples.entry "default" Samples.alice 5)).
  right. right. reflexivity.
Defined.

(** ** Entries made from the context *)

Lemma call_kwargs_inv explicit kwargs r :
  call_kwargs explicit kwargs = r ->
  (exists msg k v, r = Raise (TypeError msg) /\ In (k, v) explicit
                   /\ is_Some (kwargs !! k))
  \/ (r = Ok (list_to_map explicit ∪ kwargs)
      /\ forall k v, In (k, v) explicit -> kwargs !! k = None).
Proof.
  unfold call_kwargs.
  destruct (existsb _ explicit) eqn:E; intros <-.
  - left. apply existsb_exists in E as ([k v] & Hin & Hk).
    apply bool_decide_eq_true in Hk. eauto 6.
  - right. split; [reflexivity|]. intros k v Hin.
    destruct (kwargs !! k) eqn:Hk; [|reflexivity].
    assert (existsb (fun kv => bool_decide (is_Some (kwargs !! kv.1))) explicit
            = true) as E'; [|congruence].
    apply existsb_exists. exists (k, v). split; [exact Hin|].
    apply bool_decide_eq_true. simpl. rewrite Hk. eauto.
Qed.

Lemma field_type_In k t : field_type k = Some t -> In k field_names.
Proof.
  unfold field_type.
  destruct (find _ model_fields) as [f|] eqn:Ef; [|discriminate].
  intros _. apply find_some in Ef as [Hin Heq].
  apply String.eqb_eq in Heq. subst k.
  unfold field_names. apply in_map_iff. exists f. now split.
Qed.

Lemma has_type_PStr_opt o : has_type TOptStr (PStr_opt o) = true.
Proof. now destruct o. Qed.

Lemma PStr_opt_inj a b : PStr_opt a = PStr_opt b -> a = b.
Proof. destruct a, b; simpl; congruence. Qed.

Lemma or_anonymous_spec x :
  (forall u, x = Some u -> u <> "" -> or_anonymous x = u)
  /\ (x = None \/ x = Some "" -> or_anonymous x = "anonymous").
Proof.
  split.
  - intros u -> Hu. destruct u; [congruence|reflexivity].
  - intros [-> | ->]; reflexivity.
Qed.

Section FromContext.

Context `{Py : Pydantic}.

(** Steps through the chain of field lookups of [build]. *)
Ltac build_step :=
  match goal with
  | H : context [mbind _ ?x] |- _ =>
      let E := fresh "E" in destruct x eqn:E; simpl in H; try discriminate H
  | H : context [?x ≫= _] |- _ =>
      let E := fresh "E" in destruct x eqn:E; simpl in H; try discriminate H
  end.

Lemma build_needs_tenant env data :
  data !! "tenant_id" = None -> build env data = None.
Proof.
  intros H. unfold build.
  assert (Ht : get_str data "tenant_id" None = None).
  { unfold get_str. now rewrite H. }
  rewrite Ht.
  repeat match goal with
         | |- context [?x ≫= _] => destruct x; simpl; try reflexivity
         end.
Qed.

Lemma missing_fields_tenant data :
  data !! "tenant_id" = None -> In "tenant_id" (missing_fields data).
Proof.
  intros H. unfold missing_fields. apply in_map_iff.
  exists ("tenant_id", TStr, true). split; [reflexivity|].
  apply filter_In. split.
  - unfold model_fields. simpl. tauto.
  - simpl. apply bool_decide_eq_true. exact H.
Qed.

(** C3.  Where no context is installed and the keyword arguments give no
    [tenant_id], [from_context] raises and builds no entry: pydantic's
    [ValidationError] with [tenant_id] among the missing fields, or, when a
    keyword argument has the name of a parameter of [from_context] ([cls],
    [action], [resource_type], [resource_id]), the [TypeError] of the
    call. *)
Theorem from_context_without_context env action resource_type resource_id
    (kwargs : gmap string pyval) :
  kwargs !! "tenant_id" = None ->
  exists e,
    from_context Context._request_context_default env action resource_type
      resource_id kwargs = Raise e
    /\ ((exists missing invalid,
           e = ValidationError missing invalid /\ In "tenant_id" missing)
        \/ (exists msg k,
              e = TypeError msg
              /\ In k ["cls"; "action"; "resource_type"; "resource_id"]
              /\ is_Some (kwargs !! k))).
Proof.
  intros Hk. unfold from_context.
  destruct (existsb _ parameters) eqn:Ep.
  { apply existsb_exists in Ep as (k & Hin & Hs).
    apply bool_decide_eq_true in Hs.
    eexists. split; [reflexivity|]. right. eexists. exists k.
    split; [reflexivity|]. split; [exact Hin|exact Hs]. }
  simpl.
  match goal with
  | |- context [call_kwargs ?ex kwargs] =>
      destruct (call_kwargs_inv ex kwargs _ eq_refl)
        as [(msg & k & v & -> & Hin & Hs)|[-> Hfree]]
  end.
  - eexists. split; [reflexivity|]. right. exists msg, k. split; [reflexivity|].
    split; [|exact Hs]. simpl in Hin |- *.
    destruct Hin as [[= <- _]|[[= <- _]|[[= <- _]|[]]]]; tauto.
  - simpl. unfold cls.
    match goal with
    | |- context [build env ?d] =>
        assert (Hd : d !! "tenant_id" = None)
    end.
    { rewrite lookup_union_r; [exact Hk|reflexivity]. }
    rewrite (build_needs_tenant _ _ Hd).
    eexists. split; [reflexivity|]. left. do 2 eexists.
    split; [reflexivity|]. now apply missing_fields_tenant.
Qed.

(** A built entry holds, field by field, what the lookups of [build] gave. *)
Lemma build_inv env data e :
  build env data = Some e ->
  get_str data "actor_id" None = Some (actor_id e)
  /\ get_str data "actor_type" (Some "user") = Some (actor_type e)
  /\ get_opt_str data "actor_ip" = Some (actor_ip e)
  /\ get_action data "action" = Some (action e)
  /\ get_opt_str data "action_detail" = Some (action_detail e)
  /\ get_str data "resource_type" None = Some (resource_type e)
  /\ get_str data "resource_id" None = Some (resource_id e)
  /\ get_str data "tenant_id" None = Some (tenant_id e)
  /\ get_str data "request_id" (Some (default_request_id env))
     = Some (request_id e)
  /\ get_opt_str data "session_id" = Some (session_id e)
  /\ get_datetime data "timestamp" (default_timestamp env) = Some (timestamp e)
  /\ get_opt_dict data "old_values" = Some (old_values e)
  /\ get_opt_dict data "new_values" = Some (new_values e)
  /\ get_bool data "success" true = Some (success e)
  /\ get_opt_str data "error_message" = Some (error_message e)
  /\ get_classification data "data_classification" INTERNAL
     = Some (data_classification e).
Proof.
  intros Hb. unfold build in Hb.
  repeat build_step.
  injection Hb as <-. simpl. repeat split; assumption.
Qed.

Section FieldLookups.

Variable data : gmap string pyval.
Variables (k : string) (v : pyval).
Hypothesis Hk : data !! k = Some v.

Lemma get_str_lookup d s :
  get_str data k d = Some s -> validate TStr v = Some (PStr s).
Proof.
  unfold get_str. rewrite Hk.
  destruct (validate TStr v) as [[]|]; congruence.
Qed.

Lemma get_opt_str_lookup o :
  get_opt_str data k = Some o -> validate TOptStr v = Some (PStr_opt o).
Proof.
  unfold get_opt_str. rewrite Hk.
  destruct (validate TOptStr v) as [[]|]; intros [= <-]; reflexivity.
Qed.

Lemma get_opt_dict_lookup o :
  get_opt_dict data k = Some o -> validate TOptDict v = Some (PDict_opt o).
Proof.
  unfold get_opt_dict. rewrite Hk.
  destruct (validate TOptDict v) as [[]|]; intros [= <-]; reflexivity.
Qed.

Lemma get_action_lookup a :
  get_action data k = Some a -> validate TAction v = Some (PAction a).
Proof.
  unfold get_action. rewrite Hk.
  destruct (validate TAction v) as [[]|]; congruence.
Qed.

Lemma get_datetime_lookup d t :
  get_datetime data k d = Some t -> validate TDatetime v = Some (PDatetime t).
Proof.
  unfold get_datetime. rewrite Hk.
  destruct (validate TDatetime v) as [[]|]; congruence.
Qed.

Lemma get_bool_lookup d b :
  get_bool data k d = Some b -> validate TBool v = Some (PBool b).
Proof.
  unfold get_bool. rewrite Hk.
  destruct (validate TBool v) as [[]|]; congruence.
Qed.

Lemma get_classification_lookup d c :
  get_classification data k d = Some c ->
  validate TClassification v = Some (PClassification c).
Proof.
  unfold get_classification. rewrite Hk.
  destruct (validate TClassification v) as [[]|]; congruence.
Qed.

End FieldLookups.

(** What a call of [from_context] that returns under a context has done. *)
Lemma from_context_inv ctx env act rtype rid (kwargs : gmap string pyval) e :
  from_context (Some ctx) env act rtype rid kwargs = Ok e ->
  kwargs !! "cls" = None
  /\ (forall k v, In (k, v) (context_keywords ctx act rtype rid) ->
                  kwargs !! k = None)
  /\ build env (list_to_map (context_keywords ctx act rtype rid) ∪ kwargs)
     = Some e.
Proof.
  unfold from_context, Context.get_optional_request_context.
  destruct (existsb _ parameters) eqn:Ep; [intros [=]|].
  fold (context_keywords ctx act rtype rid).
  destruct (call_kwargs_inv (context_keywords ctx act rtype rid) kwargs _ eq_refl)
    as [(msg & k & v & -> & _)|[-> Hfree]]; [intros [=]|].
  unfold rbind, cls.
  destruct (build env _) as [e'|] eqn:Hb; [|intros [=]].
  intros [= ->]. split; [|split; [exact Hfree|reflexivity]].
  destruct (kwargs !! "cls") eqn:Hc; [|reflexivity].
  assert (existsb (fun k => bool_decide (is_Some (kwargs !! k))) parameters
          = true) as E'; [|congruence].
  apply existsb_exists. exists "cls". split; [now left|].
  apply bool_decide_eq_true. rewrite Hc. eauto.
Qed.

(** The fields that [from_context] sets from the context and from its
    arguments. *)
Lemma from_context_fields ctx env act rtype rid (kwargs : gmap string pyval) e :
  from_context (Some ctx) env act rtype rid kwargs = Ok e ->
  actor_id e = or_anonymous (Context.user_id ctx)
  /\ actor_ip e = Context.client_ip ctx
  /\ tenant_id e = Context.tenant_id ctx
  /\ request_id e = Context.request_id ctx
  /\ session_id e = Context.session_id ctx
  /\ action e = act /\ resource_type e = rtype /\ resource_id e = rid.
Proof.
  intros Hfc. apply from_context_inv in Hfc as (_ & _ & Hb).
  remember (list_to_map (context_keywords ctx act rtype rid) ∪ kwargs)
    as data eqn:Hdata.
  apply build_inv in Hb
    as (B1 & _ & B3 & B4 & _ & B6 & B7 & B8 & B9 & B10 & _).
  assert (Hex : forall k v,
             (list_to_map (context_keywords ctx act rtype rid)
              : gmap string pyval) !! k = Some v ->
             data !! k = Some v).
  { intros k v Hk. subst data. now apply lookup_union_Some_l. }
  pose proof (get_str_lookup _ _ _ (Hex "actor_id" _ eq_refl) _ _ B1) as H1.
  pose proof (get_opt_str_lookup _ _ _ (Hex "actor_ip" _ eq_refl) _ B3) as H3.
  pose proof (get_action_lookup _ _ _ (Hex "action" _ eq_refl) _ B4) as H4.
  pose proof (get_str_lookup _ _ _ (Hex "resource_type" _ eq_refl) _ _ B6) as H6.
  pose proof (get_str_lookup _ _ _ (Hex "resource_id" _ eq_refl) _ _ B7) as H7.
  pose proof (get_str_lookup _ _ _ (Hex "tenant_id" _ eq_refl) _ _ B8) as H8.
  pose proof (get_str_lookup _ _ _ (Hex "request_id" _ eq_refl) _ _ B9) as H9.
  pose proof (get_opt_str_lookup _ _ _ (Hex "session_id" _ eq_refl) _ B10) as H10.
  rewrite validate_declared in H1, H4, H6, H7, H8, H9 by reflexivity.
  rewrite validate_declared in H3, H10 by apply has_type_PStr_opt.
  injection H1 as H1. injection H4 as H4. injection H6 as H6.
  injection H7 as H7. injection H8 as H8. injection H9 as H9.
  injection H3 as H3%PStr_opt_inj. injection H10 as H10%PStr_opt_inj.
  repeat split; congruence.
Qed.

(** C5, as the code has it.  Where a context is installed and
    [from_context] returns, the entry has the context's user id as
    [actor_id], or ["anonymous"] when the context has no user id (none, or
    the empty string); its [actor_ip], [tenant_id], [request_id] and
    [session_id] are the context's [client_ip], [tenant_id], [request_id]
    and [session_id]; action and resource are the arguments; and every
    keyword argument that names a field of the entry gives that field the
    value that pydantic's validation makes of it, which is the argument
    itself when it has the declared type of the field.  No keyword
    argument then is [cls] or repeats one of the eight fields set from the
    context and the arguments: such a call raises. *)
Theorem from_context_with_context ctx env act rtype rid
    (kwargs : gmap string pyval) e :
  from_context (Some ctx) env act rtype rid kwargs = Ok e ->
  (forall u, Context.user_id ctx = Some u -> u <> "" -> actor_id e = u)
  /\ (Context.user_id ctx = None \/ Context.user_id ctx = Some "" ->
      actor_id e = "anonymous")
  /\ actor_ip e = Context.client_ip ctx
  /\ tenant_id e = Context.tenant_id ctx
  /\ request_id e = Context.request_id ctx
  /\ session_id e = Context.session_id ctx
  /\ action e = act /\ resource_type e = rtype /\ resource_id e = rid
  /\ (forall k v t, kwargs !! k = Some v -> field_type k = Some t ->
        exists v',
          validate t v = Some v' /\ getattr e k = Some v'
          /\ (has_type t v = true -> v' = v))
  /\ (forall k,
        In k ["cls"; "actor_id"; "actor_ip"; "action"; "resource_type";
              "resource_id"; "tenant_id"; "request_id"; "session_id"] ->
        kwargs !! k = None).
Proof.
  intros Hfc.
  pose proof (from_context_fields _ _ _ _ _ _ _ Hfc)
    as (H1 & H3 & H8 & H9 & H10 & H4 & H6 & H7).
  apply from_context_inv in Hfc as (Hcls & Hfree & Hb).
  destruct (or_anonymous_spec (Context.user_id ctx)) as [Hu Ha].
  rewrite <- H1 in Hu, Ha.
  repeat (split; [assumption|]).
  split.
  2:{ intros k Hin. simpl in Hin.
      destruct Hin as [<-|Hin]; [exact Hcls|].
      repeat (destruct Hin as [<-|Hin];
              [eapply Hfree; unfold context_keywords; simpl; eauto 10|]).
      contradiction. }
  intros k v t Hk Ht.
  assert (Hv : forall v', validate t v = Some v' ->
                          has_type t v = true -> v' = v).
  { intros v' Hv' Hty. rewrite (validate_declared _ _ Hty) in Hv'. congruence. }
  remember (list_to_map (context_keywords ctx act rtype rid) ∪ kwargs)
    as data eqn:Hdata.
  apply build_inv in Hb
    as (_ & B2 & _ & _ & B5 & _ & _ & _ & _ & _ & B11 & B12 & B13
        & B14 & B15 & B16).
  assert (Hkw : (list_to_map (context_keywords ctx act rtype rid)
                 : gmap string pyval) !! k = None ->
                data !! k = Some v).
  { intros Hn. subst data. rewrite lookup_union_r; assumption. }
  assert (Hno : forall x, In (k, x) (context_keywords ctx act rtype rid) ->
                          False).
  { intros x Hx. apply Hfree in Hx. congruence. }
  pose proof (field_type_In _ _ Ht) as Hin.
  unfold field_names, model_fields in Hin. simpl in Hin.
  repeat (destruct Hin as [<-|Hin];
          [try (exfalso; eapply Hno; unfold context_keywords; simpl;
                eauto 10; fail)|]);
    try contradiction;
    injection Ht as <-; specialize (Hkw eq_refl).
  - exists (PStr (actor_type e)).
    split; [exact (get_str_lookup _ _ _ Hkw _ _ B2)|].
    split; [reflexivity|]. apply Hv. exact (get_str_lookup _ _ _ Hkw _ _ B2).
  - exists (PStr_opt (action_detail e)).
    split; [exact (get_opt_str_lookup _ _ _ Hkw _ B5)|].
    split; [reflexivity|]. apply Hv. exact (get_opt_str_lookup _ _ _ Hkw _ B5).
  - exists (PDatetime (timestamp e)).
    split; [exact (get_datetime_lookup _ _ _ Hkw _ _ B11)|].
    split; [reflexivity|]. apply Hv.
    exact (get_datetime_lookup _ _ _ Hkw _ _ B11).
  - exists (PDict_opt (old_values e)).
    split; [exact (get_opt_dict_lookup _ _ _ Hkw _ B12)|].
    split; [reflexivity|]. apply Hv. exact (get_opt_dict_lookup _ _ _ Hkw _ B12).
  - exists (PDict_opt (new_values e)).
    split; [exact (get_opt_dict_lookup _ _ _ Hkw _ B13)|].
    split; [reflexivity|]. apply Hv. exact (get_opt_dict_lookup _ _ _ Hkw _ B13).
  - exists (PBool (success e)).
    split; [exact (get_bool_lookup _ _ _ Hkw _ _ B14)|].
    split; [reflexivity|]. apply Hv. exact (get_bool_lookup _ _ _ Hkw _ _ B14).
  - exists (PStr_opt (error_message e)).
    split; [exact (get_opt_str_lookup _ _ _ Hkw _ B15)|].
    split; [reflexivity|]. apply Hv. exact (get_opt_str_lookup _ _ _ Hkw _ B15).
  - exists (PClassification (data_classification e)).
    split; [exact (get_classification_lookup _ _ _ Hkw _ _ B16)|].
    split; [reflexivity|]. apply Hv.
    exact (get_classification_lookup _ _ _ Hkw _ _ B16).
Qed.

End FromContext.

Lemma from_context_without_context_witness :
  exists e,
    from_context (Py := Samples.pydantic) None Samples.env DELETE "user" "42"
      ({[ "actor_id" := PStr Samples.alice ]} : gmap string pyval) = Raise e
    /\ ((exists missing invalid,
           e = ValidationError missing invalid /\ In "tenant_id" missing)
        \/ (exists msg k,
              e = TypeError msg
              /\ In k ["cls"; "action"; "resource_type"; "resource_id"]
              /\ is_Some (({[ "actor_id" := PStr Samples.alice ]}
                           : gmap string pyval) !! k))).
Proof.
  apply (from_context_without_context (Py := Samples.pydantic) Samples.env
           DELETE "user" "42" {[ "actor_id" := PStr Samples.alice ]}).
  reflexivity.
Defined.

Example from_context_explicit_values :
  from_context (Py := Samples.pydantic) None Samples.env DELETE "user" "42"
    (<["tenant_id" := PStr Samples.alpha]> {[ "actor_id" := PStr Samples.alice ]})
  = Ok {| actor_id := Samples.alice; actor_type := "user"; actor_ip := None;
          action := DELETE; action_detail := None;
          resource_type := "user"; resource_id := "42";
          tenant_id := Samples.alpha; request_id := Samples.req1;
          session_id := None; timestamp := 10 * Samples.hour;
          old_values := None; new_values := None;
          success := true; error_message := None;
          data_classification := INTERNAL |}.
Proof. vm_compute. reflexivity. Qed.

(** The claim of C5 fails as stated in three ways.  On a keyword argument
    that repeats a field taken from the context the call raises
    [TypeError], so that no entry results and the pair is overlaid on
    none.  A key that names no field is dropped: the entry has no such
    attribute.  And a value that has not the declared type of its field is
    not the value of the field: pydantic reads [success="yes"] as [True],
    and the entry holds the boolean, not the string that was supplied. *)
Lemma from_context_overlay_counterexample :
  from_context (Py := Samples.pydantic) (Some Samples.ctx_anonymous)
    Samples.env DELETE "user" "42" {[ "tenant_id" := PStr Samples.beta ]}
  = Raise (TypeError "got multiple values for keyword argument")
  /\ (forall e,
        from_context (Py := Samples.pydantic) (Some Samples.ctx_anonymous)
          Samples.env DELETE "user" "42"
          {[ "tenant_id" := PStr Samples.beta ]} <> Ok e)
  /\ (exists e,
        from_context (Py := Samples.pydantic) (Some Samples.ctx_anonymous)
          Samples.env DELETE "user" "42" {[ "reason" := PStr "cleanup" ]} = Ok e
        /\ getattr e "reason" = None)
  /\ exists e,
       from_context (Py := Samples.pydantic) (Some Samples.ctx_anonymous)
         Samples.env DELETE "user" "42" {[ "success" := PStr "yes" ]} = Ok e
       /\ getattr e "success" = Some (PBool true)
       /\ getattr e "success" <> Some (PStr "yes").
Proof.
  split; [vm_compute; reflexivity|]. split; [|split].
  - intros e H. vm_compute in H. discriminate H.
  - eexists. split; [vm_compute; reflexivity|]. reflexivity.
  - eexists. split; [vm_compute; reflexivity|].
    split; [reflexivity|discriminate].
Qed.

Lemma from_context_with_context_witness :
  actor_id Samples.entry_denied = "anonymous"
  /\ tenant_id Samples.entry_denied = Samples.alpha
  /\ getattr Samples.entry_denied "success" = Some (PBool false).
Proof.
  destruct (from_context_with_context (Py := Samples.pydantic)
              Samples.ctx_anonymous Samples.env DELETE
              "user" "42" Samples.kwargs_denied Samples.entry_denied)
    as (_ & Ha & _ & Ht & _ & _ & _ & _ & _ & Hk & _).
  - vm_compute. reflexivity.
  - split; [apply Ha; left; reflexivity|].
    split; [exact Ht|].
    destruct (Hk "success" (PBool false) TBool eq_refl eq_refl)
      as (v' & _ & Hg & Hsame).
    rewrite Hg. f_equal. apply Hsame. reflexivity.
Defined.

(** ** Ordering and paging *)

Lemma insert_desc_perm ties r l : Permutation (insert_desc ties r l) (r :: l).
Proof.
  induction l as [|r' l IH]; simpl; [reflexivity|].
  destruct (_ || _); [reflexivity|].
  rewrite IH. apply perm_swap.
Qed.

Lemma order_by_timestamp_desc_perm ties l :
  Permutation (order_by_timestamp_desc ties l) l.
Proof.
  induction l as [|r l IH]; simpl; [reflexivity|].
  rewrite insert_desc_perm. now constructor.
Qed.

Lemma insert_desc_sorted ties r l :
  rows_descending l -> rows_descending (insert_desc ties r l).
Proof.
  unfold rows_descending.
  induction l as [|r' l IH]; intros Hs; simpl.
  - constructor; constructor.
  - apply StronglySorted_inv in Hs as [Hs Hall].
    destruct ((AuditLogModel.timestamp r' <? AuditLogModel.timestamp r)%Z
              || (AuditLogModel.timestamp r' =? AuditLogModel.timestamp r)%Z
                 && ties r r') eqn:E.
    + assert (Hle : (AuditLogModel.timestamp r' <= AuditLogModel.timestamp r)%Z).
      { apply orb_true_iff in E as [E|E].
        - apply Z.ltb_lt in E. lia.
        - apply andb_true_iff in E as [E _]. apply Z.eqb_eq in E. lia. }
      constructor.
      * now constructor.
      * constructor; [exact Hle|].
        eapply List.Forall_impl; [|exact Hall]. simpl. intros; lia.
    + assert (Hge : (AuditLogModel.timestamp r <= AuditLogModel.timestamp r')%Z).
      { apply orb_false_iff in E as [E _]. apply Z.ltb_ge in E. exact E. }
      constructor; [now apply IH|].
      eapply Permutation_Forall; [symmetry; apply insert_desc_perm|].
      constructor; [exact Hge|exact Hall].
Qed.

Lemma order_by_timestamp_desc_sorted ties l :
  rows_descending (order_by_timestamp_desc ties l).
Proof.
  induction l as [|r l IH]; simpl; [constructor|].
  now apply insert_desc_sorted.
Qed.

(** Where no two rows have the same timestamp, the order of the result is
    the same at every execution. *)
Lemma insert_desc_ties ties ties' r l :
  ~ In (AuditLogModel.timestamp r) (map AuditLogModel.timestamp l) ->
  insert_desc ties r l = insert_desc ties' r l.
Proof.
  induction l as [|r' l IH]; intros Hr; simpl; [reflexivity|].
  simpl in Hr.
  assert (Hne : (AuditLogModel.timestamp r' =? AuditLogModel.timestamp r)%Z
                = false) by (apply Z.eqb_neq; tauto).
  rewrite Hne. cbn [andb]. rewrite IH by tauto. reflexivity.
Qed.

Lemma order_by_timestamp_desc_ties ties ties' l :
  distinct_timestamps l ->
  order_by_timestamp_desc ties l = order_by_timestamp_desc ties' l.
Proof.
  unfold distinct_timestamps.
  induction l as [|r l IH]; intros Hd; simpl; [reflexivity|].
  simpl in Hd. apply NoDup_cons in Hd as [Hr Hd].
  rewrite list_elem_of_In in Hr.
  rewrite (IH Hd). apply insert_desc_ties.
  intros Hin. apply Hr.
  apply in_map_iff in Hin as (x & Hx & Hin). apply in_map_iff.
  exists x. split; [exact Hx|].
  eapply Permutation_in; [apply order_by_timestamp_desc_perm|exact Hin].
Qed.

Lemma distinct_timestamps_filter p l :
  distinct_timestamps l -> distinct_timestamps (List.filter p l).
Proof.
  unfold distinct_timestamps.
  induction l as [|r l IH]; intros Hd; simpl; [constructor|].
  simpl in Hd. apply NoDup_cons in Hd as [Hr Hd].
  rewrite list_elem_of_In in Hr.
  destruct (p r); [|now apply IH].
  simpl. apply NoDup_cons. split; [|now apply IH].
  rewrite list_elem_of_In. intros Hin. apply Hr.
  apply in_map_iff in Hin as (x & Hx & Hin). apply in_map_iff.
  exists x. split; [exact Hx|]. now apply filter_In in Hin.
Qed.

Section Paging.

Context {A : Type} (R : A -> A -> Prop).

Lemma In_firstn n (l : list A) x : In x (firstn n l) -> In x l.
Proof.
  intros H. rewrite <- (firstn_skipn n l). apply in_or_app. now left.
Qed.

Lemma In_skipn n (l : list A) x : In x (skipn n l) -> In x l.
Proof.
  intros H. rewrite <- (firstn_skipn n l). apply in_or_app. now right.
Qed.

Lemma StronglySorted_skipn n (l : list A) :
  StronglySorted R l -> StronglySorted R (skipn n l).
Proof.
  revert l. induction n as [|n IH]; intros l Hs; [exact Hs|].
  destruct l as [|a l]; [exact Hs|]. simpl.
  apply IH. now apply StronglySorted_inv in Hs.
Qed.

Lemma StronglySorted_firstn n (l : list A) :
  StronglySorted R l -> StronglySorted R (firstn n l).
Proof.
  revert l. induction n as [|n IH]; intros l Hs; [constructor|].
  destruct l as [|a l]; [constructor|]. simpl.
  apply StronglySorted_inv in Hs as [Hs Hall].
  constructor; [now apply IH|].
  rewrite List.Forall_forall in *. intros x Hx. apply Hall.
  eapply In_firstn. exact Hx.
Qed.

Lemma StronglySorted_page limit offset (l : list A) :
  StronglySorted R l -> StronglySorted R (page limit offset l).
Proof.
  intros Hs. unfold page.
  now apply StronglySorted_firstn, StronglySorted_skipn.
Qed.

Lemma In_page limit offset (l : list A) x :
  In x (page limit offset l) -> In x l.
Proof.
  unfold page. intros H.
  eapply In_skipn, In_firstn. exact H.
Qed.


End Paging.

(** ** Reading rows back *)

Lemma map_result_Forall2 {A B} (f : A -> result B) l res :
  map_result f l = Ok res <-> Forall2 (fun a b => f a = Ok b) l res.
Proof.
  revert res. induction l as [|a l IH]; intros res; simpl.
  - split.
    + intros [= <-]. constructor.
    + intros H. inversion H. reflexivity.
  - unfold rbind. split.
    + destruct (f a) as [b|] eqn:Hb; [|discriminate].
      destruct (map_result f l) as [bs|] eqn:Hbs; [|discriminate].
      intros [= <-]. constructor; [exact Hb|]. now apply IH.
    + intros H. inversion H as [|? b ? bs Hb Hbs]; subst.
      rewrite Hb. apply IH in Hbs. now rewrite Hbs.
Qed.


Lemma Forall2_In_left {A B} (P : A -> B -> Prop) l l' a :
  Forall2 P l l' -> In a l -> exists b, In b l' /\ P a b.
Proof.
  induction 1 as [|x y l l' Hxy _ IH]; simpl; [intros []|].
  intros [<-|Hin].
  - exists y. split; [now left|exact Hxy].
  - destruct (IH Hin) as (b & Hb & HP). exists b. split; [now right|exact HP].
Qed.

Lemma Forall2_right {A B} (P : A -> B -> Prop) (Q : B -> Prop) l l' :
  Forall2 P l l' -> (forall a b, In a l -> P a b -> Q b) -> Forall Q l'.
Proof.
  induction 1 as [|x y l l' Hxy _ IH]; intros HQ; constructor.
  - apply (HQ x); [now left|exact Hxy].
  - apply IH. intros a b Ha. apply HQ. now right.
Qed.

Lemma Forall2_StronglySorted {A B} (P : A -> B -> Prop)
    (R : A -> A -> Prop) (S : B -> B -> Prop) l l' :
  (forall a a' b b', P a b -> P a' b' -> R a a' -> S b b') ->
  Forall2 P l l' -> StronglySorted R l -> StronglySorted S l'.
Proof.
  intros HRS. induction 1 as [|x y l l' Hxy Hll IH]; intros Hs; constructor.
  - apply IH. now apply StronglySorted_inv in Hs.
  - apply StronglySorted_inv in Hs as [_ Hall].
    clear IH. induction Hll as [|x' y' l l' Hxy' _ IH]; constructor.
    + inversion Hall; subst. eapply HRS; eauto.
    + apply IH. now inversion Hall.
Qed.

Lemma to_entry_fields r e :
  DatabaseAuditLogger.to_entry r = Ok e ->
  tenant_id e = PyUUID.uuid_str (AuditLogModel.tenant_id r)
  /\ timestamp e = AuditLogModel.timestamp r
  /\ old_values e = AuditLogModel.old_values r
  /\ new_values e = AuditLogModel.new_values r
  /\ success e = AuditLogModel.success r.
Proof.
  unfold DatabaseAuditLogger.to_entry, rbind.
  destruct (AuditAction_of_value _); [|discriminate].
  destruct (DataClassification_of_value _); [|discriminate].
  intros [= <-]. simpl. repeat split.
Qed.

(** ** The query of the database logger *)

(** The WHERE clauses that [query] collects are the conjunction of the
    specification, for the filters that are given. *)
Lemma where_clauses_spec tenant actor_id rtype rid act st et stmt :
  DatabaseAuditLogger.where_clauses tenant actor_id rtype rid act st et
  = Ok stmt ->
  exists actor,
    actor_filter actor_id actor
    /\ forall r,
         forallb (fun clause => clause r) stmt
         = row_matches tenant actor rtype rid act st et r.
Proof.
  unfold DatabaseAuditLogger.where_clauses, rbind, UUID, actor_filter.
  destruct actor_id as [[|c a]|]; cbn [given PyStr.truthy].
  2: destruct (PyUUID.UUID (String c a)) as [u|] eqn:Hu; [|discriminate].
  all: intros [= <-].
  1, 3: exists None; split; [reflexivity|].
  3: exists (Some u); split; [eauto|].
  all: intros r; unfold row_matches, given;
    destruct rtype as [[|c1 t]|], rid as [[|c2 i]|], act as [a'|],
      st as [t1|], et as [t2|];
    cbn [PyStr.truthy holds app forallb];
    rewrite ?andb_true_r, ?andb_assoc; reflexivity.
Qed.

Lemma select_where_spec stmt p rows :
  (forall r, forallb (fun clause => clause r) stmt = p r) ->
  select_where stmt rows = List.filter p rows.
Proof.
  intros H. unfold select_where. apply filter_ext. exact H.
Qed.

(** What a call of [query] that returns has done. *)
Lemma query_inv ties tenant_id actor_id rtype rid act st et limit offset w
    res w' :
  DatabaseAuditLogger.query ties tenant_id actor_id rtype rid act st et limit
    offset w = (Ok res, w') ->
  w' = w
  /\ transaction w = TxActive
  /\ exists tenant actor,
       PyUUID.UUID tenant_id = Some tenant
       /\ actor_filter actor_id actor
       /\ bigint_ok offset = true /\ bigint_ok limit = true
       /\ map_result DatabaseAuditLogger.to_entry
            (page limit offset
               (order_by_timestamp_desc ties
                  (List.filter (row_matches tenant actor rtype rid act st et)
                     (table w))))
          = Ok res.
Proof.
  unfold_M. unfold UUID at 1.
  destruct (PyUUID.UUID tenant_id) as [tenant|] eqn:Ht; [|discriminate].
  destruct (DatabaseAuditLogger.where_clauses _ _ _ _ _ _ _) as [stmt|] eqn:Hw;
    [|discriminate].
  apply where_clauses_spec in Hw as (actor & Hactor & Hstmt).
  destruct (transaction w) eqn:Htx; [|discriminate|discriminate].
  destruct (bigint_ok offset && bigint_ok limit) eqn:Hb; simpl;
    [|destruct (bigint offset && bigint limit); discriminate].
  apply andb_true_iff in Hb as [Ho Hl].
  rewrite (select_where_spec _ _ _ Hstmt).
  destruct (map_result _ _) as [res'|] eqn:Hm; [|discriminate].
  intros [= <- <-]. split; [reflexivity|]. split; [reflexivity|].
  exists tenant, actor. repeat split; assumption.
Qed.

Lemma row_matches_tenant tenant actor rtype rid act st et r :
  row_matches tenant actor rtype rid act st et r = true ->
  AuditLogModel.tenant_id r = tenant.
Proof.
  unfold row_matches. rewrite !andb_true_iff.
  intros [[[[[[H _] _] _] _] _] _]. now apply N.eqb_eq.
Qed.

(** C1, as the code has it.  A call of [query] that returns has parsed its
    tenant argument to a UUID [tenant] and has left the world as it was.  Its
    result is, row by row, the entries read from the page
    [offset, offset + limit) of the matching rows put newest first, where
    the matching rows are the rows of the table whose tenant is [tenant] and
    that pass every filter that is given ([None] and the empty string give
    no filter; the actor is compared as a UUID; the time window includes its
    ends).  So every returned entry comes from a stored row of that tenant
    and prints [tenant] as its [tenant_id], the result is in descending
    order of timestamp, and the row written for an entry whose [tenant_id]
    denotes another UUID is never among the rows returned, whatever the
    other filters. *)
Theorem query_tenant_scoped ties tid aid rtype rid act st et limit
    offset w res w' :
  DatabaseAuditLogger.query ties tid aid rtype rid act st et limit
    offset w = (Ok res, w') ->
  w' = w
  /\ exists tenant actor matching rows,
       PyUUID.UUID tid = Some tenant
       /\ actor_filter aid actor
       /\ Permutation matching
            (List.filter (row_matches tenant actor rtype rid act st et) (table w))
       /\ rows_descending matching
       /\ rows = page limit offset matching
       /\ Forall2 (fun r e => DatabaseAuditLogger.to_entry r = Ok e) rows res
       /\ Forall (fun r => In r (table w)
                           /\ AuditLogModel.tenant_id r = tenant
                           /\ row_matches tenant actor rtype rid act st et r = true)
            rows
       /\ Forall (fun e => tenant_id e = PyUUID.uuid_str tenant) res
       /\ entries_descending res
       /\ (forall r, In r (table w) -> AuditLogModel.tenant_id r <> tenant ->
                     ~ In r rows)
       /\ (forall entry draws row,
             DatabaseAuditLogger.to_row entry draws = Ok row ->
             PyUUID.UUID (AuditLogger.tenant_id entry) <> Some tenant ->
             ~ In row rows).
Proof.
  intros H.
  apply query_inv in H as (-> & _ & tenant & actor & Ht & Ha & _ & _ & Hm).
  split; [reflexivity|].
  set (p := row_matches tenant actor rtype rid act st et) in *.
  set (matching := order_by_timestamp_desc ties (List.filter p (table w))) in *.
  assert (Hrows : Forall (fun r => In r (table w)
                                   /\ AuditLogModel.tenant_id r = tenant
                                   /\ p r = true)
                    (page limit offset matching)).
  { apply List.Forall_forall. intros r Hr. apply In_page in Hr.
    eapply Permutation_in in Hr; [|apply order_by_timestamp_desc_perm].
    apply filter_In in Hr as [Hin Hp].
    split; [exact Hin|]. split; [|exact Hp].
    unfold p in Hp. now apply row_matches_tenant in Hp. }
  apply map_result_Forall2 in Hm.
  exists tenant, actor, matching, (page limit offset matching).
  split; [exact Ht|]. split; [exact Ha|].
  split; [apply order_by_timestamp_desc_perm|].
  split; [apply order_by_timestamp_desc_sorted|].
  split; [reflexivity|]. split; [exact Hm|]. split; [exact Hrows|].
  rewrite List.Forall_forall in Hrows.
  split; [|split; [|split]].
  - eapply Forall2_right; [exact Hm|]. intros r e Hr He.
    apply to_entry_fields in He as (-> & _).
    now destruct (Hrows r Hr) as (_ & -> & _).
  - eapply Forall2_StronglySorted; [|exact Hm|].
    + intros a a' b b' Hb Hb' Hle.
      apply to_entry_fields in Hb as (_ & -> & _).
      apply to_entry_fields in Hb' as (_ & -> & _). exact Hle.
    + apply StronglySorted_page, order_by_timestamp_desc_sorted.
  - intros r _ Hne Hr. now destruct (Hrows r Hr) as (_ & Heq & _).
  - intros entry draws row Hrow Hne Hr.
    apply to_row_uuids in Hrow as (Hu & _).
    destruct (Hrows row Hr) as (_ & Heq & _). congruence.
Qed.

(** The claim of C1 fails as stated in two ways.  A resource type filter
    that is given as the empty string is not applied: the query returns
    entries whose [resource_type] is ["user"].  And tenants are compared as
    UUIDs, not as strings: the entry logged with the tenant in upper case is
    returned to the query that names the tenant in lower case, with the
    lower-case [tenant_id]. *)
Lemma query_filters_counterexample :
  (exists e rest,
     fst (DatabaseAuditLogger.query Samples.ties Samples.alpha None (Some "") None None
            None None 100 0 Samples.three_entries) = Ok (e :: rest)
     /\ resource_type e <> "")
  /\ Samples.ALPHA <> Samples.alpha
  /\ fst (DatabaseAuditLogger.log
            (Samples.entry Samples.ALPHA Samples.alice (8 * Samples.hour))
            (Samples.draws 1) Samples.empty_world)
     = Ok "00000000-0000-0000-0000-000000000001"
  /\ fst (DatabaseAuditLogger.query Samples.ties Samples.alpha None None None None None
            None 100 0 Samples.upper_case_tenant)
     = Ok [Samples.entry Samples.alpha Samples.alice (8 * Samples.hour)].
Proof.
  split; [|split; [|split]].
  - eexists. eexists. split; [vm_compute; reflexivity|]. simpl. discriminate.
  - discriminate.
  - vm_compute. reflexivity.
  - vm_compute. reflexivity.
Qed.

Lemma query_tenant_scoped_witness :
  exists tenant actor matching rows,
    PyUUID.UUID Samples.alpha = Some tenant
    /\ actor_filter None actor
    /\ Permutation matching
         (List.filter
            (row_matches tenant actor None None None
               (Some (10 * Samples.hour - 5400000000)%Z)
               (Some (10 * Samples.hour)%Z))
            (table Samples.three_entries))
    /\ rows_descending matching
    /\ rows = page 100 0 matching
    /\ Forall2 (fun r e => DatabaseAuditLogger.to_entry r = Ok e) rows
         [Samples.entry Samples.alpha Samples.alice (10 * Samples.hour);
          Samples.entry Samples.alpha Samples.alice (9 * Samples.hour)].
Proof.
  destruct (query_tenant_scoped Samples.ties Samples.alpha None None None None
              (Some (10 * Samples.hour - 5400000000)%Z)
              (Some (10 * Samples.hour)%Z) 100 0 Samples.three_entries
              [Samples.entry Samples.alpha Samples.alice (10 * Samples.hour);
               Samples.entry Samples.alpha Samples.alice (9 * Samples.hour)]
              Samples.three_entries)
    as (_ & tenant & actor & matching & rows & H1 & H2 & H3 & H4 & H5 & H6 & _).
  - vm_compute. reflexivity.
  - exists tenant, actor, matching, rows. repeat split; assumption.
Defined.

(** ** What is written can be read back *)
















(** * Further properties of the audit loggers *)

Lemma actor_filter_fun aid a1 a2 :
  actor_filter aid a1 -> actor_filter aid a2 -> a1 = a2.
Proof.
  unfold actor_filter. destruct (given aid) as [a|].
  - intros (u1 & H1 & ->) (u2 & H2 & ->). congruence.
  - congruence.
Qed.

(** A call of [query] whose identifiers parse and whose page is in range
    is, in a transaction that runs, the reading of that page of the
    matching rows. *)
Lemma query_eval ties tid aid rtype rid act st et limit offset w tenant actor :
  PyUUID.UUID tid = Some tenant ->
  actor_filter aid actor ->
  bigint_ok offset = true -> bigint_ok limit = true ->
  transaction w = TxActive ->
  DatabaseAuditLogger.query ties tid aid rtype rid act st et limit offset w
  = (map_result DatabaseAuditLogger.to_entry
       (page limit offset
          (order_by_timestamp_desc ties
             (List.filter (row_matches tenant actor rtype rid act st et)
                (table w)))), w).
Proof.
  intros Ht Ha Ho Hl Htx. unfold_M. unfold UUID at 1. rewrite Ht.
  destruct (DatabaseAuditLogger.where_clauses tenant aid rtype rid act st et)
    as [stmt|e] eqn:Hs.
  - apply where_clauses_spec in Hs as (actor' & Ha' & Hstmt).
    rewrite (actor_filter_fun _ _ _ Ha' Ha) in Hstmt.
    rewrite Htx, Ho, Hl. cbn [andb].
    rewrite (select_where_spec _ _ _ Hstmt). unfold page.
    destruct (map_result _ _); reflexivity.
  - exfalso. unfold DatabaseAuditLogger.where_clauses, rbind, UUID in Hs.
    unfold actor_filter in Ha.
    destruct aid as [[|c a]|]; try discriminate.
    cbn [given PyStr.truthy] in Ha. destruct Ha as (u & Hu & _).
    rewrite Hu in Hs. discriminate.
Qed.

Lemma firstn_add {A} a b (l : list A) :
  firstn (a + b) l = firstn a l ++ firstn b (skipn a l).
Proof.
  revert l. induction a as [|a IH]; intros l; [reflexivity|].
  destruct l as [|x l]; simpl.
  - now rewrite firstn_nil.
  - now rewrite IH.
Qed.

Lemma page_add {A} a b o (l : list A) :
  (0 <= a)%Z -> (0 <= b)%Z -> (0 <= o)%Z ->
  page (a + b) o l = page a o l ++ page b (o + a) l.
Proof.
  intros Ha Hb Ho. unfold page.
  rewrite !Z2Nat.inj_add by assumption.
  rewrite firstn_add, skipn_skipn.
  now rewrite (Nat.add_comm (Z.to_nat a)).
Qed.

Lemma map_result_app {A B} (f : A -> result B) l1 l2 r1 r2 :
  map_result f l1 = Ok r1 -> map_result f l2 = Ok r2 ->
  map_result f (l1 ++ l2) = Ok (r1 ++ r2).
Proof.
  rewrite !map_result_Forall2. apply Forall2_app.
Qed.

Lemma bigint_ok_ge n : bigint_ok n = true -> (0 <= n)%Z.
Proof.
  unfold bigint_ok. intros H. apply andb_true_iff in H as [H _].
  now apply Z.leb_le.
Qed.

(** X1.  On a store that does not change and in which no two rows have
    the same timestamp, pages fit together, in whatever order each of the
    three executions would put rows of equal timestamps: the page of [a]
    entries from [offset] followed by the page of [b] entries from
    [offset + a] is the page of [a + b] entries from [offset]. *)
Theorem query_pages_compose ties1 ties2 ties3 tid aid rtype rid act st et a b
    offset w r1 r2 w1 w2 :
  distinct_timestamps (table w) ->
  DatabaseAuditLogger.query ties1 tid aid rtype rid act st et a offset w
  = (Ok r1, w1) ->
  DatabaseAuditLogger.query ties2 tid aid rtype rid act st et b (offset + a) w
  = (Ok r2, w2) ->
  (a + b < 2 ^ 63)%Z ->
  DatabaseAuditLogger.query ties3 tid aid rtype rid act st et (a + b) offset w
  = (Ok (r1 ++ r2), w).
Proof.
  intros Hd H1 H2 Hab.
  apply query_inv in H1
    as (_ & Htx & tenant & actor & Ht & Ha & Ho & Hla & Hm1).
  apply query_inv in H2
    as (_ & _ & tenant' & actor' & Ht' & Ha' & _ & Hlb & Hm2).
  assert (tenant' = tenant) as -> by congruence.
  rewrite (actor_filter_fun _ _ _ Ha' Ha) in Hm2.
  pose proof (distinct_timestamps_filter
                (row_matches tenant actor rtype rid act st et) _ Hd) as Hdf.
  rewrite (order_by_timestamp_desc_ties ties1 ties3 _ Hdf) in Hm1.
  rewrite (order_by_timestamp_desc_ties ties2 ties3 _ Hdf) in Hm2.
  pose proof (bigint_ok_ge _ Ho). pose proof (bigint_ok_ge _ Hla).
  pose proof (bigint_ok_ge _ Hlb).
  rewrite (query_eval _ _ _ _ _ _ _ _ _ _ _ tenant actor); trivial.
  - rewrite page_add by assumption.
    now rewrite (map_result_app _ _ _ _ _ Hm1 Hm2).
  - unfold bigint_ok. apply andb_true_iff.
    split; [apply Z.leb_le|apply Z.ltb_lt]; lia.
Qed.

Lemma query_pages_compose_witness :
  DatabaseAuditLogger.query (fun _ _ => false) Samples.alpha None None None
    None None None (1 + 2) 0 Samples.three_entries
  = (Ok ([Samples.entry Samples.alpha Samples.alice (10 * Samples.hour)]
         ++ [Samples.entry Samples.alpha Samples.alice (9 * Samples.hour);
             Samples.entry Samples.alpha Samples.alice (8 * Samples.hour)]),
     Samples.three_entries).
Proof.
  apply (query_pages_compose Samples.ties Samples.ties (fun _ _ => false)
           Samples.alpha None None None None None None 1 2 0
           Samples.three_entries _ _ Samples.three_entries
           Samples.three_entries).
  - unfold distinct_timestamps. vm_compute.
    repeat (apply NoDup_cons; split;
            [rewrite list_elem_of_In; simpl; intuition discriminate|]).
    apply NoDup_nil. exact I.
  - vm_compute. reflexivity.
  - vm_compute. reflexivity.
  - reflexivity.
Defined.

(** Where two rows have the same timestamp, two executions may put them
    in different orders, and the second page may then repeat the first. *)
Example pages_overlap_on_equal_timestamps :
  fst (DatabaseAuditLogger.query (fun _ _ => true) Samples.alpha None None
         None None None None 1 0 Samples.same_instant)
  = Ok [Samples.entry Samples.alpha Samples.alice (8 * Samples.hour)]
  /\ fst (DatabaseAuditLogger.query (fun _ _ => false) Samples.alpha None None
            None None None None 1 1 Samples.same_instant)
     = Ok [Samples.entry Samples.alpha Samples.alice (8 * Samples.hour)]
  /\ fst (DatabaseAuditLogger.query (fun _ _ => true) Samples.alpha None None
            None None None None 2 0 Samples.same_instant)
     = Ok [Samples.entry Samples.alpha Samples.alice (8 * Samples.hour);
           Samples.entry Samples.alpha Samples.req1 (8 * Samples.hour)].
Proof. vm_compute. repeat split; reflexivity. Qed.

(** X2.  A query returns no more entries than its limit and no more than
    the table has rows; past the last matching row it returns none. *)
Theorem query_result_bounded ties tid aid rtype rid act st et limit offset w
    res w' :
  DatabaseAuditLogger.query ties tid aid rtype rid act st et limit offset w
  = (Ok res, w') ->
  (Z.of_nat (length res) <= limit)%Z
  /\ (length res <= length (table w))%nat
  /\ ((Z.of_nat (length (table w)) <= offset)%Z -> res = []).
Proof.
  intros H.
  apply query_inv in H as (_ & _ & tenant & actor & _ & _ & Ho & Hl & Hm).
  apply bigint_ok_ge in Ho, Hl.
  apply map_result_Forall2 in Hm. apply Forall2_length in Hm.
  set (p := row_matches tenant actor rtype rid act st et) in *.
  assert (Hlen : (length (order_by_timestamp_desc ties (List.filter p (table w)))
                  <= length (table w))%nat).
  { rewrite (Permutation_length (order_by_timestamp_desc_perm _ _)).
    apply filter_length_le. }
  unfold page in Hm. rewrite length_firstn, length_skipn in Hm.
  split; [lia|]. split; [lia|].
  intros Hoff. destruct res; [reflexivity|]. simpl in Hm. lia.
Qed.

Lemma query_result_bounded_witness :
  (Z.of_nat
     (length [Samples.entry Samples.alpha Samples.alice (10 * Samples.hour)])
   <= 1)%Z
  /\ (length [Samples.entry Samples.alpha Samples.alice (10 * Samples.hour)]
      <= length (table Samples.three_entries))%nat
  /\ ((Z.of_nat (length (table Samples.three_entries)) <= 0)%Z ->
      [Samples.entry Samples.alpha Samples.alice (10 * Samples.hour)] = []).
Proof.
  apply (query_result_bounded Samples.ties Samples.alpha None None None None
           None None 1 0 Samples.three_entries _ Samples.three_entries).
  vm_compute. reflexivity.
Defined.



(** X4.  A query whose tenant is not a UUID, or whose actor filter is given
    and is not a UUID, raises [ValueError] and reads nothing.  The entries
    of the anonymous actor therefore cannot be asked for by their actor:
    the filter ["anonymous"] always raises. *)
Theorem query_rejects_non_uuid ties tid aid rtype rid act st et limit offset
    w :
  PyUUID.UUID tid = None
  \/ (exists a, aid = Some a /\ a <> "" /\ PyUUID.UUID a = None)
  \/ aid = Some "anonymous" ->
  exists msg,
    DatabaseAuditLogger.query ties tid aid rtype rid act st et limit offset w
    = (Raise (ValueError msg), w).
Proof.
  intros H.
  assert (H' : PyUUID.UUID tid = None
               \/ exists a, aid = Some a /\ a <> "" /\ PyUUID.UUID a = None).
  { destruct H as [H|[H|H]]; auto. right. exists "anonymous".
    split; [exact H|]. split; [discriminate|reflexivity]. }
  clear H. unfold_M. unfold UUID at 1.
  destruct (PyUUID.UUID tid) as [tenant|]; [|eexists; reflexivity].
  destruct H' as [H|(a & -> & Hne & Hu)]; [discriminate|].
  unfold DatabaseAuditLogger.where_clauses, rbind, UUID.
  destruct a as [|c a]; [congruence|]. cbn [PyStr.truthy]. rewrite Hu.
  eexists. reflexivity.
Qed.

Lemma query_rejects_non_uuid_witness :
  exists msg,
    DatabaseAuditLogger.query Samples.ties Samples.alpha (Some "anonymous")
      None None None None None 100 0 Samples.anonymous_logged
    = (Raise (ValueError msg), Samples.anonymous_logged).
Proof.
  apply (query_rejects_non_uuid Samples.ties Samples.alpha (Some "anonymous")).
  right. right. reflexivity.
Defined.

Lemma query_reads_table ties tid aid rtype rid act st et limit offset w1 w2 :
  table w1 = table w2 ->
  transaction w1 = transaction w2 ->
  fst (DatabaseAuditLogger.query ties tid aid rtype rid act st et limit offset
         w1)
  = fst (DatabaseAuditLogger.query ties tid aid rtype rid act st et limit
           offset w2).
Proof.
  intros Ht Htx. unfold_M.
  destruct (UUID tid); [|reflexivity].
  destruct (DatabaseAuditLogger.where_clauses _ _ _ _ _ _ _); [|reflexivity].
  rewrite Htx. destruct (transaction w2); [|reflexivity|reflexivity].
  destruct (bigint_ok offset && bigint_ok limit).
  - rewrite Ht. destruct (map_result _ _); reflexivity.
  - destruct (bigint offset && bigint limit); reflexivity.
Qed.

(** X5.  The logging-only logger stores nothing: [log] returns the drawn id
    and gives [logging] one INFO record ["AUDIT"] that carries it, the table
    is as it was, and every query of the database logger answers afterwards
    what it answered before. *)
Theorem fallback_log_not_stored entry uuid4 w :
  exists record,
    LoggingAuditLogger.log entry uuid4 w
    = (Ok (PyUUID.uuid_str uuid4),
       {| committed := committed w; pending := pending w;
          transaction := transaction w;
          records := records w ++ [record] |})
    /\ levelname record = "INFO" /\ msg record = "AUDIT"
    /\ In ("audit_id", PyUUID.uuid_str uuid4) (extra record)
    /\ In ("tenant_id", tenant_id entry) (extra record)
    /\ forall ties tid aid rtype rid act st et limit offset,
         fst (DatabaseAuditLogger.query ties tid aid rtype rid act st et limit
                offset (snd (LoggingAuditLogger.log entry uuid4 w)))
         = fst (DatabaseAuditLogger.query ties tid aid rtype rid act st et
                  limit offset w).
Proof.
  eexists. split; [reflexivity|]. cbn [levelname msg extra].
  split; [reflexivity|]. split; [reflexivity|].
  split; [now left|]. split; [simpl; tauto|].
  intros. apply query_reads_table; reflexivity.
Qed.

(** * Further properties of the middleware *)

Lemma headers_get_set hs key value :
  Middleware.headers_get (Middleware.headers_set hs key value) key = Some value.
Proof.
  induction hs as [|[name old] hs IH]; simpl.
  - now rewrite String.eqb_refl.
  - destruct (String.eqb name (PyStr.lower key)) eqn:E; simpl; now rewrite E.
Qed.

Lemma headers_get_filter_other hs key key' :
  PyStr.lower key' <> PyStr.lower key ->
  Middleware.headers_get
    (List.filter (fun h => negb (String.eqb (fst h) (PyStr.lower key))) hs) key'
  = Middleware.headers_get hs key'.
Proof.
  intros Hne. induction hs as [|[name old] hs IH]; simpl; [reflexivity|].
  destruct (String.eqb name (PyStr.lower key)) eqn:E; simpl.
  - apply String.eqb_eq in E. subst name.
    destruct (String.eqb (PyStr.lower key) (PyStr.lower key')) eqn:E'.
    + apply String.eqb_eq in E'. congruence.
    + exact IH.
  - now rewrite IH.
Qed.

Lemma headers_get_set_other hs key key' value :
  PyStr.lower key' <> PyStr.lower key ->
  Middleware.headers_get (Middleware.headers_set hs key value) key'
  = Middleware.headers_get hs key'.
Proof.
  intros Hne. induction hs as [|[name old] hs IH]; simpl.
  - destruct (String.eqb (PyStr.lower key) (PyStr.lower key')) eqn:E;
      [|reflexivity].
    apply String.eqb_eq in E. congruence.
  - destruct (String.eqb name (PyStr.lower key)) eqn:E; simpl.
    + apply String.eqb_eq in E. subst name.
      destruct (String.eqb (PyStr.lower key) (PyStr.lower key')) eqn:E'.
      * apply String.eqb_eq in E'. congruence.
      * now apply headers_get_filter_other.
    + now rewrite IH.
Qed.

Lemma headers_set_once hs key value :
  length (List.filter (fun h => String.eqb (fst h) (PyStr.lower key))
            (Middleware.headers_set hs key value)) = 1%nat.
Proof.
  induction hs as [|[name old] hs IH]; simpl.
  - now rewrite String.eqb_refl.
  - destruct (String.eqb name (PyStr.lower key)) eqn:E; simpl; rewrite E.
    + simpl. f_equal. clear IH.
      induction hs as [|[n o] hs IH]; simpl; [reflexivity|].
      destruct (String.eqb n (PyStr.lower key)) eqn:E'; simpl; [exact IH|].
      now rewrite E'.
    + exact IH.
Qed.

(** X6.  The response of [dispatch] carries the request id of the context
    in exactly one X-Request-ID header, which is the inbound X-Request-ID
    when the request has one; the other headers of the response are those
    the rest of the application set. *)
Theorem dispatch_echoes_request_id request call_next uuid4 var :
  let ctx := Middleware.dispatch_context request uuid4 in
  let inner := fst (call_next request (Some ctx)) in
  let response := fst (Middleware.dispatch request call_next uuid4 var) in
  Middleware.headers_get (Middleware.response_headers response) "X-Request-ID"
  = Some (Context.request_id ctx)
  /\ (forall v,
        Middleware.headers_get (Middleware.headers request) "X-Request-ID"
        = Some v ->
        Middleware.headers_get (Middleware.response_headers response)
          "X-Request-ID" = Some v)
  /\ length (List.filter (fun h => String.eqb (fst h) "x-request-id")
               (Middleware.response_headers response)) = 1%nat
  /\ (forall key, PyStr.lower key <> "x-request-id" ->
        Middleware.headers_get (Middleware.response_headers response) key
        = Middleware.headers_get (Middleware.response_headers inner) key).
Proof.
  cbv zeta. unfold Middleware.dispatch, Context.set_request_context.
  destruct (call_next request (Some (Middleware.dispatch_context request uuid4)))
    as [inner var'].
  cbn [fst Middleware.response_headers].
  split; [apply headers_get_set|]. split; [|split].
  - intros v Hv. rewrite headers_get_set. f_equal.
    unfold Middleware.dispatch_context, Middleware.headers_get_default.
    cbn [Context.request_id]. now rewrite Hv.
  - apply (headers_set_once _ "X-Request-ID").
  - intros key Hne. now apply headers_get_set_other.
Qed.

Lemma lstrip_suffix p s : exists pre, s = (pre ++ PyStr.lstrip p s)%string.
Proof.
  induction s as [|c s IH]; simpl.
  - now exists "".
  - destruct (p c); [|now exists ""].
    destruct IH as [pre Hpre]. exists (String c pre).
    change (String c s = String c (pre ++ PyStr.lstrip p s)%string).
    now f_equal.
Qed.

Lemma rstrip_prefix p s : exists post, s = (PyStr.rstrip p s ++ post)%string.
Proof.
  induction s as [|c s IH]; simpl.
  - now exists "".
  - destruct IH as [post Hpost].
    destruct (PyStr.rstrip p s) as [|d r] eqn:E.
    + destruct (p c).
      * now exists (String c s).
      * exists s. reflexivity.
    + exists post.
      change (String c s = String c (String d r ++ post)%string).
      now f_equal.
Qed.

Lemma lstrip_head_kept p s : head_kept p (PyStr.lstrip p s).
Proof.
  induction s as [|c s IH]; simpl; [exact I|].
  destruct (p c) eqn:E; [exact IH|exact E].
Qed.

Lemma lstrip_fixed p s : head_kept p s -> PyStr.lstrip p s = s.
Proof. destruct s as [|c s]; simpl; [reflexivity|]. now intros ->. Qed.

Lemma rstrip_head_kept p s : head_kept p s -> head_kept p (PyStr.rstrip p s).
Proof.
  destruct s as [|c s]; simpl; [trivial|]. intros Hc.
  destruct (PyStr.rstrip p s); [rewrite Hc|]; exact Hc.
Qed.

Lemma rstrip_idem p s : PyStr.rstrip p (PyStr.rstrip p s) = PyStr.rstrip p s.
Proof.
  induction s as [|c s IH]; simpl; [reflexivity|].
  destruct (PyStr.rstrip p s) as [|d r] eqn:E.
  - destruct (p c) eqn:Ec; simpl; [reflexivity|now rewrite Ec].
  - change (PyStr.rstrip p (String c (String d r))) with
      (match PyStr.rstrip p (String d r) with
       | EmptyString => if p c then EmptyString else String c EmptyString
       | r' => String c r'
       end).
    now rewrite IH.
Qed.

Lemma strip_idem s : PyStr.strip (PyStr.strip s) = PyStr.strip s.
Proof.
  unfold PyStr.strip.
  rewrite (lstrip_fixed _ (PyStr.rstrip _ _)).
  - apply rstrip_idem.
  - apply rstrip_head_kept, lstrip_head_kept.
Qed.

Lemma append_assoc s1 s2 s3 :
  ((s1 ++ s2) ++ s3)%string = (s1 ++ s2 ++ s3)%string.
Proof.
  induction s1 as [|c s1 IH]; [reflexivity|].
  change (String c ((s1 ++ s2) ++ s3)%string = String c (s1 ++ s2 ++ s3)%string).
  now f_equal.
Qed.

Lemma mem_app c s1 s2 :
  PyStr.mem c (s1 ++ s2)%string = PyStr.mem c s1 || PyStr.mem c s2.
Proof.
  induction s1 as [|d s1 IH]; [reflexivity|].
  change (PyStr.mem c (String d s1 ++ s2)%string)
    with (Ascii.eqb c d || PyStr.mem c (s1 ++ s2)%string).
  rewrite IH. simpl. now rewrite orb_assoc.
Qed.

Lemma strip_mem c s : PyStr.mem c s = false -> PyStr.mem c (PyStr.strip s) = false.
Proof.
  unfold PyStr.strip. intros H.
  destruct (lstrip_suffix PyStr.isspace s) as [pre Hpre].
  destruct (rstrip_prefix PyStr.isspace (PyStr.lstrip PyStr.isspace s))
    as [post Hpost].
  rewrite Hpre, Hpost, !mem_app in H.
  apply orb_false_iff in H as [_ H]. now apply orb_false_iff in H as [H _].
Qed.

Lemma split_head_fixed sep s :
  PyStr.mem sep s = false -> PyStr.split_head sep s = s.
Proof.
  induction s as [|c s IH]; simpl; [reflexivity|].
  intros H. apply orb_false_iff in H as [Hc Hs].
  rewrite Ascii.eqb_sym, Hc. now rewrite IH.
Qed.

(** X7.  A client address taken from X-Forwarded-For is a piece of that
    header in normal form: it holds no comma and no white space at either
    end, so that stripping it or splitting it again changes nothing. *)
Theorem dispatch_client_ip_normal request uuid4 ff :
  Middleware.headers_get (Middleware.headers request) "X-Forwarded-For"
  = Some ff ->
  ff <> "" ->
  exists ip,
    Context.client_ip (Middleware.dispatch_context request uuid4) = Some ip
    /\ PyStr.mem ","%char ip = false
    /\ PyStr.strip ip = ip
    /\ PyStr.split_head ","%char ip = ip
    /\ exists before after, ff = (before ++ ip ++ after)%string.
Proof.
  intros Hff Hne.
  assert (Hip : Context.client_ip (Middleware.dispatch_context request uuid4)
                = Some (PyStr.strip (PyStr.split_head ","%char ff))).
  { unfold Middleware.dispatch_context. cbn [Context.client_ip].
    rewrite Hff. destruct ff; [congruence|reflexivity]. }
  exists (PyStr.strip (PyStr.split_head ","%char ff)).
  split; [exact Hip|].
  destruct (split_head_spec ff) as (rest & Hsplit & _ & Hmem).
  assert (Hm : PyStr.mem ","%char (PyStr.strip (PyStr.split_head ","%char ff))
               = false) by now apply strip_mem.
  split; [exact Hm|]. split; [apply strip_idem|].
  split; [now apply split_head_fixed|].
  unfold PyStr.strip.
  destruct (lstrip_suffix PyStr.isspace (PyStr.split_head ","%char ff))
    as [pre Hpre].
  destruct (rstrip_prefix PyStr.isspace
              (PyStr.lstrip PyStr.isspace (PyStr.split_head ","%char ff)))
    as [post Hpost].
  exists pre, (post ++ rest)%string.
  transitivity
    ((pre ++ PyStr.rstrip PyStr.isspace
               (PyStr.lstrip PyStr.isspace (PyStr.split_head ","%char ff))
          ++ post) ++ rest)%string.
  - rewrite <- Hpost, <- Hpre. exact Hsplit.
  - now rewrite !append_assoc.
Qed.

(** ** The request size limit *)

Lemma digit_cases (d : N) :
  (d < 10)%N ->
  d = 0%N \/ d = 1%N \/ d = 2%N \/ d = 3%N \/ d = 4%N \/ d = 5%N \/ d = 6%N
  \/ d = 7%N \/ d = 8%N \/ d = 9%N.
Proof. lia. Qed.

Ltac digit_case d H :=
  destruct (digit_cases d H) as [->|[->|[->|[->|[->|[->|[->|[->|[->| ->]]]]]]]]].

Lemma dec_digits_digit d prev seen acc s :
  (d < 10)%N ->
  PyInt.dec_digits prev seen acc (String (PyInt.digit_char d) s)
  = PyInt.dec_digits false true (10 * acc + d)%N s.
Proof. intros H. digit_case d H; reflexivity. Qed.

Lemma is_digit_digit_char d : (d < 10)%N -> PyInt.is_digit (PyInt.digit_char d) = true.
Proof. intros H. digit_case d H; reflexivity. Qed.

(** The numeral printed with enough fuel reads back as the number, is made
    of digits only, and starts with one. *)
Lemma decimal_from_spec f :
  forall n tail,
    (n < 2 ^ N.of_nat f)%N ->
    exists k d rest,
      (forall prev seen acc,
         PyInt.dec_digits prev seen acc (PyInt.decimal_from (S f) n tail)
         = PyInt.dec_digits false true (acc * 10 ^ k + n)%N tail)
      /\ (PyInt.all_digits tail = true ->
          PyInt.all_digits (PyInt.decimal_from (S f) n tail) = true)
      /\ PyInt.decimal_from (S f) n tail = String (PyInt.digit_char d) rest
      /\ (d < 10)%N.
Proof.
  induction f as [|f IH]; intros n tail Hn.
  - assert (n = 0%N) as -> by (simpl in Hn; lia).
    exists 1%N, 0%N, tail. cbn [PyInt.decimal_from].
    change (0 mod 10)%N with 0%N. change (0 <? 10)%N with true. cbv iota.
    repeat split; try lia.
    + intros. rewrite (dec_digits_digit 0) by lia. f_equal. lia.
    + intros Ht. cbn [PyInt.all_digits]. now rewrite Ht.
  - cbn [PyInt.decimal_from].
    assert (Hmod : (n mod 10 < 10)%N) by (apply N.mod_lt; lia).
    destruct (n <? 10)%N eqn:E.
    + apply N.ltb_lt in E. rewrite N.mod_small by exact E.
      exists 1%N, n, tail. repeat split; try assumption.
      * intros. rewrite dec_digits_digit by exact E. f_equal. lia.
      * intros Ht. cbn [PyInt.all_digits].
        now rewrite is_digit_digit_char, Ht.
    + apply N.ltb_ge in E.
      destruct (IH (n / 10)%N (String (PyInt.digit_char (n mod 10)%N) tail))
        as (k & d & rest & Hread & Hall & Hhead & Hd).
      { rewrite Nat2N.inj_succ, N.pow_succ_r' in Hn.
        apply N.Div0.div_lt_upper_bound. lia. }
      exists (N.succ k), d, rest. repeat split; try assumption.
      * intros. rewrite Hread, dec_digits_digit by exact Hmod. f_equal.
        rewrite N.pow_succ_r'. pose proof (N.div_mod n 10). lia.
      * intros Ht. apply Hall. cbn [PyInt.all_digits].
        now rewrite is_digit_digit_char, Ht.
Qed.

Lemma decimal_spec n :
  exists d rest,
    PyInt.dec_digits true false 0%N (PyInt.decimal n) = Some n
    /\ PyInt.all_digits (PyInt.decimal n) = true
    /\ PyInt.decimal n = String (PyInt.digit_char d) rest
    /\ (d < 10)%N.
Proof.
  unfold PyInt.decimal.
  destruct (decimal_from_spec (N.to_nat (N.size n)) n EmptyString)
    as (k & d & rest & Hread & Hall & Hhead & Hd).
  { rewrite N2Nat.id. apply N.size_gt. }
  exists d, rest. repeat split; try assumption.
  - rewrite Hread. simpl. f_equal; lia.
  - now apply Hall.
Qed.

Lemma is_digit_not_space c :
  PyInt.is_digit c = true -> PyUUID.int_space c = false.
Proof.
  unfold PyInt.is_digit, PyInt.digit10, PyUUID.int_space.
  rewrite <- (N2Nat.id (N_of_ascii c)).
  change (N.to_nat (N_of_ascii c)) with (nat_of_ascii c).
  pose proof (nat_ascii_bounded c) as Hb.
  destruct ((48 <=? N.of_nat (nat_of_ascii c)) && (N.of_nat (nat_of_ascii c) <=? 57))%N
    eqn:E; [|discriminate].
  intros _. apply andb_true_iff in E as [E1 E2].
  apply N.leb_le in E1, E2.
  repeat (apply orb_false_iff; split);
    rewrite ?andb_false_iff, ?Nat.leb_gt, ?Nat.eqb_neq; lia.
Qed.

Lemma all_digits_count s :
  PyInt.all_digits s = true -> PyInt.count_digits s = String.length s.
Proof.
  induction s as [|c s IH]; simpl; [reflexivity|].
  intros H. apply andb_true_iff in H as [Hc Hs]. rewrite Hc. now rewrite IH.
Qed.

Lemma all_digits_rstrip s :
  PyInt.all_digits s = true -> PyStr.rstrip PyUUID.int_space s = s.
Proof.
  induction s as [|c s IH]; simpl; [reflexivity|].
  intros H. apply andb_true_iff in H as [Hc Hs]. rewrite (IH Hs).
  destruct s; [|reflexivity]. now rewrite (is_digit_not_space _ Hc).
Qed.

(** [int(str(n)) == n], within the digit limit. *)
Lemma int10_decimal n :
  (String.length (PyInt.decimal n) <= PyInt.int_max_str_digits)%nat ->
  PyInt.int10 (PyInt.decimal n) = Some (Z.of_N n).
Proof.
  intros Hlen.
  destruct (decimal_spec n) as (d & rest & Hread & Hall & Hhead & Hd).
  unfold PyInt.int10.
  assert (Hl : PyStr.lstrip PyUUID.int_space (PyInt.decimal n) = PyInt.decimal n).
  { rewrite Hhead. simpl.
    rewrite is_digit_not_space; [reflexivity|now apply is_digit_digit_char]. }
  rewrite Hl, (all_digits_rstrip _ Hall).
  assert (Hsign : match PyInt.decimal n with
                  | String "+"%char s' => (false, s')
                  | String "-"%char s' => (true, s')
                  | _ => (false, PyInt.decimal n)
                  end = (false, PyInt.decimal n)).
  { rewrite Hhead. digit_case d Hd; reflexivity. }
  rewrite Hsign, (all_digits_count _ Hall).
  apply Nat.ltb_ge in Hlen. rewrite Hlen, Hread. reflexivity.
Qed.

(** [int("-" + str(n)) == -n]. *)
Lemma int10_minus_decimal n :
  (String.length (PyInt.decimal n) <= PyInt.int_max_str_digits)%nat ->
  PyInt.int10 (String "-"%char (PyInt.decimal n)) = Some (- Z.of_N n)%Z.
Proof.
  intros Hlen.
  destruct (decimal_spec n) as (d & rest & Hread & Hall & Hhead & Hd).
  unfold PyInt.int10.
  assert (Hl : PyStr.lstrip PyUUID.int_space (String "-"%char (PyInt.decimal n))
               = String "-"%char (PyInt.decimal n)) by reflexivity.
  rewrite Hl.
  assert (Hr : PyStr.rstrip PyUUID.int_space (String "-"%char (PyInt.decimal n))
               = String "-"%char (PyInt.decimal n)).
  { cbn [PyStr.rstrip]. rewrite (all_digits_rstrip _ Hall), Hhead. reflexivity. }
  rewrite Hr, (all_digits_count _ Hall).
  apply Nat.ltb_ge in Hlen. rewrite Hlen, Hread. reflexivity.
Qed.

(** X8.  A request whose Content-Length is the numeral of [n] is refused
    with 413, the rest of the application not being run, exactly when [n]
    is above 10 MiB; at 10 MiB and below it is passed on. *)
Theorem size_limit_threshold {R : Type} request (call_next : Middleware.Request -> R) n :
  Middleware.headers_get (Middleware.headers request) "Content-Length"
  = Some (PyInt.decimal n) ->
  (String.length (PyInt.decimal n) <= PyInt.int_max_str_digits)%nat ->
  RequestSizeLimitMiddleware.dispatch request call_next
  = Ok (if (10485760 <? Z.of_N n)%Z
        then inl RequestSizeLimitMiddleware.too_large
        else inr (call_next request))
  /\ RequestSizeLimitMiddleware.status_code RequestSizeLimitMiddleware.too_large
     = 413%Z.
Proof.
  intros Hcl Hlen. split; [|reflexivity].
  unfold RequestSizeLimitMiddleware.dispatch. rewrite Hcl.
  destruct (decimal_spec n) as (d & rest & _ & _ & Hhead & _).
  assert (Ht : PyStr.truthy (PyInt.decimal n) = true) by now rewrite Hhead.
  rewrite Ht, (int10_decimal n Hlen).
  change RequestSizeLimitMiddleware.MAX_BODY_SIZE with 10485760%Z.
  destruct (10485760 <? Z.of_N n)%Z; reflexivity.
Qed.

Lemma size_limit_threshold_witness :
  RequestSizeLimitMiddleware.dispatch
    {| Middleware.headers := [("content-length", PyInt.decimal 10485761)];
       Middleware.client := None |} (fun _ => tt)
  = Ok (if (10485760 <? Z.of_N 10485761)%Z
        then inl RequestSizeLimitMiddleware.too_large
        else inr tt)
  /\ RequestSizeLimitMiddleware.status_code RequestSizeLimitMiddleware.too_large
     = 413%Z.
Proof.
  apply (size_limit_threshold
           {| Middleware.headers := [("content-length", PyInt.decimal 10485761)];
              Middleware.client := None |} (fun _ => tt) 10485761).
  - reflexivity.
  - vm_compute. lia.
Defined.

(** X9.  The limit is on the declared length only: a request that has no
    Content-Length header, an empty one, or a negative one is passed on to
    the rest of the application, whatever its body. *)
Theorem size_limit_passes_undeclared {R : Type} request
    (call_next : Middleware.Request -> R) :
  Middleware.headers_get (Middleware.headers request) "Content-Length" = None
  \/ Middleware.headers_get (Middleware.headers request) "Content-Length"
     = Some ""
  \/ (exists n,
        Middleware.headers_get (Middleware.headers request) "Content-Length"
        = Some (String "-"%char (PyInt.decimal n))
        /\ (String.length (PyInt.decimal n) <= PyInt.int_max_str_digits)%nat) ->
  RequestSizeLimitMiddleware.dispatch request call_next
  = Ok (inr (call_next request)).
Proof.
  unfold RequestSizeLimitMiddleware.dispatch.
  intros [-> | [-> | (n & -> & Hlen)]]; try reflexivity.
  cbn [PyStr.truthy]. rewrite (int10_minus_decimal n Hlen).
  change RequestSizeLimitMiddleware.MAX_BODY_SIZE with 10485760%Z.
  destruct (10485760 <? - Z.of_N n)%Z eqn:E; [|reflexivity].
  apply Z.ltb_lt in E. lia.
Qed.

Lemma size_limit_passes_undeclared_witness :
  RequestSizeLimitMiddleware.dispatch Samples.request_proxied (fun _ => tt)
  = Ok (inr tt).
Proof.
  apply (size_limit_passes_undeclared Samples.request_proxied (fun _ => tt)).
  left. reflexivity.
Defined.

Lemma dispatch_client_ip_normal_witness :
  exists ip,
    Context.client_ip (Middleware.dispatch_context Samples.request_proxied 7%N)
    = Some ip
    /\ PyStr.mem ","%char ip = false
    /\ PyStr.strip ip = ip
    /\ PyStr.split_head ","%char ip = ip
    /\ exists before after,
         " 203.0.113.5 , 198.51.100.1" = (before ++ ip ++ after)%string.
Proof.
  apply (dispatch_client_ip_normal Samples.request_proxied 7%N
           " 203.0.113.5 , 198.51.100.1").
  - reflexivity.
  - discriminate.
Defined.

(** * The environment vault *)

Section EnvVault.

Import VaultSpec.

Lemma name_to_env_cons c name :
  EnvSecretVault._name_to_env (String c name)
  = env_code c ++ EnvSecretVault._name_to_env name.
Proof. reflexivity. Qed.

Ltac each_char c :=
  destruct c as [[|] [|] [|] [|] [|] [|] [|] [|]]; vm_compute; reflexivity.

Lemma env_code_nul c :
  existsb (N.eqb 0) (env_code c) = Ascii.eqb OsEnviron.NUL c.
Proof. each_char c. Qed.

Lemma env_code_eq_sign c :
  existsb (N.eqb 61) (env_code c) = Ascii.eqb "="%char c.
Proof. each_char c. Qed.

Lemma env_code_lower c : env_code (PyText.lower_char c) = env_code c.
Proof. each_char c. Qed.

Lemma env_code_separator c :
  is_separator c = true -> env_code c = [95%N].
Proof.
  destruct c as [[|] [|] [|] [|] [|] [|] [|] [|]]; vm_compute;
    intros [=]; reflexivity.
Qed.

Lemma env_code_not_nil c : env_code c <> [].
Proof.
  destruct c as [[|] [|] [|] [|] [|] [|] [|] [|]]; vm_compute; discriminate.
Qed.

Lemma name_to_env_has x name :
  (forall c, existsb (N.eqb x) (env_code c) = Ascii.eqb (ascii_of_N x) c) ->
  existsb (N.eqb x) (EnvSecretVault._name_to_env name)
  = PyStr.mem (ascii_of_N x) name.
Proof.
  intros Hx. induction name as [|c name IH]; [reflexivity|].
  rewrite name_to_env_cons, existsb_app, IH, Hx. reflexivity.
Qed.

(** A secret name is usable when it is not empty and holds no [=] and no
    NUL. *)
Lemma put_secret_returns env name value description :
  name <> "" ->
  PyStr.mem "="%char name = false ->
  PyStr.mem OsEnviron.NUL name = false ->
  PyStr.mem OsEnviron.NUL value = false ->
  EnvSecretVault.put_secret env name value description
  = Return (<[EnvSecretVault._name_to_env name := value]> env).
Proof.
  intros Hne Heq Hnul Hval.
  unfold EnvSecretVault.put_secret, OsEnviron.setitem.
  rewrite (name_to_env_has 0 name env_code_nul).
  rewrite (name_to_env_has 61 name env_code_eq_sign).
  change (ascii_of_N 0) with OsEnviron.NUL.
  change (ascii_of_N 61) with "="%char.
  rewrite Hnul, Hval, Heq. cbn [orb].
  destruct name as [|c name]; [congruence|].
  rewrite name_to_env_cons.
  destruct (env_code c) as [|n l] eqn:E; [now apply env_code_not_nil in E|].
  reflexivity.
Qed.

Lemma put_secret_inv env name value description env' :
  EnvSecretVault.put_secret env name value description = Return env' ->
  env' = <[EnvSecretVault._name_to_env name := value]> env.
Proof.
  unfold EnvSecretVault.put_secret, OsEnviron.setitem.
  destruct (_ || _); [discriminate|].
  destruct (existsb _ _); [discriminate|].
  destruct (EnvSecretVault._name_to_env name); [discriminate|].
  now intros [= <-].
Qed.

Lemma alias_same_variable name other :
  alias name other = true ->
  EnvSecretVault._name_to_env other = EnvSecretVault._name_to_env name.
Proof.
  revert other. induction name as [|c name IH]; intros [|d other]; simpl;
    try discriminate; [reflexivity|].
  rewrite andb_true_iff. intros [Hc Hrest].
  rewrite !name_to_env_cons, (IH _ Hrest). f_equal.
  unfold alias_char in Hc. apply orb_true_iff in Hc.
  destruct Hc as [Hc|Hc].
  - apply Ascii.eqb_eq in Hc.
    now rewrite <- (env_code_lower d), <- Hc, env_code_lower.
  - apply andb_true_iff in Hc. destruct Hc as [Hc Hd].
    now rewrite (env_code_separator _ Hc), (env_code_separator _ Hd).
Qed.

(** X10.  A secret put under a usable name (not empty, without [=] and
    NUL) is read back under that name, and the secrets whose variable name
    is another one read as before. *)
Theorem env_vault_put_get env name value description :
  name <> "" ->
  PyStr.mem "="%char name = false ->
  PyStr.mem OsEnviron.NUL name = false ->
  PyStr.mem OsEnviron.NUL value = false ->
  exists env',
    EnvSecretVault.put_secret env name value description = Return env'
    /\ EnvSecretVault.get_secret env' name = Return value
    /\ forall other,
         EnvSecretVault._name_to_env other <> EnvSecretVault._name_to_env name ->
         EnvSecretVault.get_secret env' other
         = EnvSecretVault.get_secret env other.
Proof.
  intros Hne Heq Hnul Hval.
  eexists. split; [now apply put_secret_returns|]. split.
  - unfold EnvSecretVault.get_secret, OsEnviron.get.
    now rewrite lookup_insert_eq.
  - intros other Hother. unfold EnvSecretVault.get_secret, OsEnviron.get.
    now rewrite lookup_insert_ne by congruence.
Qed.

(** X11.  Secret names that differ only in the case of their letters or in
    which of [/], [-] and [_] separates their parts are one secret: they
    name the same variable, what is put under a name is read under each
    such alias, and deleting it under the alias deletes it under the
    name. *)
Theorem env_vault_aliases env name other value description env' :
  alias name other = true ->
  EnvSecretVault.put_secret env name value description = Return env' ->
  EnvSecretVault._name_to_env other = EnvSecretVault._name_to_env name
  /\ EnvSecretVault.get_secret env' other = Return value
  /\ exists msg,
       EnvSecretVault.get_secret (EnvSecretVault.delete_secret env' other) name
       = Throw (KeyError msg).
Proof.
  intros Halias Hput.
  pose proof (alias_same_variable _ _ Halias) as Hsame.
  apply put_secret_inv in Hput. subst env'.
  split; [exact Hsame|]. split.
  - unfold EnvSecretVault.get_secret, OsEnviron.get.
    now rewrite Hsame, lookup_insert_eq.
  - unfold EnvSecretVault.get_secret, EnvSecretVault.delete_secret,
      OsEnviron.get, OsEnviron.pop.
    rewrite Hsame, lookup_delete_eq. eexists. reflexivity.
Qed.

(** X12.  After [delete_secret] the secret is not found under its name;
    the secrets of other variable names read as before, and deleting a
    secret that is not there leaves the environment as it was. *)
Theorem env_vault_delete env name :
  (exists msg,
     EnvSecretVault.get_secret (EnvSecretVault.delete_secret env name) name
     = Throw (KeyError msg))
  /\ (forall other,
        EnvSecretVault._name_to_env other <> EnvSecretVault._name_to_env name ->
        EnvSecretVault.get_secret (EnvSecretVault.delete_secret env name) other
        = EnvSecretVault.get_secret env other)
  /\ ((exists msg, EnvSecretVault.get_secret env name = Throw (KeyError msg)) ->
      EnvSecretVault.delete_secret env name = env).
Proof.
  unfold EnvSecretVault.get_secret, EnvSecretVault.delete_secret,
    OsEnviron.get, OsEnviron.pop.
  split; [|split].
  - rewrite lookup_delete_eq. eexists. reflexivity.
  - intros other Hother. now rewrite lookup_delete_ne by congruence.
  - intros [msg H].
    destruct (env !! EnvSecretVault._name_to_env name) eqn:E; [discriminate|].
    now apply delete_id.
Qed.

End EnvVault.

Lemma env_vault_put_get_witness :
  exists env',
    EnvSecretVault.put_secret ∅ "jarvis/dev/jwt" "s3cr3t" None = Return env'
    /\ EnvSecretVault.get_secret env' "jarvis/dev/jwt" = Return "s3cr3t"
    /\ forall other,
         EnvSecretVault._name_to_env other
         <> EnvSecretVault._name_to_env "jarvis/dev/jwt" ->
         EnvSecretVault.get_secret env' other
         = EnvSecretVault.get_secret ∅ other.
Proof.
  apply (env_vault_put_get ∅ "jarvis/dev/jwt" "s3cr3t" None);
    try reflexivity.
  discriminate.
Defined.

Lemma env_vault_aliases_witness :
  EnvSecretVault._name_to_env "JARVIS-Dev_jwt"
  = EnvSecretVault._name_to_env "jarvis/dev/jwt"
  /\ EnvSecretVault.get_secret
       (<[PyText.of_string "JARVIS_DEV_JWT" := "s3cr3t"]> ∅) "JARVIS-Dev_jwt"
     = Return "s3cr3t"
  /\ exists msg,
       EnvSecretVault.get_secret
         (EnvSecretVault.delete_secret
            (<[PyText.of_string "JARVIS_DEV_JWT" := "s3cr3t"]> ∅)
            "JARVIS-Dev_jwt") "jarvis/dev/jwt"
       = Throw (KeyError msg).
Proof.
  apply (env_vault_aliases ∅ "jarvis/dev/jwt" "JARVIS-Dev_jwt" "s3cr3t" None).
  - reflexivity.
  - reflexivity.
Defined.

(** * Tokens and the authentication dependencies *)

Section TokenProperties.

Context `{Collaborators}.

Lemma access_token_is_no_refresh_token_h token now payload :
  Security.verify_access_token token now = Return payload ->
  Security.verify_refresh_token token now
  = Throw (InvalidTokenError "Token is not a refresh token").
Proof.
  unfold Security.verify_access_token, Security.verify_refresh_token, obind.
  destruct (Security.decode_token token now) as [p|e]; [|discriminate].
  unfold Security.get_is_not.
  destruct (p !! "type") as [[| | |s| |]|] eqn:E; try discriminate.
  destruct (String.eqb s "access") eqn:Es; [|discriminate].
  apply String.eqb_eq in Es. subst s. simpl. now intros [= <-].
Qed.

(** X13.  A token that [verify_access_token] accepts carries the type
    ["access"] and is refused by [verify_refresh_token]: an access token
    cannot be used to refresh. *)
Theorem access_token_is_no_refresh_token token now payload :
  Security.verify_access_token token now = Return payload ->
  payload !! "type" = Some (JStr "access")
  /\ Security.decode_token token now = Return payload
  /\ Security.verify_refresh_token token now
     = Throw (InvalidTokenError "Token is not a refresh token").
Proof.
  unfold Security.verify_access_token, Security.verify_refresh_token, obind.
  destruct (Security.decode_token token now) as [p|e]; [|discriminate].
  unfold Security.get_is_not.
  destruct (p !! "type") as [[| | |s| |]|] eqn:E; try discriminate.
  destruct (String.eqb s "access") eqn:Es; [|discriminate].
  apply String.eqb_eq in Es. subst s. simpl. intros [= <-]. auto.
Qed.

(** A token that [verify_refresh_token] accepts is refused as an access
    token. *)
Lemma refresh_token_is_no_access_token token now payload :
  Security.verify_refresh_token token now = Return payload ->
  payload !! "type" = Some (JStr "refresh")
  /\ Security.decode_token token now = Return payload
  /\ Security.verify_access_token token now
     = Throw (InvalidTokenError "Token is not an access token").
Proof.
  unfold Security.verify_access_token, Security.verify_refresh_token, obind.
  destruct (Security.decode_token token now) as [p|e]; [|discriminate].
  unfold Security.get_is_not.
  destruct (p !! "type") as [[| | |s| |]|] eqn:E; try discriminate.
  destruct (String.eqb s "refresh") eqn:Es; [|discriminate].
  apply String.eqb_eq in Es. subst s. simpl. intros [= <-]. auto.
Qed.

(** X14.  The payload that [create_access_token] encodes has the type
    ["access"] and its own expiry whatever [data] holds under these keys,
    keeps the other keys of [data], and expires after the configured
    minutes when no [expires_delta] is given or a zero one.  If the JWT
    library decodes the token to a payload with the type claim it was
    given, the token verifies as an access token and not as a refresh
    token. *)
Theorem create_access_token_verifies data expires_delta now now' payload :
  jwt_decode (jwt_encode (Security.access_claims data expires_delta now)) now'
  = Return payload ->
  payload !! "type"
  = Security.access_claims data expires_delta now !! "type" ->
  Security.verify_access_token
    (Security.create_access_token data expires_delta now) now'
  = Return payload
  /\ Security.verify_refresh_token
       (Security.create_access_token data expires_delta now) now'
     = Throw (InvalidTokenError "Token is not a refresh token")
  /\ Security.access_claims data expires_delta now !! "type"
     = Some (JStr "access")
  /\ (forall k, k <> "type" -> k <> "exp" ->
        Security.access_claims data expires_delta now !! k = data !! k)
  /\ (expires_delta = None \/ expires_delta = Some 0%Z ->
      Security.access_claims data expires_delta now !! "exp"
      = Some (JInt (now + jwt_access_token_expire_minutes get_settings
                            * 60000000)))
  /\ (forall delta, expires_delta = Some delta -> delta <> 0%Z ->
      Security.access_claims data expires_delta now !! "exp"
      = Some (JInt (now + delta))).
Proof.
  intros Hcodec Hsame.
  assert (Htype : Security.access_claims data expires_delta now !! "type"
                  = Some (JStr "access")).
  { unfold Security.access_claims. apply lookup_insert_eq. }
  rewrite Htype in Hsame.
  assert (Hacc : Security.verify_access_token
                   (Security.create_access_token data expires_delta now) now'
                 = Return payload).
  { unfold Security.verify_access_token, Security.create_access_token,
      Security.decode_token, obind, Security.get_is_not.
    rewrite Hcodec, Hsame. reflexivity. }
  split; [exact Hacc|].
  split; [now apply access_token_is_no_refresh_token_h in Hacc|].
  split; [exact Htype|]. split; [|split].
  - intros k Ht He. unfold Security.access_claims.
    now rewrite !lookup_insert_ne by congruence.
  - intros Hd. unfold Security.access_claims, Security.timedelta_minutes.
    rewrite lookup_insert_ne by discriminate. rewrite lookup_insert_eq.
    destruct Hd as [-> | ->]; reflexivity.
  - intros delta -> Hne. unfold Security.access_claims.
    rewrite lookup_insert_ne by discriminate. rewrite lookup_insert_eq.
    apply Z.eqb_neq in Hne. now rewrite Hne.
Qed.

End TokenProperties.

Lemma access_token_is_no_refresh_token_witness :
  Toy.access_payload !! "type" = Some (JStr "access")
  /\ @Security.decode_token Toy.one_access_token "token" 5
     = Return Toy.access_payload
  /\ @Security.verify_refresh_token Toy.one_access_token "token" 5
     = Throw (InvalidTokenError "Token is not a refresh token").
Proof.
  apply (@access_token_is_no_refresh_token Toy.one_access_token "token" 5).
  reflexivity.
Defined.

Lemma create_access_token_verifies_witness :
  @Security.verify_access_token Toy.one_access_token
    (@Security.create_access_token Toy.one_access_token Toy.token_data None 0) 5
  = Return Toy.access_payload
  /\ Toy.token_data !! "type" = Some (JStr "refresh").
Proof.
  destruct (@create_access_token_verifies Toy.one_access_token Toy.token_data
              None 0%Z 5%Z Toy.access_payload) as (H1 & _).
  - reflexivity.
  - reflexivity.
  - split; [exact H1|reflexivity].
Defined.

Section DependencyProperties.

Context `{Collaborators}.

Lemma scalar_one_or_none_Some {A} (rows : list A) (row : A) :
  UsersTable.scalar_one_or_none rows = Return (Some row) -> rows = [row].
Proof.
  destruct rows as [|a [|b rows]]; simpl; intros [=]. now subst.
Qed.

Lemma scalar_one_or_none_None {A} (rows : list A) :
  UsersTable.scalar_one_or_none rows = Return None -> rows = [].
Proof.
  destruct rows as [|a [|b rows]]; simpl; intros [=]. reflexivity.
Qed.

Lemma scalar_one_or_none_In {A} (rows : list A) (row : A) :
  UsersTable.scalar_one_or_none rows = Return (Some row) -> In row rows.
Proof.
  intros Hs. apply scalar_one_or_none_Some in Hs. subst. now left.
Qed.

Lemma sub_uuid_Return payload user_id :
  Deps.sub_uuid payload = Return user_id ->
  exists s, payload !! "sub" = Some (JStr s) /\ PyUUID.UUID s = Some user_id.
Proof.
  unfold Deps.sub_uuid.
  destruct (payload !! "sub") as [[| | |s| |]|]; try discriminate.
  destruct (PyUUID.UUID s) as [u|] eqn:E; [|discriminate].
  intros [= <-]. now exists s.
Qed.

Lemma authenticate_inv token now users var r var' :
  Deps.authenticate token now users var = (r, var') ->
  match r with
  | Return (Some user) =>
      In user users
      /\ UserModel.is_active user = true
      /\ (exists payload s,
            Security.verify_access_token token now = Return payload
            /\ payload !! "sub" = Some (JStr s)
            /\ PyUUID.UUID s = Some (UserModel.id user))
      /\ exists ctx, var = Some ctx /\ var' = Some (Deps.with_user ctx user)
  | _ => var' = var
  end.
Proof.
  unfold Deps.authenticate.
  destruct (Security.verify_access_token token now) as [payload|e] eqn:Ev;
    [|now intros [= <- <-]].
  destruct (Deps.sub_uuid payload) as [user_id|e] eqn:Es;
    [|now intros [= <- <-]].
  destruct (UsersTable.scalar_one_or_none _) as [[user|]|e] eqn:Eq;
    [|now intros [= <- <-]|now intros [= <- <-]].
  apply scalar_one_or_none_In in Eq.
  apply List.filter_In in Eq. destruct Eq as [Hin Hp].
  apply andb_true_iff in Hp. destruct Hp as [Hid Hact].
  apply N.eqb_eq in Hid. apply Bool.eqb_prop in Hact.
  destruct var as [ctx|]; simpl; [|now intros [= <- <-]].
  intros [= <- <-]. split; [exact Hin|]. split; [exact Hact|]. split.
  - apply sub_uuid_Return in Es. destruct Es as (s & Hs & Hu).
    exists payload, s. now rewrite Hid.
  - now exists ctx.
Qed.

(** What [get_current_user_optional] gives, and what it does to the context. *)
Lemma get_current_user_optional_inv creds now users var r var' :
  Deps.get_current_user_optional creds now users var = (r, var') ->
  match r with
  | Return (Some user) =>
      In user users
      /\ UserModel.is_active user = true
      /\ (exists c payload s,
            creds = Some c
            /\ Security.verify_access_token (Deps.credentials c) now
               = Return payload
            /\ payload !! "sub" = Some (JStr s)
            /\ PyUUID.UUID s = Some (UserModel.id user))
      /\ exists ctx ctx',
           var = Some ctx /\ var' = Some ctx'
           /\ Context.tenant_id ctx'
              = PyUUID.uuid_str (UserModel.tenant_id user)
           /\ Context.user_id ctx'
              = Some (PyUUID.uuid_str (UserModel.id user))
           /\ Context.user_email ctx' = Some (UserModel.email user)
           /\ Context.user_roles ctx' = UserModel.roles user
           /\ Context.request_id ctx' = Context.request_id ctx
           /\ Context.session_id ctx' = Context.session_id ctx
           /\ Context.client_ip ctx' = Context.client_ip ctx
           /\ Context.user_agent ctx' = Context.user_agent ctx
  | _ => var' = var
  end.
Proof.
  unfold Deps.get_current_user_optional.
  destruct creds as [c|]; [|now intros [= <- <-]].
  destruct (Deps.authenticate (Deps.credentials c) now users var)
    as [r0 var0] eqn:Ea.
  apply authenticate_inv in Ea.
  destruct r0 as [[user|]|e].
  - intros [= <- <-].
    destruct Ea as (Hin & Hact & (payload & s & Hv & Hs & Hu) & ctx & Hc & Hc').
    split; [exact Hin|]. split; [exact Hact|]. split.
    + now exists c, payload, s.
    + exists ctx, (Deps.with_user ctx user). now repeat split.
  - now intros [= <- <-].
  - destruct (Deps.caught e); now intros [= <- <-].
Qed.

(** X15.  [get_current_user_optional] gives a user only for credentials
    whose token verifies as an access token and whose [sub] is the id of
    that user, an active row of the table; the context of the request then
    names this user and the user's tenant, whatever tenant the request's
    header named, its other fields being kept.  In every other case,
    failures included, the context is left as it was. *)
Theorem get_current_user_optional_sound creds now users var r var' :
  Deps.get_current_user_optional creds now users var = (r, var') ->
  match r with
  | Return (Some user) =>
      In user users
      /\ UserModel.is_active user = true
      /\ (exists c payload s,
            creds = Some c
            /\ Security.verify_access_token (Deps.credentials c) now
               = Return payload
            /\ payload !! "sub" = Some (JStr s)
            /\ PyUUID.UUID s = Some (UserModel.id user))
      /\ exists ctx ctx',
           var = Some ctx /\ var' = Some ctx'
           /\ Context.tenant_id ctx'
              = PyUUID.uuid_str (UserModel.tenant_id user)
           /\ Context.user_id ctx'
              = Some (PyUUID.uuid_str (UserModel.id user))
           /\ Context.user_email ctx' = Some (UserModel.email user)
           /\ Context.user_roles ctx' = UserModel.roles user
           /\ Context.request_id ctx' = Context.request_id ctx
           /\ Context.session_id ctx' = Context.session_id ctx
           /\ Context.client_ip ctx' = Context.client_ip ctx
           /\ Context.user_agent ctx' = Context.user_agent ctx
  | _ => var' = var
  end.
Proof. apply get_current_user_optional_inv. Qed.

Lemma get_current_user_optional_active creds now users var user var' :
  Deps.get_current_user_optional creds now users var
  = (Return (Some user), var') ->
  In user users /\ UserModel.is_active user = true.
Proof.
  intros Hg. apply get_current_user_optional_inv in Hg. tauto.
Qed.

(** The dependency [AdminUser], by what the credentials authenticate. *)
Lemma AdminUser_cases creds now users var :
  match Deps.get_current_user_optional creds now users var with
  | (Return (Some user), var') =>
      In user users
      /\ UserModel.is_active user = true
      /\ Deps.AdminUser creds now users var
         = (if existsb (String.eqb "admin") (UserModel.roles user)
            then Return user
            else Throw (HTTPException 403 "Admin access required"), var')
  | (Return None, var') =>
      var' = var
      /\ Deps.AdminUser creds now users var
         = (Throw (HTTPException 401 "Not authenticated"), var)
  | (Throw e, var') =>
      var' = var
      /\ Deps.caught e = false
      /\ Deps.AdminUser creds now users var = (Throw e, var)
  end.
Proof.
  unfold Deps.AdminUser, Deps.CurrentActiveUser.
  destruct (Deps.get_current_user_optional creds now users var)
    as [[[user|]|e] var0] eqn:Eg.
  - apply get_current_user_optional_active in Eg. destruct Eg as [Hin Hact].
    split; [exact Hin|]. split; [exact Hact|].
    simpl. unfold Deps.get_current_active_user. rewrite Hact. simpl.
    unfold Deps.require_admin, UserModel.is_admin, UserModel.has_role.
    now destruct (existsb _ _).
  - apply get_current_user_optional_inv in Eg. now subst.
  - pose proof Eg as Hs. apply get_current_user_optional_inv in Hs. subst.
    split; [reflexivity|]. split; [|reflexivity].
    unfold Deps.get_current_user_optional in Eg.
    destruct creds as [c|]; [|discriminate].
    destruct (Deps.authenticate (Deps.credentials c) now users var)
      as [[?|e0] ?]; [discriminate|].
    destruct (Deps.caught e0) eqn:Ec; [discriminate|]. now injection Eg as -> _.
Qed.

(** X16.  What the dependency [AdminUser] gives, by what the credentials
    authenticate: an authenticated user, who is an active row of the table,
    is returned when the roles hold ["admin"] and refused with 403 "Admin
    access required" otherwise; without an authenticated user the answer is
    401 "Not authenticated".  The 403 "User account is inactive" of
    [get_current_active_user] is never given: an inactive user is not
    authenticated in the first place. *)
Theorem AdminUser_guard creds now users var :
  match Deps.get_current_user_optional creds now users var with
  | (Return (Some user), var') =>
      In user users
      /\ UserModel.is_active user = true
      /\ Deps.AdminUser creds now users var
         = (if existsb (String.eqb "admin") (UserModel.roles user)
            then Return user
            else Throw (HTTPException 403 "Admin access required"), var')
  | (Return None, var') =>
      var' = var
      /\ Deps.AdminUser creds now users var
         = (Throw (HTTPException 401 "Not authenticated"), var)
  | (Throw e, var') =>
      var' = var
      /\ Deps.caught e = false
      /\ Deps.AdminUser creds now users var = (Throw e, var)
  end.
Proof. apply AdminUser_cases. Qed.

Lemma AdminUser_Return creds now users var admin var' :
  Deps.AdminUser creds now users var = (Return admin, var') ->
  In admin users
  /\ UserModel.is_active admin = true
  /\ UserModel.is_admin admin = true.
Proof.
  pose proof (AdminUser_cases creds now users var) as Hg.
  destruct (Deps.get_current_user_optional creds now users var)
    as [[[user|]|e] var0].
  - destruct Hg as (Hin & Hact & ->).
    unfold UserModel.is_admin, UserModel.has_role.
    destruct (existsb _ _) eqn:E; intros [= <- <-]; auto.
  - destruct Hg as (_ & ->). discriminate.
  - destruct Hg as (_ & _ & ->). discriminate.
Qed.

End DependencyProperties.

Lemma get_current_user_optional_sound_witness :
  match Return (Some Toy.alice) with
  | Return (Some user) =>
      In user Toy.users
      /\ UserModel.is_active user = true
      /\ (exists c payload s,
            Some Toy.bearer = Some c
            /\ @Security.verify_access_token Toy.one_access_token
                 (Deps.credentials c) 5
               = Return payload
            /\ payload !! "sub" = Some (JStr s)
            /\ PyUUID.UUID s = Some (UserModel.id user))
      /\ exists ctx ctx',
           Some Samples.ctx_anonymous = Some ctx
           /\ Some (Deps.with_user Samples.ctx_anonymous Toy.alice) = Some ctx'
           /\ Context.tenant_id ctx'
              = PyUUID.uuid_str (UserModel.tenant_id user)
           /\ Context.user_id ctx'
              = Some (PyUUID.uuid_str (UserModel.id user))
           /\ Context.user_email ctx' = Some (UserModel.email user)
           /\ Context.user_roles ctx' = UserModel.roles user
           /\ Context.request_id ctx' = Context.request_id ctx
           /\ Context.session_id ctx' = Context.session_id ctx
           /\ Context.client_ip ctx' = Context.client_ip ctx
           /\ Context.user_agent ctx' = Context.user_agent ctx
  | _ => Some (Deps.with_user Samples.ctx_anonymous Toy.alice)
         = Some Samples.ctx_anonymous
  end.
Proof.
  apply (@get_current_user_optional_sound Toy.one_access_token
           (Some Toy.bearer) 5%Z Toy.users (Some Samples.ctx_anonymous)).
  vm_compute. reflexivity.
Defined.

(** * The table of users *)

Section UsersTableProperties.

Import UserModel.
Import UsersSpec.

Lemma NoDup_map_inj {A B} (f : A -> B) (l : list A) (a b : A) :
  List.NoDup (map f l) -> In a l -> In b l -> f a = f b -> a = b.
Proof.
  induction l as [|x l IH]; simpl; [tauto|].
  intros Hnd Ha Hb Hf. inversion Hnd as [|? ? Hx Hl]; subst.
  destruct Ha as [->|Ha], Hb as [->|Hb]; auto.
  - exfalso. apply Hx. rewrite Hf. now apply in_map.
  - exfalso. apply Hx. rewrite <- Hf. now apply in_map.
Qed.

Lemma filter_nil_iff {A} (p : A -> bool) (l : list A) :
  List.filter p l = [] <-> forall a, In a l -> p a = false.
Proof.
  induction l as [|x l IH]; simpl; [tauto|].
  destruct (p x) eqn:E; split.
  - discriminate.
  - intros Hall. specialize (Hall x (or_introl eq_refl)). congruence.
  - intros Hf a [<-|Ha]; [exact E|]. now apply IH.
  - intros Hall. apply IH. intros a Ha. apply Hall. now right.
Qed.

(** Under a key without duplicates a filter on the key of a row of the
    list finds that row alone. *)
Lemma filter_key_unique {A B} (f : A -> B) (p : A -> bool) (l : list A) (a : A) :
  List.NoDup (map f l) -> In a l -> p a = true ->
  (forall b, In b l -> p b = true -> f b = f a) ->
  List.filter p l = [a].
Proof.
  induction l as [|x l IH]; simpl; [tauto|].
  intros Hnd Ha Hp Hkey. inversion Hnd as [|? ? Hx Hl]; subst.
  destruct Ha as [->|Ha].
  - rewrite Hp. f_equal. apply filter_nil_iff. intros b Hb.
    destruct (p b) eqn:E; [|reflexivity].
    exfalso. apply Hx. rewrite <- (Hkey b (or_intror Hb) E). now apply in_map.
  - destruct (p x) eqn:E.
    + exfalso. apply Hx. rewrite (Hkey x (or_introl eq_refl) E).
      now apply in_map.
    + apply IH; auto.
Qed.

Lemma scalar_one_or_none_two {A} (rows : list A) :
  (2 <= length rows)%nat ->
  UsersTable.scalar_one_or_none rows = Throw MultipleResultsFound.
Proof.
  destruct rows as [|a [|b rows]]; simpl; intros; try lia. reflexivity.
Qed.

Lemma varchar_short n s s' :
  UsersTable.varchar n s = Return s' ->
  (String.length s <= n)%nat -> s' = s.
Proof.
  unfold UsersTable.varchar. intros Hv Hlen.
  destruct (PyStr.mem OsEnviron.NUL s); [discriminate|].
  apply Nat.leb_le in Hlen. rewrite Hlen in Hv. now injection Hv.
Qed.

Lemma same_key_spec a b :
  UsersTable.same_key a b = true <-> tenant_email a = tenant_email b.
Proof.
  unfold UsersTable.same_key, tenant_email. rewrite andb_true_iff.
  rewrite N.eqb_eq, String.eqb_eq. split; [intros [-> ->]|intros [= -> ->]]; auto.
Qed.

Lemma existsb_false_In {A} (p : A -> bool) (l : list A) :
  existsb p l = false -> forall a, In a l -> p a = false.
Proof.
  intros He a Ha. destruct (p a) eqn:E; [|reflexivity].
  assert (existsb p l = true) by (apply existsb_exists; eauto). congruence.
Qed.

Lemma stored_fields u u' :
  UsersTable.stored u = Return u' ->
  id u' = id u /\ tenant_id u' = tenant_id u /\ roles u' = roles u
  /\ is_active u' = is_active u /\ is_verified u' = is_verified u
  /\ last_login_at u' = last_login_at u
  /\ created_at u' = created_at u /\ updated_at u' = updated_at u
  /\ UsersTable.varchar 255 (email u) = Return (email u')
  /\ UsersTable.varchar 255 (hashed_password u) = Return (hashed_password u').
Proof.
  unfold UsersTable.stored, obind.
  destruct (UsersTable.varchar 255 (email u)) as [e|]; [|discriminate].
  destruct (UsersTable.varchar 255 (hashed_password u)) as [h|]; [|discriminate].
  destruct (UsersTable.varchar_opt 255 (full_name u)) as [n|]; [|discriminate].
  intros [= <-]. simpl. now repeat split.
Qed.

(** An INSERT that succeeds appends one row, the stored form of the given
    one, and keeps the primary key and the unique index. *)
Lemma insert_inv users u users' :
  UsersTable.insert users u = Return users' ->
  exists row,
    UsersTable.stored u = Return row
    /\ users' = users ++ [row]
    /\ (primary_key users -> primary_key users')
    /\ (unique_index users -> unique_index users').
Proof.
  unfold UsersTable.insert, obind.
  destruct (UsersTable.stored u) as [row|] eqn:Es; [|discriminate].
  destruct (existsb _ users) eqn:Epk; [discriminate|].
  destruct (existsb (UsersTable.same_key row) users) eqn:Euq; [discriminate|].
  intros [= <-]. exists row. split; [reflexivity|]. split; [reflexivity|].
  unfold primary_key, unique_index.
  split; intros Hnd; rewrite map_app; simpl.
  - apply List.NoDup_app; [exact Hnd| |].
    + constructor; [simpl; tauto|constructor].
    + intros a Ha [Hb|[]]. apply in_map_iff in Ha.
      destruct Ha as (r & Hr & Hin).
      pose proof (existsb_false_In _ _ Epk r Hin) as Hf. simpl in Hf.
      apply N.eqb_neq in Hf. congruence.
  - apply List.NoDup_app; [exact Hnd| |].
    + constructor; [simpl; tauto|constructor].
    + intros a Ha [Hb|[]]. apply in_map_iff in Ha.
      destruct Ha as (r & Hr & Hin).
      pose proof (existsb_false_In _ _ Euq r Hin) as Hf.
      assert (UsersTable.same_key row r = true) by (apply same_key_spec; congruence).
      congruence.
Qed.

Lemma primary_key_inj users a b :
  primary_key users -> In a users -> In b users -> id a = id b -> a = b.
Proof. apply NoDup_map_inj. Qed.

Lemma same_identity_refl u : same_identity u u.
Proof. now repeat split. Qed.

Lemma Forall2_same {A} (P : A -> A -> Prop) (l : list A) :
  (forall a, In a l -> P a a) -> Forall2 P l l.
Proof.
  induction l as [|x l IH]; intros Hall; constructor.
  - apply Hall. now left.
  - apply IH. intros a Ha. apply Hall. now right.
Qed.

Lemma Forall2_map_right {A} (P : A -> A -> Prop) (f : A -> A) (l : list A) :
  (forall a, In a l -> P a (f a)) -> Forall2 P l (map f l).
Proof.
  induction l as [|x l IH]; intros Hall; simpl; constructor.
  - apply Hall. now left.
  - apply IH. intros a Ha. apply Hall. now right.
Qed.

Lemma set_varchar_inv old new s :
  UsersTable.set_varchar old new = Return s ->
  s = old \/ UsersTable.varchar 255 new = Return s.
Proof.
  unfold UsersTable.set_varchar. destruct (String.eqb old new).
  - intros [= <-]. now left.
  - now right.
Qed.

(** What a commit after assignments does to the table: it puts [row] in
    the place of the row of the id of [old], or changes nothing; the
    columns that no handler assigns stay. *)
Lemma update_inv users old new db_now users' :
  UsersTable.update users old new db_now = Return users' ->
  exists row,
    (users' = users
     \/ users' = map (fun r => if (id r =? id old)%N then row else r) users)
    /\ same_identity old row
    /\ is_active row = is_active new
    /\ last_login_at row = last_login_at new
    /\ UsersTable.set_varchar (email old) (email new) = Return (email row)
    /\ UsersTable.set_varchar (hashed_password old) (hashed_password new)
       = Return (hashed_password row).
Proof.
  unfold UsersTable.update, obind.
  destruct (negb (UsersTable.changed old new)) eqn:Ec.
  - intros [= <-]. exists old.
    apply negb_true_iff in Ec. unfold UsersTable.changed in Ec.
    apply negb_false_iff in Ec. rewrite !andb_true_iff in Ec.
    destruct Ec as ((((He & Hh) & _) & Hact) & Hlast).
    apply Bool.eqb_prop in Hact. apply bool_decide_eq_true in Hlast.
    unfold UsersTable.set_varchar. rewrite He, Hh.
    split; [now left|]. split; [apply same_identity_refl|]. auto.
  - destruct (UsersTable.set_varchar (email old) (email new)) as [e|] eqn:Ee;
      [|discriminate].
    destruct (UsersTable.set_varchar (hashed_password old) (hashed_password new))
      as [h|] eqn:Eh; [|discriminate].
    destruct (UsersTable.set_varchar_opt _ _) as [n|]; [|discriminate].
    cbn [id]. destruct (_ && _); [discriminate|].
    destruct (negb (existsb _ users)); [discriminate|].
    intros [= <-]. eexists. split; [right; reflexivity|].
    simpl. repeat split; auto.
Qed.

Lemma update_rows users old new db_now users' :
  primary_key users -> In old users ->
  UsersTable.update users old new db_now = Return users' ->
  exists row,
    Forall2 (fun r r' => r' = r \/ (r = old /\ r' = row)) users users'
    /\ same_identity old row
    /\ is_active row = is_active new
    /\ last_login_at row = last_login_at new
    /\ UsersTable.set_varchar (email old) (email new) = Return (email row)
    /\ UsersTable.set_varchar (hashed_password old) (hashed_password new)
       = Return (hashed_password row).
Proof.
  intros Hpk Hin Hu. apply update_inv in Hu.
  destruct Hu as (row & Hus & Hrest). exists row. split; [|exact Hrest].
  destruct Hus as [->| ->].
  - apply Forall2_same. intros a _. now left.
  - apply Forall2_map_right. intros a Ha.
    destruct (id a =? id old)%N eqn:E; [|now left].
    apply N.eqb_eq in E. right. split; [|reflexivity].
    now apply (primary_key_inj users).
Qed.

Lemma Forall2_impl_In {A B} (P Q : A -> B -> Prop) (l : list A) (l' : list B) :
  Forall2 P l l' -> (forall a b, In a l -> P a b -> Q a b) -> Forall2 Q l l'.
Proof.
  induction 1; intros Himp; constructor.
  - apply Himp; [now left|assumption].
  - apply IHForall2. intros a b Ha. apply Himp. now right.
Qed.

Lemma Forall2_map_eq {A B} (P : A -> A -> Prop) (f : A -> B) (l l' : list A) :
  Forall2 P l l' -> (forall a b, P a b -> f b = f a) -> map f l' = map f l.
Proof.
  induction 1; intros Hf; simpl; [reflexivity|].
  f_equal; auto.
Qed.

End UsersTableProperties.

(** * The users endpoints *)

Section UsersApiProperties.

Import UserModel.
Import UsersSpec.
Import Schemas.

Context `{Collaborators}.

Lemma omap_Forall2 {A B} (f : A -> outcome B) (l : list A) (bs : list B) :
  omap f l = Return bs -> Forall2 (fun a b => f a = Return b) l bs.
Proof.
  revert bs. induction l as [|a l IH]; simpl; intros bs.
  - intros [= <-]. constructor.
  - unfold obind. destruct (f a) as [b|] eqn:Ea; [|discriminate].
    destruct (omap f l) as [bs'|]; [|discriminate].
    intros [= <-]. constructor; auto.
Qed.

Lemma model_validate_fields user resp :
  model_validate user = Return resp ->
  UserResponse.id resp = id user
  /\ UserResponse.tenant_id resp = tenant_id user
  /\ UserResponse.roles resp = roles user
  /\ UserResponse.is_active resp = is_active user.
Proof.
  unfold model_validate, obind.
  destruct (validate_email (email user)); [|discriminate].
  intros [= <-]. now repeat split.
Qed.

Lemma Forall2_length_eq {A B} (P : A -> B -> Prop) l l' :
  Forall2 P l l' -> length l' = length l.
Proof. induction 1; simpl; congruence. Qed.

Lemma Forall2_right_In {A B} (P : A -> B -> Prop) l l' b :
  Forall2 P l l' -> In b l' -> exists a, In a l /\ P a b.
Proof.
  induction 1; simpl; [tauto|].
  intros [<-|Hb]; [eauto|].
  destruct (IHForall2 Hb) as (a & Ha & Hp). eauto.
Qed.

(** X17.  [list_users] answers only with users of the admin's tenant, each
    a row of the table, and with at most [limit] of them, in whatever order
    the database reads the table. *)
Theorem list_users_tenant_scoped admin skip limit scanned users result :
  Permutation scanned users ->
  UsersApi.list_users admin skip limit scanned = Return result ->
  (0 <= skip)%Z /\ (0 <= limit)%Z
  /\ (length result <= Z.to_nat limit)%nat
  /\ forall resp, In resp result ->
       UserResponse.tenant_id resp = tenant_id admin
       /\ exists u, In u users
                    /\ tenant_id u = tenant_id admin
                    /\ model_validate u = Return resp.
Proof.
  intros Hperm. unfold UsersApi.list_users.
  destruct (AuditLogger.bigint_ok skip && AuditLogger.bigint_ok limit) eqn:Eb;
    [|discriminate].
  simpl. intros Hm. apply omap_Forall2 in Hm.
  apply andb_true_iff in Eb. destruct Eb as [Hs Hl].
  unfold AuditLogger.bigint_ok in Hs, Hl.
  apply andb_true_iff in Hs, Hl.
  split; [lia|]. split; [lia|]. split.
  - rewrite (Forall2_length_eq _ _ _ Hm). rewrite length_firstn. lia.
  - intros resp Hin.
    destruct (Forall2_right_In _ _ _ _ Hm Hin) as (u & Hu & Hv).
    apply In_firstn, In_skipn in Hu. apply List.filter_In in Hu.
    destruct Hu as [Hu Ht]. apply N.eqb_eq in Ht.
    split.
    + apply model_validate_fields in Hv. destruct Hv as (_ & -> & _).
      exact Ht.
    + exists u. split; [|now split].
      now apply (Permutation_in _ Hperm).
Qed.

Lemma select_in_tenant_none user_id admin users :
  (forall u, In u users -> id u = user_id -> tenant_id u <> tenant_id admin) ->
  UsersApi.select_in_tenant user_id admin users = Return None.
Proof.
  intros Hno. unfold UsersApi.select_in_tenant.
  replace (List.filter _ users) with (@nil User); [reflexivity|].
  symmetry. apply filter_nil_iff. intros u Hu.
  apply andb_false_iff.
  destruct (id u =? user_id)%N eqn:E; [right|now left].
  apply N.eqb_eq in E. apply N.eqb_neq. now apply Hno.
Qed.

Lemma select_in_tenant_Some user_id admin users user :
  UsersApi.select_in_tenant user_id admin users = Return (Some user) ->
  In user users /\ id user = user_id /\ tenant_id user = tenant_id admin.
Proof.
  unfold UsersApi.select_in_tenant. intros Hs.
  apply scalar_one_or_none_In in Hs. apply List.filter_In in Hs.
  destruct Hs as [Hin Hp]. apply andb_true_iff in Hp.
  destruct Hp as [Hi Ht]. apply N.eqb_eq in Hi, Ht. auto.
Qed.

(** X18.  An admin reaches no user of another tenant: when no row of the
    admin's tenant has the id, [get_user], [update_user] and [delete_user]
    answer 404 "User not found" and leave the table as it was, although a
    row of this id may exist elsewhere. *)
Theorem other_tenant_user_not_found user_id update_data admin salt db_now users :
  (forall u, In u users -> id u = user_id -> tenant_id u <> tenant_id admin) ->
  UsersApi.get_user user_id admin users
  = Throw (HTTPException 404 "User not found")
  /\ UsersApi.update_user user_id update_data admin salt db_now users
     = (Throw (HTTPException 404 "User not found"), users)
  /\ UsersApi.delete_user user_id admin users
     = (Throw (HTTPException 404 "User not found"), users).
Proof.
  intros Hno. apply select_in_tenant_none in Hno.
  unfold UsersApi.get_user, UsersApi.update_user, UsersApi.delete_user.
  rewrite Hno. simpl. auto.
Qed.

(** X19.  [delete_user] removes exactly the rows of the given id, which is
    one of the admin's tenant and not the admin's own: the admin stays, and
    so does every user of another tenant.  When it raises, the table is as
    it was. *)
Theorem delete_user_effect user_id admin users r users' :
  primary_key users ->
  UsersApi.delete_user user_id admin users = (r, users') ->
  match r with
  | Return _ =>
      user_id <> id admin
      /\ (exists user, In user users /\ id user = user_id
                       /\ tenant_id user = tenant_id admin)
      /\ (forall u, In u users' <-> In u users /\ id u <> user_id)
      /\ (In admin users -> In admin users')
      /\ (forall u, In u users -> tenant_id u <> tenant_id admin ->
                    In u users')
  | Throw _ => users' = users
  end.
Proof.
  intros Hpk. unfold UsersApi.delete_user.
  destruct (UsersApi.select_in_tenant user_id admin users) as [[user|]|e] eqn:Es;
    [|now intros [= <- <-]|now intros [= <- <-]].
  apply select_in_tenant_Some in Es. destruct Es as (Hin & Hid & Hten).
  destruct (id user =? id admin)%N eqn:Ea; [now intros [= <- <-]|].
  intros [= <- <-]. apply N.eqb_neq in Ea.
  assert (Hdel : forall u, In u (UsersTable.delete users user)
                           <-> In u users /\ id u <> user_id).
  { intros u. unfold UsersTable.delete. rewrite List.filter_In, negb_true_iff.
    rewrite N.eqb_neq. now rewrite Hid. }
  split; [congruence|]. split; [now exists user|]. split; [exact Hdel|].
  split.
  - intros Ha. apply Hdel. split; [exact Ha|congruence].
  - intros u Hu Ht. apply Hdel. split; [exact Hu|].
    intros Heq. apply Ht. rewrite <- Hten.
    f_equal. apply (primary_key_inj users); auto. congruence.
Qed.

Lemma refresh_appended users row :
  existsb (fun r => (id r =? id row)%N) users = false ->
  UsersTable.refresh (users ++ [row]) row = Return row.
Proof.
  intros Hno. unfold UsersTable.refresh.
  replace (find _ (users ++ [row])) with (Some row); [reflexivity|].
  symmetry. induction users as [|a users IH]; simpl.
  - now rewrite N.eqb_refl.
  - simpl in Hno. apply orb_false_iff in Hno. destruct Hno as [Ha Hno].
    rewrite Ha. now apply IH.
Qed.

Lemma insert_refresh users u users' :
  UsersTable.insert users u = Return users' ->
  exists row,
    UsersTable.stored u = Return row
    /\ users' = users ++ [row]
    /\ UsersTable.refresh users' u = Return row.
Proof.
  intros Hi. pose proof Hi as Hi'. apply insert_inv in Hi'.
  destruct Hi' as (row & Hst & -> & _). exists row.
  split; [exact Hst|]. split; [reflexivity|].
  unfold UsersTable.insert, obind in Hi. rewrite Hst in Hi.
  destruct (existsb _ users) eqn:Epk; [discriminate|].
  apply stored_fields in Hst. destruct Hst as (Hid & _).
  unfold UsersTable.refresh. rewrite <- Hid.
  apply (refresh_appended users row Epk).
Qed.

(** X20.  [create_user] keeps the primary key and the unique index of the
    table and adds at most one row, of the admin's tenant, with the roles
    [["user"]], active and not verified; it answers only after adding that
    row, and refuses with 409 an email that a user of the admin's tenant
    has, leaving the table as it was. *)
Theorem create_user_effect user_data admin salt id_uuid4 db_now users r users' :
  primary_key users ->
  unique_index users ->
  UsersApi.create_user user_data admin salt id_uuid4 db_now users = (r, users') ->
  primary_key users'
  /\ unique_index users'
  /\ (users' = users
      \/ exists row,
           users' = users ++ [row]
           /\ id row = id_uuid4
           /\ tenant_id row = tenant_id admin
           /\ roles row = ["user"]
           /\ is_active row = true
           /\ is_verified row = false
           /\ UsersTable.varchar 255 (UserCreate.email user_data)
              = Return (email row)
           /\ (forall resp, r = Return resp -> model_validate row = Return resp))
  /\ (forall resp, r = Return resp -> users' <> users)
  /\ ((exists u, In u users /\ email u = UserCreate.email user_data
                 /\ tenant_id u = tenant_id admin) ->
      r = Throw (HTTPException 409 "Email already registered")
      /\ users' = users).
Proof.
  intros Hpk Huq. unfold UsersApi.create_user.
  destruct (UsersTable.scalar_one_or_none _) as [[found|]|e] eqn:Es.
  - intros [= <- <-]. split; [exact Hpk|]. split; [exact Huq|].
    split; [now left|]. split; [discriminate|]. auto.
  - apply scalar_one_or_none_None in Es.
    assert (Hfresh : (exists u, In u users
                                /\ email u = UserCreate.email user_data
                                /\ tenant_id u = tenant_id admin) -> False).
    { intros (u & Hu & He & Ht).
      pose proof (proj1 (filter_nil_iff _ _) Es u Hu) as Hf. simpl in Hf.
      rewrite He, Ht, String.eqb_refl, N.eqb_refl in Hf. discriminate. }
    destruct (Security.hash_password _ salt) as [hashed|e].
    + destruct (UsersTable.insert users _) as [users1|e] eqn:Ei.
      * intros [= <- <-].
        pose proof Ei as Hinv. apply insert_inv in Hinv.
        destruct Hinv as (row0 & _ & _ & Hpk' & Huq').
        apply insert_refresh in Ei. destruct Ei as (row & Hst & -> & Href).
        split; [auto|]. split; [auto|].
        apply stored_fields in Hst. simpl in Hst.
        destruct Hst as (Hid & Ht & Hr & Ha & Hv & _ & _ & _ & He & _).
        split; [|split].
        -- right. exists row. repeat split; auto.
           intros resp. rewrite Href. simpl. auto.
        -- intros resp _ Heq.
           apply (f_equal (@length User)) in Heq.
           rewrite length_app in Heq. simpl in Heq. lia.
        -- intros Hex. destruct (Hfresh Hex).
      * intros [= <- <-]. split; [exact Hpk|]. split; [exact Huq|].
        split; [now left|]. split; [discriminate|].
        intros Hex. destruct (Hfresh Hex).
    + intros [= <- <-]. split; [exact Hpk|]. split; [exact Huq|].
      split; [now left|]. split; [discriminate|].
      intros Hex. destruct (Hfresh Hex).
  - intros [= <- <-]. split; [exact Hpk|]. split; [exact Huq|].
    split; [now left|]. split; [discriminate|]. 
    intros (u & Hu & He & Ht). exfalso.
    assert (Hone : List.filter
                     (fun u0 => String.eqb (email u0) (UserCreate.email user_data)
                                && (tenant_id u0 =? tenant_id admin)%N) users
                   = [u]).
    { apply (filter_key_unique tenant_email); auto.
      - now rewrite He, Ht, String.eqb_refl, N.eqb_refl.
      - intros b _ Hb. apply andb_true_iff in Hb. destruct Hb as [Hbe Hbt].
        apply String.eqb_eq in Hbe. apply N.eqb_eq in Hbt.
        unfold tenant_email. congruence. }
    rewrite Hone in Es. discriminate.
Qed.

Lemma assign_profile_inv update_data user salt new :
  UsersApi.assign_profile update_data user salt = Return new ->
  same_identity user new
  /\ is_active new = is_active user
  /\ last_login_at new = last_login_at user.
Proof.
  unfold UsersApi.assign_profile, obind, same_identity.
  destruct (UserUpdate.email update_data), (UserUpdate.full_name update_data),
    (UserUpdate.password update_data) as [p|];
    try destruct (Security.hash_password p salt); try discriminate;
    intros [= <-]; simpl; now repeat split.
Qed.

Lemma assign_user_inv update_data user salt new :
  UsersApi.assign_user update_data user salt = Return new ->
  same_identity user new /\ last_login_at new = last_login_at user.
Proof.
  unfold UsersApi.assign_user, obind.
  destruct (UsersApi.assign_profile update_data user salt) as [u3|] eqn:Ea;
    [|discriminate].
  apply assign_profile_inv in Ea. destruct Ea as (Hs & _ & Hl).
  unfold same_identity in *.
  destruct (UserUpdate.is_active update_data); intros [= <-]; simpl; tauto.
Qed.

Lemma refresh_inv users u row :
  UsersTable.refresh users u = Return row -> In row users /\ id row = id u.
Proof.
  unfold UsersTable.refresh.
  destruct (find _ users) as [r|] eqn:Ef; [|discriminate].
  intros [= <-]. apply find_some in Ef. destruct Ef as [Hin Hid].
  apply N.eqb_eq in Hid. auto.
Qed.

(** The commit, the refresh and the response of the two handlers that
    update a row. *)
Lemma commit_refresh_inv users old new db_now r users' :
  primary_key users -> In old users ->
  UsersApi.commit_refresh users old new db_now = (r, users') ->
  Forall2 (fun u u' =>
             u' = u
             \/ (u = old /\ same_identity old u'
                 /\ is_active u' = is_active new
                 /\ last_login_at u' = last_login_at new))
    users users'
  /\ forall resp, r = Return resp ->
       exists row, In row users' /\ id row = id new
                   /\ model_validate row = Return resp.
Proof.
  intros Hpk Hin. unfold UsersApi.commit_refresh.
  destruct (UsersTable.update users old new db_now) as [users1|e] eqn:Eu.
  - intros [= <- <-]. apply update_rows in Eu; auto.
    destruct Eu as (row & HF & Hs & Ha & Hl & _). split.
    + apply (Forall2_impl_In _ _ _ _ HF). intros a b _ [->|[-> ->]]; auto.
    + intros resp. unfold obind.
      destruct (UsersTable.refresh users1 new) as [row'|] eqn:Er; [|discriminate].
      apply refresh_inv in Er. destruct Er as [Hr Hid].
      intros Hv. now exists row'.
  - intros [= <- <-]. split; [|discriminate].
    apply Forall2_same. intros a _. now left.
Qed.

(** X21.  [update_user] changes at most the row of the given id, a row of
    the admin's tenant, and of that row never the id, the tenant, the
    roles, the verification or the time of creation: every other row, and
    every row of another tenant, is afterwards what it was.  What it
    answers is the row of that id and of the admin's tenant. *)
Theorem update_user_keeps user_id update_data admin salt db_now users r users' :
  primary_key users ->
  UsersApi.update_user user_id update_data admin salt db_now users = (r, users') ->
  Forall2 (fun old new =>
             same_identity old new
             /\ last_login_at new = last_login_at old
             /\ (id old <> user_id -> new = old)
             /\ (tenant_id old <> tenant_id admin -> new = old))
    users users'
  /\ forall resp, r = Return resp ->
       UserResponse.id resp = user_id
       /\ UserResponse.tenant_id resp = tenant_id admin.
Proof.
  intros Hpk. unfold UsersApi.update_user.
  assert (Hsame : Forall2 (fun old new =>
                             same_identity old new
                             /\ last_login_at new = last_login_at old
                             /\ (id old <> user_id -> new = old)
                             /\ (tenant_id old <> tenant_id admin -> new = old))
                    users users).
  { apply Forall2_same. intros a _. split; [apply same_identity_refl|auto]. }
  destruct (UsersApi.select_in_tenant user_id admin users) as [[user|]|e] eqn:Es;
    [|intros [= <- <-]; split; [exact Hsame|discriminate]..].
  apply select_in_tenant_Some in Es. destruct Es as (Hin & Hid & Hten).
  match goal with
  | |- context [match ?t with Return _ => _ | Throw _ => _ end] =>
      destruct t as [[]|e]
  end; [|intros [= <- <-]; split; [exact Hsame|discriminate]].
  destruct (UsersApi.assign_user update_data user salt) as [new|e] eqn:Ea;
    [|intros [= <- <-]; split; [exact Hsame|discriminate]].
  apply assign_user_inv in Ea. destruct Ea as (Hident & Hlast).
  intros Hc. apply commit_refresh_inv in Hc; auto.
  destruct Hc as [HF Hresp].
  assert (HF' : Forall2 (fun old new0 =>
                           same_identity old new0
                           /\ last_login_at new0 = last_login_at old
                           /\ (id old <> user_id -> new0 = old)
                           /\ (tenant_id old <> tenant_id admin -> new0 = old))
                  users users').
  { apply (Forall2_impl_In _ _ _ _ HF).
    intros a b _ [->|(-> & Hs & _ & Hl)].
    - split; [apply same_identity_refl|auto].
    - split; [exact Hs|]. split; [congruence|]. split; congruence. }
  split; [exact HF'|].
  intros resp Hr. destruct (Hresp resp Hr) as (row & Hrow & Hrid & Hv).
  apply model_validate_fields in Hv. destruct Hv as (-> & -> & _).
  destruct Hident as (Hnid & _).
  split; [congruence|].
  destruct (Forall2_right_In _ _ _ _ HF' Hrow) as (a & Ha & (Hai & Hat & _) & _).
  assert (a = user) by (apply (primary_key_inj users); auto; congruence).
  subst a. congruence.
Qed.

(** X22.  [update_current_user_profile] changes at most the caller's own
    row, and of that row never the id, the tenant, the roles or whether it
    is active.  It refuses an email that another user has in any tenant,
    not only in the caller's, and then leaves the table as it was. *)
Theorem update_profile_own_row update_data user salt db_now users r users' :
  primary_key users ->
  In user users ->
  UsersApi.update_current_user_profile update_data user salt db_now users
  = (r, users') ->
  Forall2 (fun old new =>
             same_identity old new
             /\ is_active new = is_active old
             /\ last_login_at new = last_login_at old
             /\ (id old <> id user -> new = old))
    users users'
  /\ forall e other,
       UserUpdate.email update_data = Some e ->
       In other users -> email other = e -> id other <> id user ->
       users' = users
       /\ (r = Throw (HTTPException 409 "Email already in use")
           \/ r = Throw MultipleResultsFound).
Proof.
  intros Hpk Hin. unfold UsersApi.update_current_user_profile.
  assert (Hsame : Forall2 (fun old new =>
                             same_identity old new
                             /\ is_active new = is_active old
                             /\ last_login_at new = last_login_at old
                             /\ (id old <> id user -> new = old))
                    users users).
  { apply Forall2_same. intros a _. split; [apply same_identity_refl|auto]. }
  destruct (UserUpdate.email update_data) as [e|] eqn:Ee.
  - destruct (UsersTable.scalar_one_or_none _) as [[found|]|exc] eqn:Es; simpl.
    + intros [= <- <-]. split; [exact Hsame|]. auto.
    + apply scalar_one_or_none_None in Es.
      destruct (UsersApi.assign_profile update_data user salt) as [new|e0] eqn:Ea.
      * apply assign_profile_inv in Ea. destruct Ea as (Hident & Hact & Hlast).
        intros Hc. apply commit_refresh_inv in Hc; auto.
        destruct Hc as [HF _]. split.
        -- apply (Forall2_impl_In _ _ _ _ HF).
           intros a b _ [->|(-> & Hs & Ha & Hl)].
           ++ split; [apply same_identity_refl|auto].
           ++ split; [exact Hs|]. split; [congruence|]. split; congruence.
        -- intros e1 other [= <-] Ho Hoe Hoi. exfalso.
           pose proof (proj1 (filter_nil_iff _ _) Es other Ho) as Hf.
           simpl in Hf. rewrite Hoe, String.eqb_refl in Hf.
           apply N.eqb_neq in Hoi. rewrite Hoi in Hf. discriminate.
      * intros [= <- <-]. split; [exact Hsame|].
        intros e1 other [= <-] Ho Hoe Hoi. exfalso.
        pose proof (proj1 (filter_nil_iff _ _) Es other Ho) as Hf.
        simpl in Hf. rewrite Hoe, String.eqb_refl in Hf.
        apply N.eqb_neq in Hoi. rewrite Hoi in Hf. discriminate.
    + intros [= <- <-]. split; [exact Hsame|].
      intros e1 other _ _ _ _. split; [reflexivity|]. right.
      destruct (List.filter _ users) as [|a [|b l]]; try discriminate.
      simpl in Es. now injection Es as <-.
  - simpl.
    destruct (UsersApi.assign_profile update_data user salt) as [new|e0] eqn:Ea.
    + apply assign_profile_inv in Ea. destruct Ea as (Hident & Hact & Hlast).
      intros Hc. apply commit_refresh_inv in Hc; auto.
      destruct Hc as [HF _]. split; [|discriminate].
      apply (Forall2_impl_In _ _ _ _ HF).
      intros a b _ [->|(-> & Hs & Ha & Hl)].
      * split; [apply same_identity_refl|auto].
      * split; [exact Hs|]. split; [congruence|]. split; congruence.
    + intros [= <- <-]. split; [exact Hsame|discriminate].
Qed.

End UsersApiProperties.

(** * The authentication endpoints *)

Section AuthApiProperties.

Import UserModel.
Import UsersSpec.
Import Schemas.

Context `{Collaborators}.

Lemma filter_app_length {A} (p : A -> bool) (l : list A) (a b : A) :
  In a l -> p a = true -> p b = true ->
  (2 <= length (List.filter p (l ++ [b])))%nat.
Proof.
  intros Ha Hpa Hpb. rewrite List.filter_app, length_app. simpl.
  rewrite Hpb. simpl.
  assert (In a (List.filter p l)) as Hin by (apply List.filter_In; auto).
  destruct (List.filter p l); [destruct Hin|simpl; lia].
Qed.

(** X23.  An admin can create a user whose email a user of another tenant
    has: the unique index is on tenant and email.  From then on [login]
    with that email fails for every password with [MultipleResultsFound],
    which no handler catches, and changes nothing. *)
Theorem email_of_two_tenants_breaks_login
    user_data admin salt id_uuid4 db_now users resp users' other :
  In other users ->
  email other = UserCreate.email user_data ->
  (String.length (UserCreate.email user_data) <= 255)%nat ->
  UsersApi.create_user user_data admin salt id_uuid4 db_now users
  = (Return resp, users') ->
  tenant_id other <> tenant_id admin
  /\ forall password now db_now' now_access now_refresh,
       AuthApi.login
         {| LoginRequest.email := UserCreate.email user_data;
            LoginRequest.password := password |}
         now db_now' now_access now_refresh users'
       = (Throw MultipleResultsFound, users').
Proof.
  intros Hin Hemail Hlen. unfold UsersApi.create_user.
  destruct (UsersTable.scalar_one_or_none _) as [[found|]|e] eqn:Es;
    [discriminate| |discriminate].
  apply scalar_one_or_none_None in Es.
  pose proof (proj1 (filter_nil_iff _ _) Es other Hin) as Hf. simpl in Hf.
  rewrite Hemail, String.eqb_refl in Hf. simpl in Hf. apply N.eqb_neq in Hf.
  destruct (Security.hash_password _ salt) as [hashed|e]; [|discriminate].
  destruct (UsersTable.insert users _) as [users1|e] eqn:Ei; [|discriminate].
  apply insert_refresh in Ei. destruct Ei as (row & Hst & -> & Href).
  intros [= _ <-]. split; [exact Hf|].
  apply stored_fields in Hst. simpl in Hst.
  destruct Hst as (_ & _ & _ & _ & _ & _ & _ & _ & He & _).
  apply varchar_short in He; [|exact Hlen].
  intros password now db_now' now_access now_refresh.
  unfold AuthApi.login. cbn [LoginRequest.email].
  rewrite scalar_one_or_none_two; [reflexivity|].
  apply (filter_app_length _ users other row); auto.
  - rewrite Hemail. apply String.eqb_refl.
  - rewrite He. apply String.eqb_refl.
Qed.

Lemma tokens_ext (u u' : User) now_access now_refresh :
  id u' = id u -> tenant_id u' = tenant_id u -> email u' = email u ->
  roles u' = roles u ->
  AuthApi.tokens u' now_access now_refresh
  = AuthApi.tokens u now_access now_refresh.
Proof.
  intros Hi Ht He Hr. unfold AuthApi.tokens, AuthApi.token_data.
  now rewrite Hi, Ht, He, Hr.
Qed.

(** What [login] answers, and what it does to the table. *)
Lemma login_inv request now db_now now_access now_refresh users r users' :
  primary_key users ->
  AuthApi.login request now db_now now_access now_refresh users = (r, users') ->
  match r with
  | Return resp =>
      exists user,
        In user users
        /\ email user = LoginRequest.email request
        /\ (forall u, In u users -> email u = LoginRequest.email request ->
                      u = user)
        /\ is_active user = true
        /\ Security.verify_password (LoginRequest.password request)
             (hashed_password user) = Return true
        /\ resp = AuthApi.tokens user now_access now_refresh
        /\ Forall2 (fun old new =>
                      same_identity old new
                      /\ email new = email old
                      /\ hashed_password new = hashed_password old
                      /\ is_active new = is_active old
                      /\ (id old <> id user -> new = old))
             users users'
  | Throw _ => users' = users
  end.
Proof.
  intros Hpk. unfold AuthApi.login.
  destruct (UsersTable.scalar_one_or_none _) as [[user|]|e] eqn:Es;
    [|now intros [= <- <-]..].
  apply scalar_one_or_none_Some in Es.
  assert (Hin : In user users /\ email user = LoginRequest.email request).
  { assert (Hi : In user (List.filter
                (fun u => String.eqb (email u) (LoginRequest.email request))
                users)) by (rewrite Es; now left).
    apply List.filter_In in Hi. destruct Hi as [Hi He].
    apply String.eqb_eq in He. auto. }
  destruct Hin as [Hin Hemail].
  destruct (Security.verify_password _ _) as [[|]|e] eqn:Ev;
    [|now intros [= <- <-]..].
  destruct (is_active user) eqn:Eact; simpl; [|now intros [= <- <-]].
  destruct (UsersTable.update users user _ db_now) as [users1|e] eqn:Eu;
    [|now intros [= <- <-]].
  intros [= <- <-]. exists user.
  split; [exact Hin|]. split; [exact Hemail|]. split.
  { intros u Hu He.
    assert (Hi : In u (List.filter
                (fun u => String.eqb (email u) (LoginRequest.email request))
                users)).
    { apply List.filter_In. split; [exact Hu|]. rewrite He.
      apply String.eqb_refl. }
    rewrite Es in Hi. destruct Hi as [<-|[]]. reflexivity. }
  split; [exact Eact|]. split; [exact Ev|]. split.
  { now apply tokens_ext. }
  apply update_rows in Eu; auto.
  destruct Eu as (row & HF & Hs & Ha & _ & He & Hh). simpl in Ha, He, Hh.
  unfold UsersTable.set_varchar in He, Hh.
  rewrite String.eqb_refl in He, Hh.
  injection He as He. injection Hh as Hh.
  apply (Forall2_impl_In _ _ _ _ HF).
  intros a b _ [->|[-> ->]].
  - split; [apply same_identity_refl|auto].
  - split; [exact Hs|]. repeat split; congruence.
Qed.

(** X24.  [login] answers with tokens only for the one row that has the
    email, active and with a hash that the password verifies; the tokens
    are those of that user.  It then changes at most that row, of which it
    keeps the id, the tenant, the roles, the email, the hash and the
    activity; when it raises, the table is as it was. *)
Theorem login_effect request now db_now now_access now_refresh users r users' :
  primary_key users ->
  AuthApi.login request now db_now now_access now_refresh users = (r, users') ->
  match r with
  | Return resp =>
      exists user,
        In user users
        /\ email user = LoginRequest.email request
        /\ (forall u, In u users -> email u = LoginRequest.email request ->
                      u = user)
        /\ is_active user = true
        /\ Security.verify_password (LoginRequest.password request)
             (hashed_password user) = Return true
        /\ resp = AuthApi.tokens user now_access now_refresh
        /\ Forall2 (fun old new =>
                      same_identity old new
                      /\ email new = email old
                      /\ hashed_password new = hashed_password old
                      /\ is_active new = is_active old
                      /\ (id old <> id user -> new = old))
             users users'
  | Throw _ => users' = users
  end.
Proof. apply login_inv. Qed.

(** X25.  [register] keeps the primary key and the unique index and adds
    at most one row: a user with the roles [["user"]], not an admin, in
    the tenant that the default of the column draws, not in one that the
    caller names.  It answers, with the tokens of that row, only after
    adding it, and never when a user of any tenant has the email. *)
Theorem register_effect request salt id_uuid4 tenant_uuid4 db_now
    now_access now_refresh users r users' :
  primary_key users ->
  unique_index users ->
  AuthApi.register request salt id_uuid4 tenant_uuid4 db_now
    now_access now_refresh users = (r, users') ->
  primary_key users'
  /\ unique_index users'
  /\ (users' = users
      \/ exists row,
           users' = users ++ [row]
           /\ id row = id_uuid4
           /\ tenant_id row = tenant_uuid4
           /\ roles row = ["user"]
           /\ is_admin row = false
           /\ is_active row = true
           /\ r = Return (AuthApi.tokens row now_access now_refresh))
  /\ (forall resp, r = Return resp -> users' <> users)
  /\ (forall u, In u users -> email u = LoginRequest.email request ->
        users' = users
        /\ (r = Throw (HTTPException 409 "Email already registered")
            \/ r = Throw MultipleResultsFound)).
Proof.
  intros Hpk Huq. unfold AuthApi.register.
  destruct (UsersTable.scalar_one_or_none _) as [[found|]|e] eqn:Es.
  - intros [= <- <-]. split; [exact Hpk|]. split; [exact Huq|].
    split; [now left|]. split; [discriminate|]. auto.
  - apply scalar_one_or_none_None in Es.
    assert (Hfresh : forall u, In u users ->
                       email u = LoginRequest.email request -> False).
    { intros u Hu He.
      pose proof (proj1 (filter_nil_iff _ _) Es u Hu) as Hf. simpl in Hf.
      rewrite He, String.eqb_refl in Hf. discriminate. }
    destruct (Security.hash_password _ salt) as [hashed|e].
    + destruct (UsersTable.insert users _) as [users1|e] eqn:Ei.
      * intros [= <- <-].
        pose proof Ei as Hinv. apply insert_inv in Hinv.
        destruct Hinv as (row0 & _ & _ & Hpk' & Huq').
        apply insert_refresh in Ei. destruct Ei as (row & Hst & -> & Href).
        split; [auto|]. split; [auto|].
        apply stored_fields in Hst. simpl in Hst.
        destruct Hst as (Hid & Ht & Hr & Ha & _).
        split; [|split].
        -- right. exists row. rewrite Href. simpl.
           unfold is_admin, has_role. rewrite Hr. now repeat split.
        -- intros resp _ Heq.
           apply (f_equal (@length User)) in Heq.
           rewrite length_app in Heq. simpl in Heq. lia.
        -- intros u Hu He. destruct (Hfresh u Hu He).
      * intros [= <- <-]. split; [exact Hpk|]. split; [exact Huq|].
        split; [now left|]. split; [discriminate|].
        intros u Hu He. destruct (Hfresh u Hu He).
    + intros [= <- <-]. split; [exact Hpk|]. split; [exact Huq|].
      split; [now left|]. split; [discriminate|].
      intros u Hu He. destruct (Hfresh u Hu He).
  - intros [= <- <-]. split; [exact Hpk|]. split; [exact Huq|].
    split; [now left|]. split; [discriminate|].
    intros u _ _. split; [reflexivity|]. right.
    destruct (List.filter _ users) as [|a [|b l]]; try discriminate.
    simpl in Es. now injection Es as <-.
Qed.

(** X26.  [refresh_token] answers with tokens only for a token that
    verifies as a refresh token, and not as an access token, whose [sub] is
    the id of an active row of the table; the new tokens are made from
    that row as it is now.  A token that verifies as an access token is
    refused with 401, and so is the refresh token of a user who is no
    longer active or no longer there. *)
Theorem refresh_token_sound request now now_access now_refresh users :
  primary_key users ->
  (forall resp,
     AuthApi.refresh_token request now now_access now_refresh users
     = Return resp ->
     exists payload s user,
       Security.verify_refresh_token
         (TokenRefreshRequest.refresh_token request) now = Return payload
       /\ Security.verify_access_token
            (TokenRefreshRequest.refresh_token request) now
          = Throw (InvalidTokenError "Token is not an access token")
       /\ payload !! "sub" = Some (JStr s)
       /\ PyUUID.UUID s = Some (id user)
       /\ In user users
       /\ is_active user = true
       /\ resp = AuthApi.tokens user now_access now_refresh)
  /\ (forall payload,
        Security.verify_access_token
          (TokenRefreshRequest.refresh_token request) now = Return payload ->
        AuthApi.refresh_token request now now_access now_refresh users
        = Throw (HTTPException 401 "Invalid refresh token"))
  /\ (forall payload user_id,
        Security.verify_refresh_token
          (TokenRefreshRequest.refresh_token request) now = Return payload ->
        Deps.sub_uuid payload = Return user_id ->
        (forall u, In u users -> id u = user_id -> is_active u = false) ->
        AuthApi.refresh_token request now now_access now_refresh users
        = Throw (HTTPException 401 "User not found or inactive")).
Proof.
  intros Hpk. unfold AuthApi.refresh_token. split; [|split].
  - intros resp.
    destruct (Security.verify_refresh_token _ now) as [payload|e] eqn:Ev;
      [|discriminate].
    unfold obind.
    destruct (Deps.sub_uuid payload) as [user_id|e] eqn:Esub; [|discriminate].
    destruct (UsersTable.scalar_one_or_none _) as [[user|]|e] eqn:Es;
      try discriminate.
    destruct (is_active user) eqn:Eact; simpl; [|discriminate].
    intros [= <-].
    apply scalar_one_or_none_In in Es. apply List.filter_In in Es.
    destruct Es as [Hin Hid]. apply N.eqb_eq in Hid.
    apply sub_uuid_Return in Esub. destruct Esub as (s & Hs & Hu).
    exists payload, s, user.
    split; [reflexivity|]. split.
    { now apply refresh_token_is_no_access_token in Ev. }
    repeat split; auto. congruence.
  - intros payload Ha. apply access_token_is_no_refresh_token_h in Ha.
    now rewrite Ha.
  - intros payload user_id -> -> Hinactive. simpl.
    destruct (List.filter (fun u => (id u =? user_id)%N) users)
      as [|a [|b l]] eqn:Ef; simpl.
    + reflexivity.
    + assert (Ha : In a (List.filter (fun u => (id u =? user_id)%N) users))
        by (rewrite Ef; now left).
      apply List.filter_In in Ha. destruct Ha as [Ha Hid].
      apply N.eqb_eq in Hid. now rewrite (Hinactive a Ha Hid).
    + exfalso.
      assert (Ha : In a (List.filter (fun u => (id u =? user_id)%N) users))
        by (rewrite Ef; now left).
      assert (Hb : In b (List.filter (fun u => (id u =? user_id)%N) users))
        by (rewrite Ef; right; now left).
      apply List.filter_In in Ha, Hb.
      destruct Ha as [Ha Hia], Hb as [Hb Hib].
      apply N.eqb_eq in Hia, Hib.
      assert (a = b) by (apply (primary_key_inj users); auto; congruence).
      subst b.
      assert (Hnd : List.NoDup (List.filter (fun u => (id u =? user_id)%N) users)).
      { apply List.NoDup_filter. apply (List.NoDup_map_inv id). exact Hpk. }
      rewrite Ef in Hnd. inversion Hnd as [|? ? Hx _]. apply Hx. now left.
Qed.

End AuthApiProperties.

(** * The endpoints on sample users *)

Ltac distinct_keys :=
  unfold UsersSpec.primary_key, UsersSpec.unique_index; simpl;
  repeat (constructor; [simpl; intuition discriminate|]); constructor.

Lemma list_users_tenant_scoped_witness :
  (0 <= 0)%Z /\ (0 <= 10)%Z
  /\ (length [ToyUsers.response ToyUsers.carol; ToyUsers.response Toy.alice]
      <= Z.to_nat 10)%nat
  /\ forall resp,
       In resp [ToyUsers.response ToyUsers.carol; ToyUsers.response Toy.alice] ->
       Schemas.UserResponse.tenant_id resp = UserModel.tenant_id Toy.alice
       /\ exists u, In u ToyUsers.users
                    /\ UserModel.tenant_id u = UserModel.tenant_id Toy.alice
                    /\ @Schemas.model_validate Toy.one_access_token u
                       = Return resp.
Proof.
  apply (@list_users_tenant_scoped Toy.one_access_token Toy.alice 0 10
           (rev ToyUsers.users) ToyUsers.users).
  - apply Permutation_sym, Permutation_rev.
  - reflexivity.
Defined.

Lemma other_tenant_user_not_found_witness :
  @UsersApi.get_user Toy.one_access_token 77%N Toy.alice ToyUsers.users
  = Throw (HTTPException 404 "User not found")
  /\ @UsersApi.update_user Toy.one_access_token 77%N ToyUsers.rename_carol
       Toy.alice 1%N 50 ToyUsers.users
     = (Throw (HTTPException 404 "User not found"), ToyUsers.users)
  /\ @UsersApi.delete_user 77%N Toy.alice ToyUsers.users
     = (Throw (HTTPException 404 "User not found"), ToyUsers.users).
Proof.
  apply (@other_tenant_user_not_found Toy.one_access_token).
  simpl. intros u [<-|[<-|[<-|[]]]]; simpl; intros [=]. discriminate.
Defined.

Lemma delete_user_effect_witness :
  99%N <> UserModel.id Toy.alice
  /\ (exists user, In user ToyUsers.users /\ UserModel.id user = 99%N
                   /\ UserModel.tenant_id user = UserModel.tenant_id Toy.alice)
  /\ (forall u, In u [Toy.alice; Toy.bob]
                <-> In u ToyUsers.users /\ UserModel.id u <> 99%N)
  /\ (In Toy.alice ToyUsers.users -> In Toy.alice [Toy.alice; Toy.bob])
  /\ (forall u, In u ToyUsers.users ->
                UserModel.tenant_id u <> UserModel.tenant_id Toy.alice ->
                In u [Toy.alice; Toy.bob]).
Proof.
  apply (delete_user_effect 99%N Toy.alice ToyUsers.users (Return tt)).
  - distinct_keys.
  - reflexivity.
Defined.

Lemma create_user_effect_witness :
  UsersSpec.primary_key (ToyUsers.users ++ [ToyUsers.new_bob])
  /\ @UsersApi.create_user Toy.one_access_token ToyUsers.create_bob Toy.alice
       1%N 100%N 50 ToyUsers.users
     = (Return (ToyUsers.response ToyUsers.new_bob),
        ToyUsers.users ++ [ToyUsers.new_bob]).
Proof.
  split; [|reflexivity].
  apply (@create_user_effect Toy.one_access_token ToyUsers.create_bob Toy.alice
           1%N 100%N 50%Z ToyUsers.users
           (Return (ToyUsers.response ToyUsers.new_bob))).
  - distinct_keys.
  - distinct_keys.
  - reflexivity.
Defined.

Lemma update_user_keeps_witness :
  Forall2 (fun old new =>
             UsersSpec.same_identity old new
             /\ UserModel.last_login_at new = UserModel.last_login_at old
             /\ (UserModel.id old <> 99%N -> new = old)
             /\ (UserModel.tenant_id old <> UserModel.tenant_id Toy.alice ->
                 new = old))
    ToyUsers.users [Toy.alice; Toy.bob; ToyUsers.renamed_carol]
  /\ forall resp, Return (ToyUsers.response ToyUsers.renamed_carol) = Return resp ->
       Schemas.UserResponse.id resp = 99%N
       /\ Schemas.UserResponse.tenant_id resp = UserModel.tenant_id Toy.alice.
Proof.
  apply (@update_user_keeps Toy.one_access_token 99%N ToyUsers.rename_carol
           Toy.alice 1%N 50%Z ToyUsers.users).
  - distinct_keys.
  - reflexivity.
Defined.

Lemma update_profile_own_row_witness :
  Forall2 (fun old new =>
             UsersSpec.same_identity old new
             /\ UserModel.is_active new = UserModel.is_active old
             /\ UserModel.last_login_at new = UserModel.last_login_at old
             /\ (UserModel.id old <> UserModel.id ToyUsers.carol -> new = old))
    ToyUsers.users [Toy.alice; Toy.bob; ToyUsers.renamed_carol]
  /\ forall e other,
       Schemas.UserUpdate.email ToyUsers.rename_carol = Some e ->
       In other ToyUsers.users -> UserModel.email other = e ->
       UserModel.id other <> UserModel.id ToyUsers.carol ->
       [Toy.alice; Toy.bob; ToyUsers.renamed_carol] = ToyUsers.users
       /\ (Return (ToyUsers.response ToyUsers.renamed_carol)
           = Throw (HTTPException 409 "Email already in use")
           \/ Return (ToyUsers.response ToyUsers.renamed_carol)
              = Throw MultipleResultsFound).
Proof.
  apply (@update_profile_own_row Toy.one_access_token ToyUsers.rename_carol
           ToyUsers.carol 1%N 50%Z ToyUsers.users).
  - distinct_keys.
  - simpl. tauto.
  - reflexivity.
Defined.

Lemma email_of_two_tenants_breaks_login_witness :
  UserModel.tenant_id Toy.bob <> UserModel.tenant_id Toy.alice
  /\ forall password now db_now' now_access now_refresh,
       @AuthApi.login Toy.one_access_token
         {| Schemas.LoginRequest.email := "bob@example.org";
            Schemas.LoginRequest.password := password |}
         now db_now' now_access now_refresh
         (ToyUsers.users ++ [ToyUsers.new_bob])
       = (Throw MultipleResultsFound, ToyUsers.users ++ [ToyUsers.new_bob]).
Proof.
  apply (@email_of_two_tenants_breaks_login Toy.one_access_token
           ToyUsers.create_bob Toy.alice 1%N 100%N 50%Z ToyUsers.users
           (ToyUsers.response ToyUsers.new_bob)
           (ToyUsers.users ++ [ToyUsers.new_bob]) Toy.bob).
  - simpl. tauto.
  - reflexivity.
  - simpl. lia.
  - reflexivity.
Defined.

Lemma login_effect_witness :
  exists user,
    In user ToyUsers.users
    /\ UserModel.email user = "carol@example.org"
    /\ (forall u, In u ToyUsers.users ->
                  UserModel.email u = "carol@example.org" -> u = user)
    /\ UserModel.is_active user = true
    /\ @Security.verify_password Toy.one_access_token "carolina"
         (UserModel.hashed_password user) = Return true
    /\ @AuthApi.tokens Toy.one_access_token ToyUsers.carol 60 61
       = @AuthApi.tokens Toy.one_access_token user 60 61
    /\ Forall2 (fun old new =>
                  UsersSpec.same_identity old new
                  /\ UserModel.email new = UserModel.email old
                  /\ UserModel.hashed_password new = UserModel.hashed_password old
                  /\ UserModel.is_active new = UserModel.is_active old
                  /\ (UserModel.id old <> UserModel.id user -> new = old))
         ToyUsers.users [Toy.alice; Toy.bob; ToyUsers.logged_in_carol].
Proof.
  apply (@login_effect Toy.one_access_token ToyUsers.login_carol 40%Z 50%Z
           60%Z 61%Z ToyUsers.users
           (Return (@AuthApi.tokens Toy.one_access_token ToyUsers.carol 60 61))).
  - distinct_keys.
  - reflexivity.
Defined.

Lemma register_effect_witness :
  UsersSpec.primary_key (ToyUsers.users ++ [ToyUsers.dave])
  /\ @AuthApi.register Toy.one_access_token ToyUsers.register_dave 1%N
       101%N 102%N 50 60 61 ToyUsers.users
     = (Return (@AuthApi.tokens Toy.one_access_token ToyUsers.dave 60 61),
        ToyUsers.users ++ [ToyUsers.dave]).
Proof.
  split; [|reflexivity].
  apply (@register_effect Toy.one_access_token ToyUsers.register_dave 1%N
           101%N 102%N 50%Z 60%Z 61%Z ToyUsers.users
           (Return (@AuthApi.tokens Toy.one_access_token ToyUsers.dave 60 61))).
  - distinct_keys.
  - distinct_keys.
  - reflexivity.
Defined.

Lemma refresh_token_sound_witness :
  @AuthApi.refresh_token Toy.one_access_token
    {| Schemas.TokenRefreshRequest.refresh_token := "token" |} 5 60 61
    ToyUsers.users
  = Throw (HTTPException 401 "Invalid refresh token").
Proof.
  destruct (@refresh_token_sound Toy.one_access_token
              {| Schemas.TokenRefreshRequest.refresh_token := "token" |}
              5%Z 60%Z 61%Z ToyUsers.users) as (_ & Haccess & _).
  - distinct_keys.
  - apply (Haccess Toy.access_payload). reflexivity.
Defined.

(** * Identifiers are read as they are written *)

Section UuidRoundTrip.

Import UuidSpec.

Lemma lowhex_cases c :
  lowhex c = true ->
  exists d, (d < 16)%N /\ c = PyUUID.hex_char d /\ PyUUID.digit_value c = Some d.
Proof.
  destruct c as [[] [] [] [] [] [] [] []]; try discriminate; intros _;
    match goal with
    | |- exists d, _ /\ ?c = _ /\ _ =>
        let v := eval vm_compute in (PyUUID.digit_value c) in
        match v with Some ?d => exists d end
    end; (split; [reflexivity|split; reflexivity]).
Qed.

Lemma hex_char_lowhex d : (d < 16)%N -> lowhex (PyUUID.hex_char d) = true.
Proof.
  intros Hd.
  assert (d = 0 \/ d = 1 \/ d = 2 \/ d = 3 \/ d = 4 \/ d = 5 \/ d = 6 \/ d = 7
          \/ d = 8 \/ d = 9 \/ d = 10 \/ d = 11 \/ d = 12 \/ d = 13 \/ d = 14
          \/ d = 15)%N as Hc by lia.
  repeat (destruct Hc as [->|Hc]; [reflexivity|]). subst. reflexivity.
Qed.

Lemma digit_value_hex_char d :
  (d < 16)%N -> PyUUID.digit_value (PyUUID.hex_char d) = Some d.
Proof.
  intros Hd.
  assert (d = 0 \/ d = 1 \/ d = 2 \/ d = 3 \/ d = 4 \/ d = 5 \/ d = 6 \/ d = 7
          \/ d = 8 \/ d = 9 \/ d = 10 \/ d = 11 \/ d = 12 \/ d = 13 \/ d = 14
          \/ d = 15)%N as Hc by lia.
  repeat (destruct Hc as [->|Hc]; [reflexivity|]). subst. reflexivity.
Qed.

(** [hex_of] puts its digits before the tail. *)
Lemma hex_of_app k n tail :
  PyUUID.hex_of k n tail = (PyUUID.hex_of k n "" ++ tail)%string.
Proof.
  revert n tail. induction k as [|k IH]; intros n tail; simpl; [reflexivity|].
  rewrite (IH _ (String _ tail)), (IH _ (String _ "")).
  rewrite append_assoc. reflexivity.
Qed.

Lemma str_forall_app p s t :
  str_forall p (s ++ t)%string = str_forall p s && str_forall p t.
Proof.
  induction s as [|c s IH]; simpl; [reflexivity|].
  change (str_forall p (String c (s ++ t)%string)
          = p c && str_forall p s && str_forall p t).
  simpl. now rewrite IH, andb_assoc.
Qed.

Lemma length_app_str s t :
  String.length (s ++ t)%string = (String.length s + String.length t)%nat.
Proof.
  induction s as [|c s IH]; [reflexivity|].
  change (S (String.length (s ++ t)%string) = S (String.length s + String.length t)).
  now rewrite IH.
Qed.

Lemma hex_of_length k n : String.length (PyUUID.hex_of k n "") = k.
Proof.
  revert n. induction k as [|k IH]; intros n; simpl; [reflexivity|].
  rewrite hex_of_app, length_app_str, IH. simpl. lia.
Qed.

Lemma hex_of_lowhex k n : str_forall lowhex (PyUUID.hex_of k n "") = true.
Proof.
  revert n. induction k as [|k IH]; intros n; simpl; [reflexivity|].
  rewrite hex_of_app, str_forall_app, IH. simpl.
  rewrite hex_char_lowhex; [reflexivity|]. apply N.mod_lt. discriminate.
Qed.

Lemma hex_val_app acc s t :
  str_forall lowhex s = true ->
  hex_val acc (s ++ t)%string = hex_val (hex_val acc s) t.
Proof.
  revert acc. induction s as [|c s IH]; intros acc Hs; [reflexivity|].
  simpl in Hs. apply andb_true_iff in Hs. destruct Hs as [Hc Hs].
  destruct (lowhex_cases c Hc) as (d & _ & _ & Hd).
  change (hex_val acc (String c (s ++ t)%string)
          = hex_val (hex_val acc (String c s)) t).
  simpl. rewrite Hd. now apply IH.
Qed.

Lemma hex_val_hex_of k n acc :
  hex_val acc (PyUUID.hex_of k n "") = (acc * 16 ^ N.of_nat k + n mod 16 ^ N.of_nat k)%N.
Proof.
  revert n acc. induction k as [|k IH]; intros n acc.
  - simpl. rewrite N.mod_1_r. lia.
  - cbn [PyUUID.hex_of]. rewrite hex_of_app, hex_val_app by apply hex_of_lowhex.
    rewrite IH. simpl hex_val.
    rewrite digit_value_hex_char by (apply N.mod_lt; discriminate).
    rewrite Nat2N.inj_succ, N.pow_succ_r'.
    rewrite (N.Div0.mod_mul_r n 16 (16 ^ N.of_nat k)). lia.
Qed.

Lemma str_forall_impl (p q : ascii -> bool) s :
  (forall c, p c = true -> q c = true) ->
  str_forall p s = true -> str_forall q s = true.
Proof.
  intros Hpq. induction s as [|c s IH]; simpl; [reflexivity|].
  rewrite !andb_true_iff. intros [Hc Hs]. auto.
Qed.

Lemma str_forall_substring p n m s :
  str_forall p s = true -> str_forall p (String.substring n m s) = true.
Proof.
  revert n m. induction s as [|c s IH]; intros n m Hs.
  - destruct n, m; reflexivity.
  - simpl in Hs. apply andb_true_iff in Hs. destruct Hs as [Hc Hs].
    destruct n as [|n]; simpl.
    + destruct m as [|m]; [reflexivity|]. simpl. rewrite Hc. now apply IH.
    + now apply IH.
Qed.

Lemma rstrip_none p s :
  str_forall (fun c => negb (p c)) s = true -> PyStr.rstrip p s = s.
Proof.
  induction s as [|c s IH]; simpl; [reflexivity|].
  rewrite andb_true_iff. intros [Hc Hs]. rewrite (IH Hs).
  apply negb_true_iff in Hc. destruct s; [now rewrite Hc|reflexivity].
Qed.

Lemma lstrip_none p s :
  str_forall (fun c => negb (p c)) s = true -> PyStr.lstrip p s = s.
Proof.
  destruct s as [|c s]; simpl; [reflexivity|].
  rewrite andb_true_iff. intros [Hc _].
  apply negb_true_iff in Hc. now rewrite Hc.
Qed.

Lemma prefix_head a old b s :
  Ascii.eqb b a = false -> String.prefix (String a old) (String b s) = false.
Proof.
  intros Hne. simpl. destruct (ascii_dec a b) as [->|]; [|reflexivity].
  now rewrite Ascii.eqb_refl in Hne.
Qed.

(** Removing a text changes nothing where its first character is absent. *)
Lemma remove_absent a old s :
  str_forall (fun c => negb (Ascii.eqb c a)) s = true ->
  PyStr.remove (String a old) s = s.
Proof.
  unfold PyStr.remove. induction s as [|c s IH]; [reflexivity|].
  simpl str_forall. rewrite andb_true_iff. intros [Hc Hs].
  apply negb_true_iff in Hc.
  cbn [PyStr.remove_from]. rewrite (prefix_head a old c s Hc).
  now rewrite (IH Hs).
Qed.

Lemma remove_char_app a s t :
  PyStr.remove (String a "") (s ++ t)%string
  = (PyStr.remove (String a "") s ++ PyStr.remove (String a "") t)%string.
Proof.
  unfold PyStr.remove. induction s as [|c s IH]; [reflexivity|].
  change (String c s ++ t)%string with (String c (s ++ t)%string).
  cbn [PyStr.remove_from String.length Nat.sub].
  assert (Hp : forall r, String.prefix (String a "") (String c r)
                         = if ascii_dec a c then true else false).
  { intros r. simpl. destruct (ascii_dec a c); [|reflexivity].
    now destruct r. }
  rewrite !Hp. destruct (ascii_dec a c).
  - exact IH.
  - rewrite IH. reflexivity.
Qed.

Lemma remove_char_head a t :
  PyStr.remove (String a "") (String a t) = PyStr.remove (String a "") t.
Proof.
  unfold PyStr.remove. cbn [PyStr.remove_from String.length Nat.sub].
  replace (String.prefix (String a "") (String a t)) with true; [reflexivity|].
  simpl. destruct (ascii_dec a a); [now destruct t|congruence].
Qed.

Lemma hex_digits_lowhex s prev seen acc :
  str_forall lowhex s = true ->
  PyUUID.hex_digits prev seen acc s
  = match s with
    | EmptyString => if prev || negb seen then None else Some acc
    | _ => Some (hex_val acc s)
    end.
Proof.
  revert prev seen acc. induction s as [|c s IH]; intros prev seen acc Hs;
    [reflexivity|].
  simpl in Hs. apply andb_true_iff in Hs. destruct Hs as [Hc Hs].
  destruct (lowhex_cases c Hc) as (d & Hd & -> & Hv).
  cbn [PyUUID.hex_digits hex_val]. rewrite Hv.
  replace (Ascii.eqb (PyUUID.hex_char d) PyUUID.underscore) with false.
  - rewrite (IH _ _ _ Hs). destruct s; reflexivity.
  - symmetry.
    assert (d = 0 \/ d = 1 \/ d = 2 \/ d = 3 \/ d = 4 \/ d = 5 \/ d = 6 \/ d = 7
            \/ d = 8 \/ d = 9 \/ d = 10 \/ d = 11 \/ d = 12 \/ d = 13 \/ d = 14
            \/ d = 15)%N as Hcase by lia.
    repeat (destruct Hcase as [->|Hcase]; [reflexivity|]). subst. reflexivity.
Qed.

Lemma lowhex_not_space c : lowhex c = true -> negb (PyUUID.int_space c) = true.
Proof.
  destruct c as [[] [] [] [] [] [] [] []]; try discriminate; reflexivity.
Qed.

(** [int(s, 16)] of lower-case hexadecimal digits. *)
Lemma int16_lowhex s :
  str_forall lowhex s = true -> s <> "" ->
  PyUUID.int16 s = Some (false, hex_val 0 s).
Proof.
  intros Hs Hne. unfold PyUUID.int16.
  assert (Hsp : str_forall (fun c => negb (PyUUID.int_space c)) s = true)
    by (apply (str_forall_impl lowhex); [apply lowhex_not_space|exact Hs]).
  rewrite (lstrip_none _ _ Hsp), (rstrip_none _ _ Hsp).
  pose proof (hex_digits_lowhex s true false 0%N Hs) as Hd.
  destruct s as [|c0 s1]; [congruence|].
  pose proof Hs as Hs'. simpl in Hs'. apply andb_true_iff in Hs'.
  destruct Hs' as [Hc0 Hs1].
  destruct c0 as [[] [] [] [] [] [] [] []]; try discriminate Hc0;
    try (cbv beta iota; rewrite Hd; reflexivity).
  (* the first digit is 0: the second is not x *)
  destruct s1 as [|c1 s2]; [cbv beta iota; now rewrite Hd|].
  simpl in Hs1. apply andb_true_iff in Hs1. destruct Hs1 as [Hc1 _].
  destruct c1 as [[] [] [] [] [] [] [] []]; try discriminate Hc1;
    cbv beta iota; rewrite Hd; reflexivity.
Qed.

Lemma cut_join h :
  String.length h = 32%nat ->
  (String.substring 0 8 h ++ String.substring 8 4 h ++ String.substring 12 4 h
   ++ String.substring 16 4 h ++ String.substring 20 12 h)%string = h.
Proof.
  intros Hlen.
  do 32 (destruct h as [|? h]; [discriminate Hlen|]).
  destruct h; [reflexivity|discriminate Hlen].
Qed.

Lemma uuid_str_chars u : str_forall uuid_char (PyUUID.uuid_str u) = true.
Proof.
  unfold PyUUID.uuid_str.
  assert (Hsub : forall n m,
            str_forall uuid_char
              (String.substring n m (PyUUID.hex_of 32 u "")) = true).
  { intros n m. apply str_forall_substring.
    apply (str_forall_impl lowhex); [|apply hex_of_lowhex].
    intros c Hc. unfold uuid_char. now rewrite Hc. }
  rewrite !str_forall_app, !Hsub. reflexivity.
Qed.

(** [UUID(str(u))] is [u]. *)
Lemma UUID_uuid_str u :
  (u < 2 ^ 128)%N -> PyUUID.UUID (PyUUID.uuid_str u) = Some u.
Proof.
  intros Hu. unfold PyUUID.UUID.
  pose proof (uuid_str_chars u) as Hchars.
  assert (Hno : forall a, uuid_char a = false ->
            str_forall (fun c => negb (Ascii.eqb c a)) (PyUUID.uuid_str u) = true).
  { intros a Ha. apply (str_forall_impl uuid_char); [|exact Hchars].
    intros c Hc. apply negb_true_iff. destruct (Ascii.eqb_spec c a); congruence. }
  rewrite (remove_absent "u" "rn:") by (apply Hno; reflexivity).
  rewrite (remove_absent "u" "uid:") by (apply Hno; reflexivity).
  assert (Hbr : str_forall (fun c => negb (PyStr.mem c "{}")) (PyUUID.uuid_str u)
                = true).
  { apply (str_forall_impl uuid_char); [|exact Hchars].
    intros c. destruct c as [[] [] [] [] [] [] [] []]; try discriminate;
      reflexivity. }
  unfold PyStr.strip_chars.
  rewrite (lstrip_none _ _ Hbr), (rstrip_none _ _ Hbr).
  assert (Hhex : PyStr.remove "-" (PyUUID.uuid_str u) = PyUUID.hex_of 32 u "").
  { unfold PyUUID.uuid_str.
    assert (Hsub : forall n m,
              PyStr.remove "-" (String.substring n m (PyUUID.hex_of 32 u ""))
              = String.substring n m (PyUUID.hex_of 32 u "")).
    { intros n m. apply remove_absent. apply str_forall_substring.
      apply (str_forall_impl lowhex); [|apply hex_of_lowhex].
      intros c. destruct c as [[] [] [] [] [] [] [] []]; try discriminate;
        reflexivity. }
    repeat (rewrite remove_char_app, Hsub;
            change ("-" ++ ?x)%string with (String "-"%char x);
            rewrite remove_char_head).
    rewrite Hsub. apply cut_join, hex_of_length. }
  rewrite Hhex, hex_of_length. simpl negb. cbv iota.
  rewrite int16_lowhex.
  - rewrite hex_val_hex_of. simpl N.of_nat.
    change (16 ^ 32)%N with (2 ^ 128)%N.
    rewrite N.mod_small by exact Hu. rewrite N.mul_0_l, N.add_0_l.
    apply N.ltb_lt in Hu. now rewrite Hu.
  - apply hex_of_lowhex.
  - intros Hempty. apply (f_equal String.length) in Hempty.
    rewrite hex_of_length in Hempty. discriminate.
Qed.

End UuidRoundTrip.

Section ReadBack.

Import UuidSpec.

Lemma uuid_str_not_anonymous u : uuid128 u -> PyUUID.uuid_str u <> "anonymous".
Proof.
  intros Hu Heq. apply UUID_uuid_str in Hu. rewrite Heq in Hu.
  vm_compute in Hu. discriminate.
Qed.

Lemma uuid_str_truthy u : uuid128 u -> PyStr.truthy (PyUUID.uuid_str u) = true.
Proof.
  intros Hu. destruct (PyUUID.uuid_str u) eqn:E; [|reflexivity].
  apply UUID_uuid_str in Hu. rewrite E in Hu. vm_compute in Hu. discriminate.
Qed.

Lemma uuid_str_canonical u : uuid128 u -> PyUUID.canonical (PyUUID.uuid_str u).
Proof. intros Hu. exists u. split; [now apply UUID_uuid_str|reflexivity]. Qed.

Lemma AuditAction_value_of_value v a :
  AuditAction_of_value v = Ok a -> AuditAction_value a = v.
Proof.
  unfold AuditAction_of_value.
  destruct (find _ AuditAction_members) as [a'|] eqn:Ef; [|discriminate].
  intros [= <-]. apply find_some in Ef. destruct Ef as [_ He].
  now apply String.eqb_eq in He.
Qed.

Lemma DataClassification_value_of_value v c :
  DataClassification_of_value v = Ok c -> DataClassification_value c = v.
Proof.
  unfold DataClassification_of_value.
  destruct (find _ DataClassification_members) as [c'|] eqn:Ef; [|discriminate].
  intros [= <-]. apply find_some in Ef. destruct Ef as [_ He].
  now apply String.eqb_eq in He.
Qed.

(** X27.  An entry that [query] builds from a stored row is canonical, and
    [log] makes of it the row it came from, under the id that it draws:
    reading and writing a row are inverse to each other. *)
Theorem entry_read_back_logs_same_row row entry draws :
  row_uuid128 row ->
  DatabaseAuditLogger.to_entry row = Ok entry ->
  canonical_entry entry
  /\ DatabaseAuditLogger.to_row entry draws
     = Ok (with_id (id_uuid4 draws) row).
Proof.
  intros (Ha & Ht & Hr & Hs). unfold DatabaseAuditLogger.to_entry, rbind.
  destruct (AuditAction_of_value _) as [act|] eqn:Eact; [|discriminate].
  destruct (DataClassification_of_value _) as [cls|] eqn:Ecls; [|discriminate].
  apply AuditAction_value_of_value in Eact.
  apply DataClassification_value_of_value in Ecls.
  intros [= <-]. split.
  - unfold canonical_entry.
    cbn [actor_id tenant_id request_id session_id].
    split; [now apply uuid_str_not_anonymous|].
    split; [now apply uuid_str_canonical|].
    split; [now apply uuid_str_canonical|].
    split; [now apply uuid_str_canonical|].
    intros s. destruct (AuditLogModel.session_id row) as [u|]; [|discriminate].
    intros [= <-]. apply uuid_str_canonical. now apply Hs.
  - unfold DatabaseAuditLogger.to_row, rbind, UUID.
    cbn [actor_id actor_type actor_ip action action_detail resource_type
         resource_id tenant_id request_id session_id timestamp old_values
         new_values success error_message data_classification].
    replace (String.eqb (PyUUID.uuid_str (AuditLogModel.actor_id row)) "anonymous")
      with false
      by (symmetry; apply String.eqb_neq; now apply uuid_str_not_anonymous).
    cbn [negb]. rewrite !UUID_uuid_str by assumption.
    unfold with_id. rewrite Eact, Ecls.
    destruct (AuditLogModel.session_id row) as [u|] eqn:Es.
    + rewrite uuid_str_truthy by (now apply Hs).
      rewrite UUID_uuid_str by (now apply Hs). reflexivity.
    + reflexivity.
Qed.

End ReadBack.

Lemma entry_read_back_logs_same_row_witness :
  canonical_entry
    {| actor_id := Samples.alice; actor_type := "user";
       actor_ip := Some "10.0.0.7"; action := UPDATE; action_detail := None;
       resource_type := "user"; resource_id := "42";
       tenant_id := Samples.alpha; request_id := Samples.req1;
       session_id := Some "00000000-0000-0000-0000-000000000007";
       timestamp := 0; old_values := None; new_values := None;
       success := true; error_message := None;
       data_classification := CONFIDENTIAL |}
  /\ DatabaseAuditLogger.to_row
       {| actor_id := Samples.alice; actor_type := "user";
          actor_ip := Some "10.0.0.7"; action := UPDATE; action_detail := None;
          resource_type := "user"; resource_id := "42";
          tenant_id := Samples.alpha; request_id := Samples.req1;
          session_id := Some "00000000-0000-0000-0000-000000000007";
          timestamp := 0; old_values := None; new_values := None;
          success := true; error_message := None;
          data_classification := CONFIDENTIAL |}
       (Samples.draws 9)
     = Ok (UuidSpec.with_id 9%N UuidSpec.sample_row).
Proof.
  apply (entry_read_back_logs_same_row UuidSpec.sample_row).
  - unfold UuidSpec.row_uuid128, UuidSpec.uuid128. simpl.
    repeat split; try lia. intros s [= <-]. lia.
  - reflexivity.
Defined.

(** * From the request to the audit row *)

Section EndToEnd.

Import UuidSpec.

Context `{Collaborators} `{Py : Pydantic}.

Lemma sub_uuid_uuid_str (payload : gmap string json) u :
  uuid128 u ->
  payload !! "sub" = Some (JStr (PyUUID.uuid_str u)) ->
  Deps.sub_uuid payload = Return u.
Proof.
  intros Hu Hsub. unfold Deps.sub_uuid. rewrite Hsub.
  now rewrite UUID_uuid_str.
Qed.

(** X28.  The access token that [login] answers with authenticates the
    user who logged in: where the JWT library decodes it to a payload with
    the [type] and [sub] that were encoded, [get_current_user_optional]
    gives the row of that user as it is after the login and puts the user
    and the user's tenant into the context. *)
Theorem login_token_authenticates
    request now db_now now_access now_refresh users resp users'
    user now' payload ctx :
  UsersSpec.primary_key users ->
  Forall user_uuid128 users ->
  In user users ->
  UserModel.email user = Schemas.LoginRequest.email request ->
  AuthApi.login request now db_now now_access now_refresh users
  = (Return resp, users') ->
  jwt_decode (Schemas.LoginResponse.access_token resp) now' = Return payload ->
  payload !! "type"
  = Security.access_claims (AuthApi.token_data user) None now_access !! "type" ->
  payload !! "sub"
  = Security.access_claims (AuthApi.token_data user) None now_access !! "sub" ->
  exists user',
    In user' users'
    /\ UserModel.id user' = UserModel.id user
    /\ UserModel.tenant_id user' = UserModel.tenant_id user
    /\ UserModel.email user' = UserModel.email user
    /\ Deps.get_current_user_optional
         (Some {| Deps.scheme := "Bearer";
                  Deps.credentials := Schemas.LoginResponse.access_token resp |})
         now' users' (Some ctx)
       = (Return (Some user'), Some (Deps.with_user ctx user')).
Proof.
  intros Hpk H128 Hin Hemail Hlogin Hdec Htype Hsub.
  apply login_inv in Hlogin; [|exact Hpk].
  destruct Hlogin as (user0 & Hin0 & _ & Huniq & Hact & _ & -> & HF).
  assert (user = user0) by (now apply Huniq). subst user0.
  destruct (Forall2_In_left _ _ _ _ HF Hin)
    as (user' & Hin' & (Hid & Hten & _) & He & _ & Ha' & _).
  exists user'. split; [exact Hin'|]. split; [exact Hid|].
  split; [exact Hten|]. split; [exact He|].
  unfold Deps.get_current_user_optional, Deps.authenticate.
  cbn [Deps.credentials AuthApi.tokens Schemas.LoginResponse.access_token] in *.
  unfold Security.verify_access_token, Security.decode_token, obind.
  unfold Security.create_access_token in *. rewrite Hdec.
  unfold Security.get_is_not. rewrite Htype.
  unfold Security.access_claims at 1. rewrite lookup_insert_eq.
  cbn [String.eqb Ascii.eqb Bool.eqb negb].
  assert (Hs : payload !! "sub"
               = Some (JStr (PyUUID.uuid_str (UserModel.id user)))).
  { rewrite Hsub. unfold Security.access_claims, AuthApi.token_data.
    rewrite !lookup_insert_ne by discriminate. apply lookup_insert_eq. }
  assert (Hu : user_uuid128 user)
    by (apply (proj1 (List.Forall_forall _ _) H128); exact Hin).
  rewrite (sub_uuid_uuid_str payload (UserModel.id user) (proj1 Hu) Hs).
  assert (Hpk' : UsersSpec.primary_key users').
  { unfold UsersSpec.primary_key.
    rewrite (Forall2_map_eq _ UserModel.id _ _ HF); [exact Hpk|].
    intros a b (Hs0 & _). apply Hs0. }
  rewrite (filter_key_unique UserModel.id _ users' user' Hpk' Hin').
  - reflexivity.
  - rewrite Hid, N.eqb_refl, Ha', Hact. reflexivity.
  - intros b _ Hb. apply andb_true_iff in Hb. destruct Hb as [Hb _].
    apply N.eqb_eq in Hb. congruence.
Qed.

(** The row of an entry whose identifiers are what [str] makes of UUIDs. *)
Lemma to_row_of_uuids e draws actor tenant request_str request :
  uuid128 actor -> uuid128 tenant ->
  actor_id e = PyUUID.uuid_str actor ->
  tenant_id e = PyUUID.uuid_str tenant ->
  request_id e = request_str ->
  PyUUID.UUID request_str = Some request ->
  session_id e = None ->
  exists row,
    DatabaseAuditLogger.to_row e draws = Ok row
    /\ AuditLogModel.actor_id row = actor
    /\ AuditLogModel.tenant_id row = tenant
    /\ AuditLogModel.request_id row = request
    /\ AuditLogModel.session_id row = None.
Proof.
  intros Ha Ht Hea Het Her Hr Hes.
  unfold DatabaseAuditLogger.to_row, rbind, UUID.
  rewrite Hea, Het, Her, Hes, Hr.
  replace (String.eqb (PyUUID.uuid_str actor) "anonymous") with false
    by (symmetry; apply String.eqb_neq; now apply uuid_str_not_anonymous).
  cbn [negb]. rewrite !UUID_uuid_str by assumption.
  eexists. split; [reflexivity|]. cbn. auto.
Qed.

(** X29.  An entry made by [from_context] in a request that the middleware
    has opened and [get_current_user_optional] has authenticated is written
    by [log] for the user as actor and the user's tenant, whatever the
    header X-Tenant-ID said, under the request id that the middleware drew;
    an inbound X-Request-ID is used when it is a UUID, and when it is
    not, [log] raises [ValueError] and stores nothing. *)
Theorem authenticated_request_is_audited
    request uuid4 creds now users user var' env act rtype rid
    (kwargs : gmap string pyval) e draws :
  Forall user_uuid128 users ->
  uuid128 uuid4 ->
  Deps.get_current_user_optional creds now users
    (Some (Middleware.dispatch_context request uuid4))
  = (Return (Some user), var') ->
  from_context var' env act rtype rid kwargs = Ok e ->
  match Middleware.headers_get (Middleware.headers request) "X-Request-ID" with
  | None =>
      exists row,
        DatabaseAuditLogger.to_row e draws = Ok row
        /\ AuditLogModel.actor_id row = UserModel.id user
        /\ AuditLogModel.tenant_id row = UserModel.tenant_id user
        /\ AuditLogModel.request_id row = uuid4
        /\ AuditLogModel.session_id row = None
  | Some v =>
      match PyUUID.UUID v with
      | Some r =>
          exists row,
            DatabaseAuditLogger.to_row e draws = Ok row
            /\ AuditLogModel.actor_id row = UserModel.id user
            /\ AuditLogModel.tenant_id row = UserModel.tenant_id user
            /\ AuditLogModel.request_id row = r
            /\ AuditLogModel.session_id row = None
      | None =>
          forall w, exists msg,
            DatabaseAuditLogger.log e draws w = (Raise (ValueError msg), w)
      end
  end.
Proof.
  intros H128 Hu4 Hauth Hentry.
  apply get_current_user_optional_inv in Hauth.
  destruct Hauth as (Hin & _ & _ & ctx & ctx' & [= <-] & -> & Hten & Huid & _
                     & _ & Hreq & Hses & _).
  apply from_context_fields in Hentry.
  destruct Hentry as (Ha & _ & Ht & Hr & Hs & _).
  assert (Hu : user_uuid128 user)
    by (apply (proj1 (List.Forall_forall _ _) H128); exact Hin).
  destruct Hu as [Hid128 Hten128].
  rewrite Huid in Ha. rewrite Hten in Ht. rewrite Hreq in Hr. rewrite Hses in Hs.
  assert (Ha' : actor_id e = PyUUID.uuid_str (UserModel.id user)).
  { rewrite Ha. apply or_anonymous_spec; [reflexivity|].
    intros Hempty. pose proof (uuid_str_truthy _ Hid128) as Htr.
    rewrite Hempty in Htr. discriminate. }
  cbn [Middleware.dispatch_context Context.request_id Context.session_id] in Hr, Hs.
  unfold Middleware.headers_get_default in Hr.
  destruct (Middleware.headers_get (Middleware.headers request) "X-Request-ID")
    as [v|].
  - destruct (PyUUID.UUID v) as [r|] eqn:Ev.
    + now apply (to_row_of_uuids e draws _ _ v r).
    + intros w. unfold_M.
      unfold DatabaseAuditLogger.to_row, rbind, UUID.
      rewrite Hr, Ev.
      destruct (negb (String.eqb (actor_id e) "anonymous")).
      * destruct (PyUUID.UUID (actor_id e)); [|eexists; reflexivity].
        destruct (PyUUID.UUID (tenant_id e)); eexists; reflexivity.
      * destruct (PyUUID.UUID (tenant_id e)); eexists; reflexivity.
  - apply (to_row_of_uuids e draws _ _ (PyUUID.uuid_str uuid4) uuid4); auto.
    now apply UUID_uuid_str.
Qed.

End EndToEnd.

Lemma login_token_authenticates_witness :
  exists user',
    In user' [{| UserModel.id := UserModel.id Toy.alice;
                 UserModel.tenant_id := UserModel.tenant_id Toy.alice;
                 UserModel.email := "alice@example.org";
                 UserModel.hashed_password := "hash:wonderland";
                 UserModel.full_name := Some "Alice";
                 UserModel.roles := ["user"; "admin"];
                 UserModel.is_active := true;
                 UserModel.is_verified := true;
                 UserModel.last_login_at := Some 40%Z;
                 UserModel.created_at := 0;
                 UserModel.updated_at := 50 |}; Toy.bob; ToyUsers.carol]
    /\ UserModel.id user' = UserModel.id Toy.alice
    /\ UserModel.tenant_id user' = UserModel.tenant_id Toy.alice
    /\ UserModel.email user' = UserModel.email Toy.alice
    /\ @Deps.get_current_user_optional Toy.one_access_token
         (Some {| Deps.scheme := "Bearer"; Deps.credentials := "token" |})
         70 [{| UserModel.id := UserModel.id Toy.alice;
                UserModel.tenant_id := UserModel.tenant_id Toy.alice;
                UserModel.email := "alice@example.org";
                UserModel.hashed_password := "hash:wonderland";
                UserModel.full_name := Some "Alice";
                UserModel.roles := ["user"; "admin"];
                UserModel.is_active := true;
                UserModel.is_verified := true;
                UserModel.last_login_at := Some 40%Z;
                UserModel.created_at := 0;
                UserModel.updated_at := 50 |}; Toy.bob; ToyUsers.carol]
         (Some Samples.ctx_anonymous)
       = (Return (Some user'),
          Some (Deps.with_user Samples.ctx_anonymous user')).
Proof.
  apply (@login_token_authenticates Toy.one_access_token
           {| Schemas.LoginRequest.email := "alice@example.org";
              Schemas.LoginRequest.password := "wonderland" |}
           40%Z 50%Z 60%Z 61%Z ToyUsers.users
           (@AuthApi.tokens Toy.one_access_token Toy.alice 60 61)
           _ Toy.alice 70%Z Toy.access_payload Samples.ctx_anonymous).
  - distinct_keys.
  - unfold UuidSpec.user_uuid128, UuidSpec.uuid128.
    repeat constructor; simpl; lia.
  - simpl. tauto.
  - reflexivity.
  - reflexivity.
  - reflexivity.
  - reflexivity.
  - reflexivity.
Defined.

Lemma authenticated_request_is_audited_witness :
  exists row,
    DatabaseAuditLogger.to_row
      {| actor_id := Samples.alice; actor_type := "user";
         actor_ip := Some "192.0.2.10"; action := DELETE;
         action_detail := None;
         resource_type := "user"; resource_id := "42";
         tenant_id := Samples.alpha;
         request_id := "00000000-0000-0000-0000-000000000007";
         session_id := None; timestamp := 36000000000;
         old_values := None; new_values := None;
         success := true; error_message := None;
         data_classification := INTERNAL |}
      (Samples.draws 1) = Ok row
    /\ AuditLogModel.actor_id row = UserModel.id Toy.alice
    /\ AuditLogModel.tenant_id row = UserModel.tenant_id Toy.alice
    /\ AuditLogModel.request_id row = 7%N
    /\ AuditLogModel.session_id row = None.
Proof.
  apply (@authenticated_request_is_audited Toy.one_access_token
           Samples.pydantic Samples.request_plain 7%N (Some Toy.bearer) 5%Z ToyUsers.users
           Toy.alice
           (Some (Deps.with_user
                    (Middleware.dispatch_context Samples.request_plain 7%N)
                    Toy.alice))
           Samples.env DELETE "user" "42" ∅).
  - unfold UuidSpec.user_uuid128, UuidSpec.uuid128.
    repeat constructor; simpl; lia.
  - unfold UuidSpec.uuid128. lia.
  - vm_compute. reflexivity.
  - vm_compute. reflexivity.
Defined.
